(** * The transaction throttler

    A shallow embedding of
    [go/vt/vttablet/tabletserver/txthrottler/tx_throttler.go]:
    the [TxThrottler] facade ([NewTxThrottler], [InitDBConfig], [Open],
    [Close], [Throttle]), the open state [txThrottlerState] with its
    construction and tear-down, and the health-event consumer started by
    [createTxThrottlerHealthCheck].

    Go objects reached through pointers that the code shares (the
    [querypb.Target] messages, the [txThrottlerState] captured by the
    consumer goroutine) live in stores indexed by address.  The collaborators
    the file reaches through interfaces and factory variables (the wrapped
    throttler, the health check, the topology watchers, the logger) are
    handles; every call made on them is appended to a trace. *)

From Stdlib Require Import ZArith Lia.
From Stdlib Require Strings.Byte.
From stdpp Require Import base option list strings sorting.

Local Open Scope string_scope.
Local Open Scope list_scope.

(** Addresses in a store, and identities of collaborator objects. *)
Definition loc := nat.
Definition handle := nat.

(** ** Messages of the imported packages *)

Module topodatapb.

(** The roles of [topodatapb.TabletType]. *)
Inductive TabletType :=
  UNKNOWN | PRIMARY | REPLICA | RDONLY | SPARE | EXPERIMENTAL | BACKUP
| RESTORE | DRAINED.

#[global] Instance TabletType_eq_dec : EqDecision TabletType.
Proof. solve_decision. Defined.

(** The fields of [topodatapb.Tablet] that place a tablet in the topology. *)
Record Tablet := mkTablet {
  Keyspace : string;
  Shard : string
}.

End topodatapb.

Module querypb.

(** [querypb.Target]. *)
Record Target := mkTarget {
  Keyspace : string;
  Shard : string;
  TabletType : topodatapb.TabletType;
  Cell : string
}.

End querypb.

Module throttlerdatapb.

(** [throttlerdatapb.Configuration]: of the tuning block this file reads
    [MaxReplicationLagSec] only; it hands the rest on as it is. *)
Record Configuration := mkConfiguration {
  TargetReplicationLagSec : Z;
  MaxReplicationLagSec : Z
}.

End throttlerdatapb.

Module discovery.

(** [discovery.TabletHealth]: the tablet identity, the target (a pointer,
    so possibly nil) and the reported lag. *)
Record TabletHealth := mkTabletHealth {
  Tablet : string;
  Target : option querypb.Target;
  ReplicationLagSeconds : Z
}.

(** The tablet filter this file builds,
    [discovery.NewFilterByKeyspace(selectedKeyspaces)]: it is made from
    names of keyspaces and from nothing else. *)
Inductive TabletFilter :=
| NewFilterByKeyspace (selectedKeyspaces : list string).

(** Modelled from the spec: which tablets a watcher with this filter
    publishes.  The code of the filter is in package [discovery], not in
    this file; by section 4.4 a watcher "filters to the throttler's
    keyspace". *)
Definition IsIncluded (f : TabletFilter) (tablet : topodatapb.Tablet) : bool :=
  match f with
  | NewFilterByKeyspace selectedKeyspaces =>
      bool_decide (topodatapb.Keyspace tablet ∈ selectedKeyspaces)
  end.

(** What [discovery.NewCellTabletsWatcher] is given after its context. *)
Record CellTabletsWatcher := NewCellTabletsWatcher {
  watcher_topoServer : option handle;
  watcher_healthCheck : option handle;
  watcher_filter : TabletFilter;
  watcher_cell : string;
  watcher_refreshInterval : Z;
  watcher_refreshKnownTablets : bool;
  watcher_topoReadConcurrency : Z
}.

End discovery.

Module tabletenv.

(** The fields of [tabletenv.TabletConfig] read by [tryCreateTxThrottler]. *)
Record TabletConfig := mkTabletConfig {
  EnableTxThrottler : bool;
  TxThrottlerConfig : string;
  TxThrottlerHealthCheckCells : list string
}.

End tabletenv.

(** ** Data of the package *)

(** [txThrottlerConfig].  [topoServer] and [throttlerConfig] are pointers;
    [&txThrottlerConfig{enabled: false}] leaves both nil. *)
Record txThrottlerConfig := mkConfig {
  enabled : bool;
  topoServer : option handle;
  throttlerConfig : option throttlerdatapb.Configuration;
  healthCheckCells : list string
}.

(** Go [error] values: the one this file builds itself,
    [fmt.Errorf("empty healthCheckCells given. %+v", config)], and whatever
    a collaborator returns. *)
Inductive error :=
| empty_healthCheckCells (config : txThrottlerConfig)
| collaborator_error (msg : string).

(** [txThrottlerState]; [stopHealthCheck] is the cancel function of the
    context named by the handle.  [throttleMu] only serialises concurrent
    callers and has no counterpart in this sequential model. *)
Record txThrottlerState := mkState {
  throttler : option handle;
  stopHealthCheck : option handle;
  healthCheck : option handle;
  topologyWatchers : list handle
}.

(** [TxThrottler]; [state] and [target] are pointers, nil when [None]. *)
Record TxThrottler := mkTxThrottler {
  config : txThrottlerConfig;
  state : option loc;
  target : option loc
}.

(** The goroutine started by [createTxThrottlerHealthCheck]: the context it
    watches, the channel it reads and the [result] its closure captured. *)
Record Task := mkTask {
  task_ctx : handle;
  task_ch : handle;
  task_result : loc
}.

Inductive Level := INFO | ERROR.

Inductive LogArg :=
| no_arg
| arg_error (err : error)
| arg_config (c : txThrottlerConfig).

(** What the file does to its collaborators, in program order. *)
Inductive Event :=
| EThrottlerFactory (name unit_ : string) (threadCount maxRate
    maxReplicationLag : Z) (res : option handle)
| EUpdateConfiguration (th : handle) (c : throttlerdatapb.Configuration)
    (copyZeroValues : bool)
| EThrottlerClose (th : handle)
| EThrottle (th : handle) (threadID : Z)
| ERecordReplicationLag (th : handle) (time : Z) (ev : discovery.TabletHealth)
| EHealthCheckFactory (hc : handle) (topo : option handle) (cell : string)
    (cellsToWatch : list string)
| ESubscribe (hc ch : handle)
| EHealthCheckClose (hc : handle)
| ETopologyWatcherFactory (wt : handle) (topo : option handle)
    (hc : option handle) (cell keyspace shard : string)
    (refreshInterval topoReadConcurrency : Z)
| EWatcherStop (wt : handle)
| ELog (lvl : Level) (format : string) (arg : LogArg).

(** The world outside the [TxThrottler] struct. *)
Record World := mkWorld {
  targets : list querypb.Target;   (* querypb.Target messages, by address *)
  states : list txThrottlerState;  (* txThrottlerState objects, by address *)
  cancelled : list handle;         (* contexts whose cancel was called *)
  tasks : list Task;               (* goroutines started *)
  trace : list Event;              (* calls on collaborators, oldest first *)
  clock : Z;                       (* what time.Now() reads *)
  fresh : handle                   (* next unused object identity *)
}.

(** A [TxThrottler] together with the world it runs in. *)
Record Sys := mkSys {
  this : TxThrottler;
  world : World
}.

(** The package-level environment: how the objects produced by the factory
    variables answer (tests override them with mocks), the verifier and the
    text parser the constructor calls, and the constants of the imported
    packages. *)
Record Env := mkEnv {
  throttlerFactory_err : string -> string -> Z -> Z -> Z -> World -> option error;
  UpdateConfiguration_err :
    handle -> throttlerdatapb.Configuration -> bool -> World -> option error;
  Throttle_wait : handle -> Z -> World -> Z;
  Verify : throttlerdatapb.Configuration -> option error;
  Unmarshal : string -> throttlerdatapb.Configuration + error;
  MaxRateModuleDisabled : Z;
  DefaultTopologyWatcherRefreshInterval : Z;
  DefaultTopoReadConcurrency : Z
}.

(** ** Computations that may panic *)

Inductive PanicVal :=
| panic_msg (msg : string)   (* panic("...") *)
| nil_dereference            (* runtime error: nil pointer dereference *)
| bad_address.               (* an address outside its store; Go has none *)

Inductive Res (S A : Type) :=
| Ret (a : A) (s : S)
| Panicked (p : PanicVal) (s : S).
Arguments Ret {S A} a s.
Arguments Panicked {S A} p s.

Definition M (S A : Type) : Type := S -> Res S A.

Definition ret {S A} (a : A) : M S A := fun s => Ret a s.

Definition bind {S A B} (m : M S A) (k : A -> M S B) : M S B :=
  fun s => match m s with
           | Ret a s' => k a s'
           | Panicked p s' => Panicked p s'
           end.

Definition panic {S A} (p : PanicVal) : M S A := fun s => Panicked p s.

Declare Scope go_scope.
Delimit Scope go_scope with go.
Notation "x <- c1 ;; c2" := (bind c1 (fun x => c2))
  (at level 20, c1 at level 99, c2 at level 200, only parsing) : go_scope.
Notation "c1 ;; c2" := (bind c1 (fun _ => c2))
  (at level 100, c2 at level 200, only parsing, right associativity) : go_scope.
Local Open Scope go_scope.

(** Dereference of a Go pointer held as an option. *)
Definition deref {S A} (p : option A) : M S A :=
  match p with
  | Some a => ret a
  | None => panic nil_dereference
  end.

(** Run a computation on the world inside a system. *)
Definition liftW {A} (m : M World A) : M Sys A :=
  fun s => match m (world s) with
           | Ret a w => Ret a (mkSys (this s) w)
           | Panicked p w => Panicked p (mkSys (this s) w)
           end.

Definition get_this : M Sys TxThrottler := fun s => Ret (this s) s.

Definition set_state (p : option loc) : M Sys unit :=
  fun s => Ret tt (mkSys (mkTxThrottler (config (this s)) p (target (this s)))
                         (world s)).

Definition set_target (p : option loc) : M Sys unit :=
  fun s => Ret tt (mkSys (mkTxThrottler (config (this s)) (state (this s)) p)
                         (world s)).

(** ** Primitive effects on the world *)

Definition with_trace (tr : list Event) (w : World) : World :=
  mkWorld (targets w) (states w) (cancelled w) (tasks w) tr (clock w) (fresh w).

Definition with_fresh (n : handle) (w : World) : World :=
  mkWorld (targets w) (states w) (cancelled w) (tasks w) (trace w) (clock w) n.

Definition with_targets (ts : list querypb.Target) (w : World) : World :=
  mkWorld ts (states w) (cancelled w) (tasks w) (trace w) (clock w) (fresh w).

Definition with_states (ss : list txThrottlerState) (w : World) : World :=
  mkWorld (targets w) ss (cancelled w) (tasks w) (trace w) (clock w) (fresh w).

Definition with_tasks (ts : list Task) (w : World) : World :=
  mkWorld (targets w) (states w) (cancelled w) ts (trace w) (clock w) (fresh w).

Definition with_cancelled (cs : list handle) (w : World) : World :=
  mkWorld (targets w) (states w) cs (tasks w) (trace w) (clock w) (fresh w).

Definition emit (e : Event) : M World unit :=
  fun w => Ret tt (with_trace (trace w ++ [e]) w).

Definition new_handle : M World handle :=
  fun w => Ret (fresh w) (with_fresh (S (fresh w)) w).

Definition log_Info (msg : string) : M World unit := emit (ELog INFO msg no_arg).

Definition time_Now : M World Z := fun w => Ret (clock w) w.

(** [*p] for a [*querypb.Target]. *)
Definition load_target (p : option loc) : M World querypb.Target :=
  l <- deref p ;;
  fun w => match targets w !! l with
           | Some tg => Ret tg w
           | None => Panicked bad_address w
           end.

(** [&txThrottlerState{...}]. *)
Definition alloc_state (st : txThrottlerState) : M World loc :=
  fun w => Ret (length (states w)) (with_states (states w ++ [st]) w).

Definition load_state (l : loc) : M World txThrottlerState :=
  fun w => match states w !! l with
           | Some st => Ret st w
           | None => Panicked bad_address w
           end.

Definition store_state (l : loc) (st : txThrottlerState) : M World unit :=
  fun w => Ret tt (with_states (<[l := st]> (states w)) w).

Definition modify_state (l : loc) (f : txThrottlerState -> txThrottlerState)
  : M World unit :=
  st <- load_state l ;; store_state l (f st).

Definition set_throttler (v : option handle) (st : txThrottlerState) :=
  mkState v (stopHealthCheck st) (healthCheck st) (topologyWatchers st).

Definition set_stopHealthCheck (v : option handle) (st : txThrottlerState) :=
  mkState (throttler st) v (healthCheck st) (topologyWatchers st).

Definition set_healthCheck (v : option handle) (st : txThrottlerState) :=
  mkState (throttler st) (stopHealthCheck st) v (topologyWatchers st).

Definition set_topologyWatchers (v : list handle) (st : txThrottlerState) :=
  mkState (throttler st) (stopHealthCheck st) (healthCheck st) v.

(** [context.WithCancel(context.Background())]: a new context, named by a
    handle; its cancel function is [cancel] of that handle. *)
Definition context_WithCancel : M World handle := new_handle.

Definition cancel (ctx : handle) : M World unit :=
  fun w => Ret tt (with_cancelled (ctx :: cancelled w) w).

(** [go func(ctx) {...}(ctx)]. *)
Definition go (tk : Task) : M World unit :=
  fun w => Ret tt (with_tasks (tasks w ++ [tk]) w).

(** [proto.Clone(target)] of a [querypb.Target]: a deep copy at a new address;
    the clone of a nil message is nil. *)
Definition proto_Clone (target : option loc) : M World (option loc) :=
  match target with
  | None => ret None
  | Some l =>
      tg <- load_target (Some l) ;;
      fun w => Ret (Some (length (targets w)))
                   (with_targets (targets w ++ [tg]) w)
  end.

(** ** The package *)

Section Package.

Variable E : Env.

(** *** Calls on the collaborators *)

Definition throttlerFactory (name unit_ : string)
    (threadCount maxRate maxReplicationLag : Z) : M World (handle + error) :=
  fun w =>
    match throttlerFactory_err E name unit_ threadCount maxRate
            maxReplicationLag w with
    | Some err =>
        (emit (EThrottlerFactory name unit_ threadCount maxRate
                 maxReplicationLag None) ;;
         ret (inr err)) w
    | None =>
        (h <- new_handle ;;
         emit (EThrottlerFactory name unit_ threadCount maxRate
                 maxReplicationLag (Some h)) ;;
         ret (inl h)) w
    end.

Definition throttler_UpdateConfiguration (t : handle)
    (c : throttlerdatapb.Configuration) (copyZeroValues : bool)
  : M World (option error) :=
  fun w =>
    (emit (EUpdateConfiguration t c copyZeroValues) ;;
     ret (UpdateConfiguration_err E t c copyZeroValues w)) w.

Definition throttler_Close (t : handle) : M World unit :=
  emit (EThrottlerClose t).

Definition throttler_Throttle (t : handle) (threadID : Z) : M World Z :=
  fun w => (emit (EThrottle t threadID) ;; ret (Throttle_wait E t threadID w)) w.

Definition throttler_RecordReplicationLag (t : handle) (time : Z)
    (th : discovery.TabletHealth) : M World unit :=
  emit (ERecordReplicationLag t time th).

Definition healthCheckFactory (topo : option handle) (cell : string)
    (cellsToWatch : list string) : M World handle :=
  hc <- new_handle ;;
  emit (EHealthCheckFactory hc topo cell cellsToWatch) ;;
  ret hc.

Definition healthCheck_Subscribe (hc : handle) : M World handle :=
  ch <- new_handle ;;
  emit (ESubscribe hc ch) ;;
  ret ch.

Definition healthCheck_Close (hc : handle) : M World unit :=
  emit (EHealthCheckClose hc).

Definition topologyWatcherFactory (topo hc : option handle)
    (cell keyspace shard : string) (refreshInterval topoReadConcurrency : Z)
  : M World handle :=
  wt <- new_handle ;;
  emit (ETopologyWatcherFactory wt topo hc cell keyspace shard refreshInterval
          topoReadConcurrency) ;;
  ret wt.

Definition watcher_Stop (wt : handle) : M World unit := emit (EWatcherStop wt).

(** *** Construction *)

Definition TxThrottlerName : string := "TransactionThrottler".

(** [Verify] reads the fields of the embedded configuration pointer, hence
    the dereference. *)
Definition newTxThrottler (config : txThrottlerConfig)
  : M World (TxThrottler + error) :=
  if enabled config then
    c <- deref (throttlerConfig config) ;;
    match Verify E c with
    | Some err => ret (inr err)
    | None =>
        if decide (length (healthCheckCells config) = 0)
        then ret (inr (empty_healthCheckCells config))
        else ret (inl (mkTxThrottler config None None))
    end
  else ret (inl (mkTxThrottler config None None)).

Definition disabled_config : txThrottlerConfig := mkConfig false None None [].

Definition tryCreateTxThrottler (config : tabletenv.TabletConfig)
    (topoServer : option handle) : M World (TxThrottler + error) :=
  if negb (tabletenv.EnableTxThrottler config) then
    newTxThrottler disabled_config
  else
    match Unmarshal E (tabletenv.TxThrottlerConfig config) with
    | inr err => ret (inr err)
    | inl throttlerConfig =>
        let healthCheckCells := tabletenv.TxThrottlerHealthCheckCells config in
        newTxThrottler
          (mkConfig true topoServer (Some throttlerConfig) healthCheckCells)
    end.

Definition creation_error_format : string :=
  "Error creating transaction throttler. Transaction throttling will be disabled. Error: %v".

Definition NewTxThrottler (config : tabletenv.TabletConfig)
    (topoServer : option handle) : M World TxThrottler :=
  r <- tryCreateTxThrottler config topoServer ;;
  match r with
  | inr err =>
      emit (ELog ERROR creation_error_format (arg_error err)) ;;
      r' <- newTxThrottler disabled_config ;;
      match r' with
      | inr _ =>
          panic (panic_msg "BUG: Can't create a disabled transaction throttler")
      | inl txThrottler => ret txThrottler
      end
  | inl txThrottler =>
      emit (ELog INFO "Initialized transaction throttler with config: %+v"
              (arg_config (let 'mkTxThrottler c _ _ := txThrottler in c))) ;;
      ret txThrottler
  end.

(** *** The open state *)

Definition createTxThrottlerHealthCheck (config : txThrottlerConfig)
    (result : loc) (cell : string) : M World unit :=
  ctx <- context_WithCancel ;;
  modify_state result (set_stopHealthCheck (Some ctx)) ;;
  hc <- healthCheckFactory (topoServer config) cell (healthCheckCells config) ;;
  modify_state result (set_healthCheck (Some hc)) ;;
  st <- load_state result ;;
  hc' <- deref (healthCheck st) ;;
  ch <- healthCheck_Subscribe hc' ;;
  go (mkTask ctx ch result).

(** The loop of [newTxThrottlerState] over [config.healthCheckCells]. *)
Fixpoint watch_cells (config : txThrottlerConfig) (result : loc)
    (keyspace shard : string) (cells : list string) : M World unit :=
  match cells with
  | [] => ret tt
  | cell :: rest =>
      st <- load_state result ;;
      wt <- topologyWatcherFactory (topoServer config) (healthCheck st) cell
              keyspace shard (DefaultTopologyWatcherRefreshInterval E)
              (DefaultTopoReadConcurrency E) ;;
      modify_state result
        (fun st' => set_topologyWatchers (topologyWatchers st' ++ [wt]) st') ;;
      watch_cells config result keyspace shard rest
  end.

Definition newTxThrottlerState (config : txThrottlerConfig)
    (keyspace shard cell : string) : M World (loc + error) :=
  c <- deref (throttlerConfig config) ;;
  r <- throttlerFactory TxThrottlerName "TPS" 1 (MaxRateModuleDisabled E)
         (throttlerdatapb.MaxReplicationLagSec c) ;;
  match r with
  | inr err => ret (inr err)
  | inl t =>
      e <- throttler_UpdateConfiguration t c true ;;
      match e with
      | Some err => throttler_Close t ;; ret (inr err)
      | None =>
          result <- alloc_state (mkState (Some t) None None []) ;;
          createTxThrottlerHealthCheck config result cell ;;
          modify_state result (set_topologyWatchers []) ;;
          watch_cells config result keyspace shard (healthCheckCells config) ;;
          ret (inl result)
      end
  end.

Definition throttle (ts : loc) : M World bool :=
  st <- load_state ts ;;
  match throttler st with
  | None =>
      panic (panic_msg "BUG: throttle called after deallocateResources was called.")
  | Some th =>
      d <- throttler_Throttle th 0 ;;
      ret (0 <? d)%Z
  end.

Fixpoint stop_watchers (ws : list handle) : M World unit :=
  match ws with
  | [] => ret tt
  | watcher :: rest => watcher_Stop watcher ;; stop_watchers rest
  end.

Definition deallocateResources (ts : loc) : M World unit :=
  st <- load_state ts ;;
  stop_watchers (topologyWatchers st) ;;
  modify_state ts (set_topologyWatchers []) ;;
  st <- load_state ts ;;
  hc <- deref (healthCheck st) ;;
  healthCheck_Close hc ;;
  modify_state ts (set_healthCheck None) ;;
  st <- load_state ts ;;
  th <- deref (throttler st) ;;
  throttler_Close th ;;
  modify_state ts (set_throttler None).

Definition StatsUpdate (ts : loc) (tabletStats : option discovery.TabletHealth)
  : M World unit :=
  th <- deref tabletStats ;;
  tg <- deref (discovery.Target th) ;;
  if decide (querypb.TabletType tg <> topodatapb.REPLICA) then ret tt
  else
    st <- load_state ts ;;
    now <- time_Now ;;
    t <- deref (throttler st) ;;
    throttler_RecordReplicationLag t now th.

(** *** The consumer goroutine *)

(** The case a [select] of the loop takes: the context is done, or a value
    arrives on the channel (nil from a closed channel). *)
Inductive Select :=
| ctx_Done
| recv (th : option discovery.TabletHealth).

Inductive Status := Returned | Looping.

Definition ready (w : World) (tk : Task) (sel : Select) : bool :=
  match sel with
  | ctx_Done => bool_decide (task_ctx tk ∈ cancelled w)
  | recv _ => true
  end.

(** One iteration of the loop, at a case that is ready. *)
Definition consumer (tk : Task) (sel : Select) : M World Status :=
  match sel with
  | ctx_Done => ret Returned
  | recv th => StatsUpdate (task_result tk) th ;; ret Looping
  end.

(** *** The facade *)

Definition InitDBConfig (target : option loc) : M Sys unit :=
  c <- liftW (proto_Clone target) ;;
  set_target c.

Definition Open : M Sys (option error) :=
  t <- get_this ;;
  if negb (enabled (config t)) then ret None
  else
    match state t with
    | Some _ => ret None
    | None =>
        liftW (log_Info "TxThrottler: opening") ;;
        tg <- liftW (load_target (target t)) ;;
        r <- liftW (newTxThrottlerState (config t) (querypb.Keyspace tg)
                      (querypb.Shard tg) (querypb.Cell tg)) ;;
        match r with
        | inl st => set_state (Some st) ;; ret None
        | inr err => set_state None ;; ret (Some err)
        end
    end.

Definition Close : M Sys unit :=
  t <- get_this ;;
  if negb (enabled (config t)) then ret tt
  else
    match state t with
    | None => ret tt
    | Some st =>
        liftW (deallocateResources st) ;;
        set_state None ;;
        liftW (log_Info "TxThrottler: closed")
    end.

Definition Throttle : M Sys bool :=
  t <- get_this ;;
  if negb (enabled (config t)) then ret false
  else
    match state t with
    | None => panic (panic_msg "BUG: Throttle() called on a closed TxThrottler")
    | Some st => liftW (throttle st)
    end.

End Package.

(** ** The factory installed by [resetTxThrottlerFactories] *)

(** The function [resetTxThrottlerFactories] assigns to
    [topologyWatcherFactory]: the watcher it builds filters by the keyspace;
    the [shard] it is given appears nowhere in the call. *)
Definition resetTxThrottlerFactories_topologyWatcherFactory
    (topoServer hc : option handle) (cell keyspace shard : string)
    (refreshInterval topoReadConcurrency : Z) : discovery.CellTabletsWatcher :=
  discovery.NewCellTabletsWatcher topoServer hc
    (discovery.NewFilterByKeyspace [keyspace]) cell refreshInterval true
    topoReadConcurrency.

(** The watcher behind a call of [topologyWatcherFactory] on the trace when
    the factory is the one above. *)
Definition default_watcher (e : Event) : option discovery.CellTabletsWatcher :=
  match e with
  | ETopologyWatcherFactory _ topo hc cell keyspace shard refreshInterval
      topoReadConcurrency =>
      Some (resetTxThrottlerFactories_topologyWatcherFactory topo hc cell
              keyspace shard refreshInterval topoReadConcurrency)
  | _ => None
  end.

(** ** Callers *)

(** A caller of the facade.  [call_InitDBConfig] passes a pointer to a
    message the caller has just built ([None]: a nil pointer). *)
Inductive Call :=
| call_Open
| call_Close
| call_InitDBConfig (msg : option querypb.Target)
| call_Throttle.

Inductive Reply :=
| reply_Open (err : option error)
| reply_Close
| reply_InitDBConfig
| reply_Throttle (result : bool).

(** [&querypb.Target{...}] on the caller's side. *)
Definition new_target (tg : querypb.Target) : M World loc :=
  fun w => Ret (length (targets w)) (with_targets (targets w ++ [tg]) w).

(** The caller writes through a pointer it holds. *)
Definition write_target (l : loc) (tg : querypb.Target) (w : World) : World :=
  with_targets (<[l := tg]> (targets w)) w.

Definition do_call (E : Env) (c : Call) : M Sys Reply :=
  match c with
  | call_Open => err <- Open E ;; ret (reply_Open err)
  | call_Close => Close ;; ret reply_Close
  | call_InitDBConfig None => InitDBConfig None ;; ret reply_InitDBConfig
  | call_InitDBConfig (Some tg) =>
      p <- liftW (new_target tg) ;;
      InitDBConfig (Some p) ;;
      ret reply_InitDBConfig
  | call_Throttle => b <- Throttle E ;; ret (reply_Throttle b)
  end.

Fixpoint run (E : Env) (cs : list Call) : M Sys (list Reply) :=
  match cs with
  | [] => ret []
  | c :: rest =>
      r <- do_call E c ;;
      rs <- run E rest ;;
      ret (r :: rs)
  end.

(** ** Resource accounting on a trace *)

Definition acquired (e : Event) : option handle :=
  match e with
  | EThrottlerFactory _ _ _ _ _ (Some h) => Some h
  | EHealthCheckFactory hc _ _ _ => Some hc
  | ETopologyWatcherFactory wt _ _ _ _ _ _ _ => Some wt
  | _ => None
  end.

Definition released (e : Event) : option handle :=
  match e with
  | EThrottlerClose h => Some h
  | EHealthCheckClose h => Some h
  | EWatcherStop h => Some h
  | _ => None
  end.

(** The collaborators a trace acquires and does not release. *)
Definition live (tr : list Event) : list handle :=
  list_difference (omap acquired tr) (omap released tr).

(** The goroutines whose context is not cancelled: their [ctx.Done()] case
    is not ready, so they cannot take their [return]. *)
Definition running (w : World) : list Task :=
  filter (fun tk => task_ctx tk ∉ cancelled w) (tasks w).

(** ** Sample environments and inputs *)

Definition sample_configuration : throttlerdatapb.Configuration :=
  throttlerdatapb.mkConfiguration 2 10.

(** Every collaborator succeeds; the throttler never asks to wait. *)
Definition env_ok : Env :=
  mkEnv (fun _ _ _ _ _ _ => None) (fun _ _ _ _ => None) (fun _ _ _ => 0%Z)
        (fun _ => None) (fun _ => inl sample_configuration)
        9223372036854775807 60000000000 5.

(** [throttlerFactory] fails while no factory call is on the trace yet, and
    succeeds afterwards. *)
Definition env_factory_fails_once : Env :=
  mkEnv (fun _ _ _ _ _ w =>
           if decide (length (trace w) <= 1)%nat
           then Some (collaborator_error "already registered") else None)
        (fun _ _ _ _ => None) (fun _ _ _ => 0%Z)
        (fun _ => None) (fun _ => inl sample_configuration)
        9223372036854775807 60000000000 5.

(** [UpdateConfiguration] rejects the configuration. *)
Definition env_update_fails : Env :=
  mkEnv (fun _ _ _ _ _ _ => None)
        (fun _ _ _ _ => Some (collaborator_error "bad configuration"))
        (fun _ _ _ => 0%Z)
        (fun _ => None) (fun _ => inl sample_configuration)
        9223372036854775807 60000000000 5.

(** The verifier rejects every configuration. *)
Definition env_verify_fails : Env :=
  mkEnv (fun _ _ _ _ _ _ => None) (fun _ _ _ _ => None) (fun _ _ _ => 0%Z)
        (fun _ => Some (collaborator_error "target_replication_lag_sec must be >= 1"))
        (fun _ => inl sample_configuration)
        9223372036854775807 60000000000 5.

(** The parser rejects every text. *)
Definition env_parse_fails : Env :=
  mkEnv (fun _ _ _ _ _ _ => None) (fun _ _ _ _ => None) (fun _ _ _ => 0%Z)
        (fun _ => None) (fun _ => inr (collaborator_error "proto: syntax error"))
        9223372036854775807 60000000000 5.

Definition empty_world : World := mkWorld [] [] [] [] [] 0 0.

Definition sample_target : querypb.Target :=
  querypb.mkTarget "ks" "0" topodatapb.PRIMARY "zone1".

Definition enabled_config : txThrottlerConfig :=
  mkConfig true (Some 0%nat) (Some sample_configuration) ["zone1"; "zone2"].

(** A closed, enabled throttler whose target was initialised. *)
Definition sample_world : World := mkWorld [sample_target] [] [] [] [] 100 1.

Definition sample_closed : Sys :=
  mkSys (mkTxThrottler enabled_config None (Some 0%nat)) sample_world.

(** A closed, enabled throttler on which [InitDBConfig] was never called. *)
Definition sample_no_target : Sys :=
  mkSys (mkTxThrottler enabled_config None None) empty_world.

Definition sample_disabled : Sys :=
  mkSys (mkTxThrottler disabled_config None None) empty_world.

(** What a disabled throttler answers to a call. *)
Definition disabled_reply (c : Call) : Reply :=
  match c with
  | call_Open => reply_Open None
  | call_Close => reply_Close
  | call_InitDBConfig _ => reply_InitDBConfig
  | call_Throttle => reply_Throttle false
  end.

(** What [InitDBConfig] leaves alone, for a caller that passes nil or a
    message it has just built. *)
Definition same_but_target (s s' : Sys) : Prop :=
  config (this s') = config (this s) /\
  state (this s') = state (this s) /\
  states (world s') = states (world s) /\
  cancelled (world s') = cancelled (world s) /\
  tasks (world s') = tasks (world s) /\
  trace (world s') = trace (world s) /\
  fresh (world s') = fresh (world s).

(** Writes the caller makes, one after the other, through pointers it
    holds. *)
Definition write_targets (ws : list (loc * querypb.Target)) (w : World)
  : World :=
  foldl (fun w' x => write_target x.1 x.2 w') w ws.

(** The throttler of [sample_closed] once opened with [env_ok]. *)
Definition sample_open : Sys :=
  mkSys (mkTxThrottler enabled_config (Some 0%nat) (Some 0%nat))
    (mkWorld [sample_target]
       [mkState (Some 1%nat) (Some 2%nat) (Some 3%nat) [5%nat; 6%nat]]
       []
       [mkTask 2 4 0]
       [ELog INFO "TxThrottler: opening" no_arg;
        EThrottlerFactory "TransactionThrottler" "TPS" 1 9223372036854775807
          10 (Some 1%nat);
        EUpdateConfiguration 1 sample_configuration true;
        EHealthCheckFactory 3 (Some 0%nat) "zone1" ["zone1"; "zone2"];
        ESubscribe 3 4;
        ETopologyWatcherFactory 5 (Some 0%nat) (Some 3%nat) "zone1" "ks" "0"
          60000000000 5;
        ETopologyWatcherFactory 6 (Some 0%nat) (Some 3%nat) "zone2" "ks" "0"
          60000000000 5]
       100 7).

(** The goroutine [Open] started for [sample_open]. *)
Definition sample_task : Task := mkTask 2 4 0.

(** A replica of another keyspace and shard. *)
Definition foreign_target : querypb.Target :=
  querypb.mkTarget "other" "-80" topodatapb.REPLICA "zone1".

(** A replica of the keyspace of [sample_target], in another shard: its
    entry in the topology and a health event it sends. *)
Definition other_shard_tablet : topodatapb.Tablet :=
  topodatapb.mkTablet "ks" "-80".

Definition other_shard_target : querypb.Target :=
  querypb.mkTarget "ks" "-80" topodatapb.REPLICA "zone1".

Definition other_shard_event : discovery.TabletHealth :=
  discovery.mkTabletHealth "zone1-0000000104" (Some other_shard_target) 60.

Definition replica_event : discovery.TabletHealth :=
  discovery.mkTabletHealth "zone1-0000000102"
    (Some (querypb.mkTarget "ks" "0" topodatapb.REPLICA "zone1")) 3.

Definition rdonly_event : discovery.TabletHealth :=
  discovery.mkTabletHealth "zone1-0000000103"
    (Some (querypb.mkTarget "ks" "0" topodatapb.RDONLY "zone1")) 900.

(** No context was cancelled and no goroutine was dropped between two
    worlds. *)
Definition keeps_tasks (w w' : World) : Prop :=
  cancelled w' = cancelled w /\ exists new, tasks w' = tasks w ++ new.

(** A computation that cancels no context and drops no goroutine, however
    it ends. *)
Definition quiet {S A} (f : S -> World) (m : M S A) : Prop :=
  forall s,
    match m s with
    | Ret _ s' => keeps_tasks (f s) (f s')
    | Panicked _ s' => keeps_tasks (f s) (f s')
    end.

(** ** Descriptions used by the properties of the open interval *)

(** The calls of [topologyWatcherFactory] made by the loop over the cells:
    one per cell, in order, with consecutive identities from [first]. *)
Definition watcher_events (E : Env) (cfg : txThrottlerConfig)
    (hc : option handle) (keyspace shard : string) (first : handle)
    (cells : list string) : list Event :=
  imap (fun i cell =>
          ETopologyWatcherFactory (first + i) (topoServer cfg) hc cell keyspace
            shard (DefaultTopologyWatcherRefreshInterval E)
            (DefaultTopoReadConcurrency E)) cells.

(** The open state [newTxThrottlerState] builds when its first handle is
    [h] and there are [n] cells. *)
Definition built_state (h : handle) (n : nat) : txThrottlerState :=
  mkState (Some h) (Some (S h)) (Some (S (S h))) (seq (h + 4) n).

(** What a successful [newTxThrottlerState] appends to the trace. *)
Definition built_events (E : Env) (cfg : txThrottlerConfig)
    (c : throttlerdatapb.Configuration) (keyspace shard cell : string)
    (h : handle) : list Event :=
  [EThrottlerFactory TxThrottlerName "TPS" 1 (MaxRateModuleDisabled E)
     (throttlerdatapb.MaxReplicationLagSec c) (Some h);
   EUpdateConfiguration h c true;
   EHealthCheckFactory (S (S h)) (topoServer cfg) cell (healthCheckCells cfg);
   ESubscribe (S (S h)) (S (S (S h)))] ++
  watcher_events E cfg (Some (S (S h))) keyspace shard (h + 4)
    (healthCheckCells cfg).

(** The collaborators an open state holds. *)
Definition owned (st : txThrottlerState) : list handle :=
  option_list (throttler st) ++ option_list (healthCheck st) ++
  topologyWatchers st.

(** Every collaborator acquired and not released on the trace is held by the
    state the throttler points to, and the other way round; an open state
    holds its throttler and its health check. *)
Definition accounted (s : Sys) : Prop :=
  match state (this s) with
  | None => live (trace (world s)) = []
  | Some l =>
      exists st th hc,
        states (world s) !! l = Some st /\
        throttler st = Some th /\
        healthCheck st = Some hc /\
        live (trace (world s)) = owned st
  end.

(** The identities on the trace are below the next unused one. *)
Definition bounded (w : World) : Prop :=
  Forall (fun h => (h < fresh w)%nat)
    (omap acquired (trace w) ++ omap released (trace w)).

(** The world in which [newTxThrottlerState] calls [UpdateConfiguration]. *)
Definition after_factory (E : Env) (c : throttlerdatapb.Configuration)
    (w : World) : World :=
  with_trace
    (trace w ++
     [EThrottlerFactory TxThrottlerName "TPS" 1 (MaxRateModuleDisabled E)
        (throttlerdatapb.MaxReplicationLagSec c) (Some (fresh w))])
    (with_fresh (S (fresh w)) w).

Definition use_after_deallocate : PanicVal :=
  panic_msg "BUG: throttle called after deallocateResources was called.".

Definition throttle_on_closed : PanicVal :=
  panic_msg "BUG: Throttle() called on a closed TxThrottler".

(** The bookkeeping invariant. *)
Definition sound (s : Sys) : Prop := accounted s /\ bounded (world s).

(** An enabled throttler has what [Open] dereferences: a configuration and
    a target that points to a message. *)
Definition usable (s : Sys) : Prop :=
  enabled (config (this s)) = true ->
  is_Some (throttlerConfig (config (this s))) /\
  exists l tg, target (this s) = Some l /\ targets (world s) !! l = Some tg.

(** What [Open], [Close] and [Throttle] leave alone. *)
Definition same_target (s s' : Sys) : Prop :=
  config (this s') = config (this s) /\
  target (this s') = target (this s) /\
  targets (world s') = targets (world s).

(** What an outcome of [Open], [Close] or [Throttle] from [s] satisfies. *)
Definition sound_outcome {A} (s : Sys) (r : Res Sys A) : Prop :=
  match r with
  | Ret _ s' => sound s' /\ same_target s s'
  | Panicked p s' =>
      sound s' /\ same_target s s' /\
      (p = throttle_on_closed \/
       (~ usable s /\ (p = nil_dereference \/ p = bad_address)))
  end.

(** What a call of the facade from [s] satisfies. *)
Definition call_outcome {A} (s : Sys) (ok : Prop) (r : Res Sys A) : Prop :=
  match r with
  | Ret _ s' => sound s' /\ (usable s -> ok -> usable s')
  | Panicked p s' =>
      sound s' /\
      (p = throttle_on_closed \/ p = nil_dereference \/ p = bad_address) /\
      (usable s -> ok -> p = throttle_on_closed)
  end.

(** Why a call [c] of the facade made on [s] panics with [p]: the throttler
    is enabled and closed, and the call is [Throttle], which panics with its
    message, or it is [Open], which dereferences a nil target, or a target
    address outside the store (the store has such addresses, Go has not), or,
    in [newTxThrottlerState], a nil configuration. *)
Definition panic_cause (s : Sys) (c : Call) (p : PanicVal) : Prop :=
  enabled (config (this s)) = true /\
  state (this s) = None /\
  ((c = call_Throttle /\ p = throttle_on_closed) \/
   (c = call_Open /\
    ((target (this s) = None /\ p = nil_dereference) \/
     (exists l,
        target (this s) = Some l /\ targets (world s) !! l = None /\
        p = bad_address) \/
     (exists l tg,
        target (this s) = Some l /\ targets (world s) !! l = Some tg /\
        throttlerConfig (config (this s)) = None /\ p = nil_dereference)))).

(** Collaborators that never fail: the factory and [UpdateConfiguration]
    succeed in every world. *)
Definition never_fails (E : Env) : Prop :=
  (forall name unit_ n r l w, throttlerFactory_err E name unit_ n r l w = None) /\
  (forall h c b w, UpdateConfiguration_err E h c b w = None).

(** * The plan builder (second part of the source file)

    An embedding of the functions of [planbuilder/builder.go] whose logic
    is in the file itself: the choice of the planner, and the plans of
    database DDL and FLUSH.  What they take from other packages (the
    vschema, the rendering of a statement, [sort.Slice], the query timeout)
    is a parameter. *)

Module vtrpcpb.

Inductive Code :=
  Code_INTERNAL | Code_NOT_FOUND | Code_ALREADY_EXISTS | Code_UNIMPLEMENTED.

End vtrpcpb.

Module vterrors.

(** The error states named in this file; [Undefined] for an error made
    without one. *)
Inductive State := Undefined | DbDropExists | BadDb | DbCreateExists.

End vterrors.

Module key.

(** The types of package [key] that implement [key.Destination] (the
    package is not part of this file).  Four of them are slices; a key
    range is held through a pointer.  The plans pass a destination on and,
    in [buildFlushTables], make it part of the key of a map. *)
Inductive Destination :=
| DestinationShard (shard : string)
| DestinationShards (shards : list string)
| DestinationExactKeyRange (KeyRange : option loc)
| DestinationKeyRange (KeyRange : option loc)
| DestinationKeyRanges (ranges : list (option loc))
| DestinationKeyspaceID (id : list Byte.byte)
| DestinationKeyspaceIDs (ids : list (list Byte.byte))
| DestinationAllShards
| DestinationNone
| DestinationAnyShard.

#[global] Instance byte_eq_dec : EqDecision Byte.byte := Byte.byte_eq_dec.

#[global] Instance Destination_eq_dec : EqDecision Destination.
Proof. solve_decision. Defined.

(** Whether Go can hash a value of the interface: a slice cannot be hashed,
    and using one inside the key of a map is a run-time panic. *)
Definition hashable (d : Destination) : bool :=
  match d with
  | DestinationShards _ | DestinationKeyRanges _ | DestinationKeyspaceID _
  | DestinationKeyspaceIDs _ => false
  | _ => true
  end.

End key.

Module vindexes.

Record Keyspace := mkKeyspace {
  Name : string;
  Sharded : bool
}.

(** [vindexes.Table]: its name and the address of its keyspace. *)
Record Table := mkTable {
  TableName : string;
  TableKeyspace : loc
}.

End vindexes.

Module sqlparser.

(** [sqlparser.TableName]. *)
Record TableName := mkTableName {
  Name : string;
  Qualifier : string
}.

(** [sqlparser.Flush]. *)
Record Flush := mkFlush {
  IsLocal : bool;
  FlushOptions : list string;
  TableNames : list TableName;
  WithLock : bool;
  ForExport : bool
}.

(** The statements that implement [sqlparser.DBDDLStatement]; [Comments]
    stands for the parsed comments of the statement. *)
Inductive DBDDLStatement :=
| DropDatabase (DBName : string) (IfExists : bool) (Comments : list string)
| AlterDatabase (DBName : string)
| CreateDatabase (DBName : string) (IfNotExists : bool)
    (Comments : list string).

Definition GetDatabaseName (s : DBDDLStatement) : string :=
  match s with
  | DropDatabase n _ _ => n
  | AlterDatabase n => n
  | CreateDatabase n _ _ => n
  end.

End sqlparser.

Module plancontext.

(** [plancontext.PlannerVersion], the planner versions of [querypb]. *)
Inductive PlannerVersion :=
  DEFAULT_PLANNER | V3 | Gen4 | Gen4GreedyOnly | Gen4Left2Right
| Gen4WithFallback | Gen4CompareV3.

#[global] Instance PlannerVersion_eq_dec : EqDecision PlannerVersion.
Proof. solve_decision. Defined.

End plancontext.

Module planbuilder.

(** Errors returned by the builders: the ones made with [vterrors], the
    [vindexes.NotFoundError], and whatever a vschema method returned. *)
Inductive planerror :=
| vterror (code : vtrpcpb.Code) (st : vterrors.State) (format : string)
    (args : list string)
| NotFoundError (TableName : string)
| vschema_error (msg : string).

(** [engine.Send], with the fields this file sets. *)
Record Send := mkSend {
  SendKeyspace : loc;
  TargetDestination : key.Destination;
  Query : string;
  IsDML : bool;
  SingleShardOnly : bool
}.

(** The [engine.Primitive]s built here. *)
#[warnings="-register-all"]
Inductive Primitive :=
| RowsPrimitive                                  (* engine.NewRowsPrimitive, no rows *)
| DBDDL (name : string) (create : bool) (timeout : Z)   (* engine.NewDBDDL *)
| SendPrimitive (s : Send)
| Concatenate (sources : list Primitive).        (* engine.NewConcatenate *)

(** The methods of [plancontext.VSchema] called here.  Pointers to
    keyspaces are addresses; [keyspace_at] reads one. *)
Record VSchema := mkVSchema {
  Planner : plancontext.PlannerVersion;
  Destination : option key.Destination;
  DefaultKeyspace : loc + planerror;
  KeyspaceExists : string -> bool;
  TargetDestination_ : string -> (option key.Destination * loc) + planerror;
  FindTableOrVindex : sqlparser.TableName -> option vindexes.Table + planerror;
  keyspace_at : loc -> vindexes.Keyspace
}.

(** What [getPlannerFromQuery] observes of a statement: the value of the
    planner directive in its comments, if it has comments and the
    directive, and whether [sqlparser.Walk] meets a [JoinTableExpr] whose
    join is a left or a right join. *)
Record Observed := mkObserved {
  planner_directive : option string;
  has_outer_join : bool
}.

(** The planner functions [getConfiguredPlanner] chooses between. *)
Inductive stmtPlanner :=
| gen4CompareV3Planner (query : string)
| gen4Planner (query : string) (version : plancontext.PlannerVersion)
| fallbackPlanner (primary fallback : stmtPlanner)
| v3planner (query : string).

(** The panic of a map operation whose key holds a value that cannot be
    hashed ("runtime error: hash of unhashable type ..."). *)
Inductive runtime_error :=
| hash_of_unhashable_type (d : key.Destination).

(** How a call ends: it returns, or the run time panics. *)
Inductive Outcome (A : Type) :=
| returns (a : A)
| panics (e : runtime_error).
Arguments returns {A} a.
Arguments panics {A} e.

(** The key of the map in [buildFlushTables]. *)
Record sendDest := mkSendDest {
  ks : loc;
  dest : key.Destination
}.

#[global] Instance sendDest_eq_dec : EqDecision sendDest.
Proof. solve_decision. Defined.

(** A Go map as the list of its entries, one per key; [tablesMap[k]] and
    [tablesMap[k] = v]. *)
Fixpoint map_get {K V} `{EqDecision K} (k : K) (m : list (K * V))
  : option V :=
  match m with
  | [] => None
  | e :: rest => if decide (e.1 = k) then Some e.2 else map_get k rest
  end.

Fixpoint map_set {K V} `{EqDecision K} (k : K) (v : V) (m : list (K * V))
  : list (K * V) :=
  match m with
  | [] => [(k, v)]
  | e :: rest => if decide (e.1 = k) then (k, v) :: rest
                 else e :: map_set k v rest
  end.

Section builder.

(** [plancontext.PlannerNameToVersion]. *)
Variable PlannerNameToVersion : string -> plancontext.PlannerVersion * bool.

(** [sqlparser.String] on a [Flush] statement. *)
Variable sqlparser_String : sqlparser.Flush -> string.

(** [queryTimeout] of the directives of the comments. *)
Variable queryTimeout : list string -> Z.

(** [sort.Slice(keys, less)] with [less] comparing the names of the
    keyspaces. *)
Variable sort_Slice : list sendDest -> list sendDest.

Variable vschema : VSchema.

Definition getPlannerFromQueryHint (stmt : Observed)
  : plancontext.PlannerVersion * bool :=
  match planner_directive stmt with
  | None => (plancontext.DEFAULT_PLANNER, false)
  | Some val => PlannerNameToVersion val
  end.

Definition getPlannerFromQuery (stmt : Observed)
  : plancontext.PlannerVersion * bool :=
  let (version, found) := getPlannerFromQueryHint stmt in
  if found then (version, found)
  else if has_outer_join stmt then (plancontext.Gen4, true)
  else (version, found).

Definition getConfiguredPlanner (stmt : Observed) (query : string)
  : stmtPlanner :=
  let (planner, ok) := getPlannerFromQuery stmt in
  let planner := if ok then planner else Planner vschema in
  match planner with
  | plancontext.Gen4CompareV3 => gen4CompareV3Planner query
  | plancontext.Gen4Left2Right | plancontext.Gen4GreedyOnly =>
      gen4Planner query planner
  | plancontext.Gen4WithFallback =>
      fallbackPlanner (gen4Planner query plancontext.Gen4) (v3planner query)
  | plancontext.V3 => v3planner query
  | _ => gen4Planner query plancontext.Gen4
  end.

Definition buildDBDDLPlan (dbDDLstmt : sqlparser.DBDDLStatement)
  : Primitive + planerror :=
  let ksName := sqlparser.GetDatabaseName dbDDLstmt in
  let resolved :=
    if decide (ksName = "") then
      match DefaultKeyspace vschema with
      | inr err => inr err
      | inl ks => inl (vindexes.Name (keyspace_at vschema ks))
      end
    else inl ksName in
  match resolved with
  | inr err => inr err
  | inl ksName =>
      let ksExists := KeyspaceExists vschema ksName in
      match dbDDLstmt with
      | sqlparser.DropDatabase _ IfExists Comments =>
          if IfExists && negb ksExists then inl RowsPrimitive
          else if negb ksExists then
            inr (vterror vtrpcpb.Code_NOT_FOUND vterrors.DbDropExists
                   "Can't drop database '%s'; database doesn't exists"
                   [ksName])
          else inl (DBDDL ksName false (queryTimeout Comments))
      | sqlparser.AlterDatabase _ =>
          if negb ksExists then
            inr (vterror vtrpcpb.Code_NOT_FOUND vterrors.BadDb
                   "Can't alter database '%s'; unknown database" [ksName])
          else
            inr (vterror vtrpcpb.Code_UNIMPLEMENTED vterrors.Undefined
                   "alter database is not supported" [])
      | sqlparser.CreateDatabase _ IfNotExists Comments =>
          if IfNotExists && ksExists then inl RowsPrimitive
          else if negb IfNotExists && ksExists then
            inr (vterror vtrpcpb.Code_ALREADY_EXISTS vterrors.DbCreateExists
                   "Can't create database '%s'; database exists" [ksName])
          else inl (DBDDL ksName true (queryTimeout Comments))
      end
  end.

Definition newFlushStmt (stmt : sqlparser.Flush)
    (tables : list sqlparser.TableName) : sqlparser.Flush :=
  sqlparser.mkFlush (sqlparser.IsLocal stmt) [] tables
    (sqlparser.WithLock stmt) (sqlparser.ForExport stmt).

Definition buildFlushOptions (stmt : sqlparser.Flush)
  : Primitive + planerror :=
  match TargetDestination_ vschema "" with
  | inr err => inr err
  | inl (dest, keyspace) =>
      let dest := default key.DestinationAllShards dest in
      inl (SendPrimitive
             (mkSend keyspace dest (sqlparser_String stmt) false false))
  end.

Definition with_TableNames (names : list sqlparser.TableName)
    (stmt : sqlparser.Flush) : sqlparser.Flush :=
  sqlparser.mkFlush (sqlparser.IsLocal stmt) (sqlparser.FlushOptions stmt)
    names (sqlparser.WithLock stmt) (sqlparser.ForExport stmt).

(** The first loop of [buildFlushTables], from index [i] on: [rest] are the
    elements still to visit, [names] is [stmt.TableNames] as rewritten so
    far.  It ends with an error, or with the map and the keys, or in the
    panic of [tablesMap[key]] when the destination in the key cannot be
    hashed; the name of that round is already rewritten then. *)
Fixpoint flush_tables_loop (d : key.Destination) (i : nat)
    (rest names : list sqlparser.TableName)
    (tablesMap : list (sendDest * list sqlparser.TableName))
    (keys : list sendDest)
  : Outcome (planerror + list (sendDest * list sqlparser.TableName) *
                         list sendDest)
    * list sqlparser.TableName :=
  match rest with
  | [] => (returns (inr (tablesMap, keys)), names)
  | tab :: rest' =>
      match FindTableOrVindex vschema tab with
      | inr err => (returns (inl err), names)
      | inl None => (returns (inl (NotFoundError (sqlparser.Name tab))), names)
      | inl (Some table) =>
          let name' := sqlparser.mkTableName (vindexes.TableName table) "" in
          let names' := <[i := name']> names in
          let key := mkSendDest (vindexes.TableKeyspace table) d in
          if key.hashable d then
            let found := map_get key tablesMap in
            let keys' := match found with
                         | Some _ => keys
                         | None => keys ++ [key]
                         end in
            let tables := default [] found ++ [name'] in
            flush_tables_loop d (S i) rest' names'
              (map_set key tables tablesMap) keys'
          else (panics (hash_of_unhashable_type d), names')
      end
  end.

Definition flush_send (stmt : sqlparser.Flush)
    (tablesMap : list (sendDest * list sqlparser.TableName)) (sd : sendDest)
  : Primitive :=
  SendPrimitive
    (mkSend (ks sd) (dest sd)
       (sqlparser_String
          (newFlushStmt stmt (default [] (map_get sd tablesMap))))
       false false).

(** [buildFlushTables] returns its result, or panics, and leaves [stmt]
    rewritten. *)
Definition buildFlushTables (stmt : sqlparser.Flush)
  : Outcome (Primitive + planerror) * sqlparser.Flush :=
  let d := default key.DestinationAllShards (Destination vschema) in
  match flush_tables_loop d 0 (sqlparser.TableNames stmt)
          (sqlparser.TableNames stmt) [] [] with
  | (panics e, names) => (panics e, with_TableNames names stmt)
  | (returns (inl err), names) =>
      (returns (inr err), with_TableNames names stmt)
  | (returns (inr (tablesMap, keys)), names) =>
      let stmt' := with_TableNames names stmt in
      match tablesMap with
      | [(sd, tables)] =>
          (returns
             (inl (SendPrimitive
                     (mkSend (ks sd) (dest sd)
                        (sqlparser_String (newFlushStmt stmt' tables))
                        false false))),
           stmt')
      | _ =>
          (returns
             (inl (Concatenate
                     (flush_send stmt' tablesMap <$> sort_Slice keys))),
           stmt')
      end
  end.

Definition buildFlushPlan (stmt : sqlparser.Flush)
  : Outcome (Primitive + planerror) * sqlparser.Flush :=
  if decide (length (sqlparser.TableNames stmt) = 0)
  then (returns (buildFlushOptions stmt), stmt)
  else buildFlushTables stmt.

End builder.

(** The order [sort.Slice] is asked for: by the name of the keyspace. *)
Definition by_name (V : VSchema) (a b : sendDest) : Prop :=
  String.leb (vindexes.Name (keyspace_at V (ks a)))
    (vindexes.Name (keyspace_at V (ks b))) = true.

(** What [sort.Slice] guarantees with that order. *)
Definition sorts (V : VSchema) (sort_Slice : list sendDest -> list sendDest)
  : Prop :=
  forall l, sort_Slice l ≡ₚ l /\ Sorted (by_name V) (sort_Slice l).

(** The name [buildDBDDLPlan] works with. *)
Definition resolved_name (V : VSchema) (stmt : sqlparser.DBDDLStatement)
  : string + planerror :=
  if decide (sqlparser.GetDatabaseName stmt = "") then
    match DefaultKeyspace V with
    | inr err => inr err
    | inl ks => inl (vindexes.Name (keyspace_at V ks))
    end
  else inl (sqlparser.GetDatabaseName stmt).

(** What one round of the loop of [buildFlushTables] records for a table
    the vschema knows: the key of its keyspace and its name without
    qualifier. *)
Definition resolve (V : VSchema) (d : key.Destination)
    (tab : sqlparser.TableName) : option (sendDest * sqlparser.TableName) :=
  match FindTableOrVindex V tab with
  | inl (Some table) =>
      Some (mkSendDest (vindexes.TableKeyspace table) d,
            sqlparser.mkTableName (vindexes.TableName table) "")
  | _ => None
  end.

(** The error of a table the vschema does not resolve. *)
Definition resolve_error (V : VSchema) (tab : sqlparser.TableName)
  : planerror :=
  match FindTableOrVindex V tab with
  | inr err => err
  | _ => NotFoundError (sqlparser.Name tab)
  end.

(** The names recorded under a key, in the order of the statement. *)
Definition tables_for (sd : sendDest)
    (P : list (sendDest * sqlparser.TableName)) : list sqlparser.TableName :=
  snd <$> filter (fun e => e.1 = sd) P.

(** The loop keeps the map, the keys and the names in step. *)
Definition in_step (m : list (sendDest * list sqlparser.TableName))
    (keys : list sendDest) (P : list (sendDest * sqlparser.TableName))
  : Prop :=
  m.*1 = keys /\ NoDup keys /\
  (forall sd, sd ∈ keys <-> sd ∈ P.*1) /\
  (forall sd, sd ∈ keys -> map_get sd m = Some (tables_for sd P)).

(** The [Send] that [buildFlushTables] builds for a key. *)
Definition flush_source (sqlparser_String : sqlparser.Flush -> string)
    (stmt : sqlparser.Flush) (P : list (sendDest * sqlparser.TableName))
    (sd : sendDest) : Primitive :=
  SendPrimitive
    (mkSend (ks sd) (dest sd)
       (sqlparser_String (newFlushStmt stmt (tables_for sd P))) false false).

#[global] Instance by_name_dec (V : VSchema) (a b : sendDest) :
  Decision (by_name V a b).
Proof. unfold by_name. apply _. Defined.

(** ** Sample inputs *)

Definition sample_keyspaces (l : loc) : vindexes.Keyspace :=
  match l with
  | O => vindexes.mkKeyspace "commerce" false
  | _ => vindexes.mkKeyspace "customer" true
  end.

Definition sample_find (tab : sqlparser.TableName)
  : option vindexes.Table + planerror :=
  if String.eqb (sqlparser.Name tab) "product"
  then inl (Some (vindexes.mkTable "product" 0))
  else if String.eqb (sqlparser.Name tab) "orders"
  then inl (Some (vindexes.mkTable "orders" 1))
  else if String.eqb (sqlparser.Name tab) "customer"
  then inl (Some (vindexes.mkTable "customer" 1))
  else inl None.

Definition sample_vschema : VSchema :=
  mkVSchema plancontext.V3 None (inl 0%nat)
    (fun n => String.eqb n "commerce" || String.eqb n "customer")
    (fun _ => inl (None, 0%nat)) sample_find sample_keyspaces.

(** A rendering of a [Flush] that shows its tables. *)
Definition sample_String (f : sqlparser.Flush) : string :=
  "flush tables " +:+ String.concat ", " (sqlparser.Name <$> sqlparser.TableNames f).

(** [sort.Slice] as a merge sort on the names of the keyspaces. *)
Definition sample_sort : list sendDest -> list sendDest :=
  merge_sort (by_name sample_vschema).

Definition sample_flush : sqlparser.Flush :=
  sqlparser.mkFlush false []
    [sqlparser.mkTableName "orders" "customer";
     sqlparser.mkTableName "product" "";
     sqlparser.mkTableName "customer" ""] false false.

Definition sample_flush_unknown : sqlparser.Flush :=
  sqlparser.mkFlush false []
    [sqlparser.mkTableName "orders" "customer";
     sqlparser.mkTableName "nosuch" "commerce";
     sqlparser.mkTableName "product" "commerce"] false false.

(** A vschema whose session targets a keyspace id: the destination is a
    slice of bytes. *)
Definition sample_vschema_keyspace_id : VSchema :=
  mkVSchema plancontext.V3 (Some (key.DestinationKeyspaceID [Byte.x80]))
    (inl 0%nat)
    (fun n => String.eqb n "commerce" || String.eqb n "customer")
    (fun _ => inl (None, 0%nat)) sample_find sample_keyspaces.

(** The planner names as [plancontext.PlannerNameToVersion] reads them. *)
Definition sample_names (name : string) : plancontext.PlannerVersion * bool :=
  if String.eqb name "v3" then (plancontext.V3, true)
  else if String.eqb name "gen4" then (plancontext.Gen4, true)
  else (plancontext.DEFAULT_PLANNER, false).

End planbuilder.

(** * Properties *)

(** ** Stores *)

Lemma lookup_alloc {A} (l : list A) (x : A) : (l ++ [x]) !! length l = Some x.
Proof. by rewrite list_lookup_middle. Qed.

(** ** A disabled throttler *)

Lemma Open_disabled (E : Env) (s : Sys) :
  enabled (config (this s)) = false -> Open E s = Ret None s.
Proof. intros H. unfold Open, bind, get_this. by rewrite H. Qed.

Lemma Close_disabled (s : Sys) :
  enabled (config (this s)) = false -> Close s = Ret tt s.
Proof. intros H. unfold Close, bind, get_this. by rewrite H. Qed.

Lemma Throttle_disabled (E : Env) (s : Sys) :
  enabled (config (this s)) = false -> Throttle E s = Ret false s.
Proof. intros H. unfold Throttle, bind, get_this. by rewrite H. Qed.

Lemma same_but_target_refl (s : Sys) : same_but_target s s.
Proof. by repeat split. Qed.

Lemma same_but_target_trans (s1 s2 s3 : Sys) :
  same_but_target s1 s2 -> same_but_target s2 s3 -> same_but_target s1 s3.
Proof.
  unfold same_but_target. intros (?&?&?&?&?&?&?) (?&?&?&?&?&?&?).
  repeat split; congruence.
Qed.

Lemma InitDBConfig_nil (s : Sys) :
  exists s', InitDBConfig None s = Ret tt s' /\ same_but_target s s' /\
             target (this s') = None.
Proof. eexists. split; [reflexivity|]. by repeat split. Qed.

Lemma InitDBConfig_new_target (s : Sys) (tg : querypb.Target) :
  exists s',
    (p <- liftW (new_target tg) ;; InitDBConfig (Some p)) s = Ret tt s' /\
    same_but_target s s'.
Proof.
  destruct s as [t w].
  unfold bind, liftW, new_target, InitDBConfig, bind, liftW, proto_Clone,
    load_target, bind, deref, ret. simpl.
  rewrite lookup_alloc. simpl.
  eexists. split; [reflexivity|]. by repeat split.
Qed.

Lemma do_call_disabled (E : Env) (c : Call) (s : Sys) :
  enabled (config (this s)) = false ->
  exists s', do_call E c s = Ret (disabled_reply c) s' /\ same_but_target s s'.
Proof.
  intros H. destruct c as [| |[tg|]|]; simpl; unfold bind.
  - rewrite Open_disabled by done. eauto using same_but_target_refl.
  - rewrite Close_disabled by done. eauto using same_but_target_refl.
  - destruct (InitDBConfig_new_target s tg) as (s' & Hs' & Hsame).
    unfold bind in Hs'. destruct (liftW (new_target tg) s); [|done].
    rewrite Hs'. eauto.
  - destruct (InitDBConfig_nil s) as (s' & -> & Hsame & _). eauto.
  - rewrite Throttle_disabled by done. eauto using same_but_target_refl.
Qed.

Lemma run_disabled (E : Env) (cs : list Call) (s : Sys) :
  enabled (config (this s)) = false ->
  exists s', run E cs s = Ret (map disabled_reply cs) s' /\
             same_but_target s s'.
Proof.
  revert s. induction cs as [|c cs IH]; intros s H; simpl.
  - eauto using same_but_target_refl.
  - destruct (do_call_disabled E c s H) as (s1 & Hc & Hsame1).
    assert (H1 : enabled (config (this s1)) = false).
    { destruct Hsame1 as (-> & _). done. }
    destruct (IH s1 H1) as (s2 & Hr & Hsame2).
    exists s2. unfold bind. rewrite Hc, Hr.
    eauto using same_but_target_trans.
Qed.

(** C1: with [enabled = false], [Open] and [Close] return at once and leave
    the throttler and the world exactly as they were, and every sequence of
    calls to [Open], [Close], [InitDBConfig] and [Throttle] runs to its end
    with [false] answered to every [Throttle]; the trace of calls on
    collaborators, the open states, the goroutines and the [state] field are
    those from before the sequence. *)
Theorem disabled_admits_and_touches_nothing (E : Env) (cs : list Call)
    (s : Sys) :
  enabled (config (this s)) = false ->
  Open E s = Ret None s /\
  Close s = Ret tt s /\
  Throttle E s = Ret false s /\
  exists s', run E cs s = Ret (map disabled_reply cs) s' /\
             same_but_target s s'.
Proof.
  intros H.
  auto using Open_disabled, Close_disabled, Throttle_disabled, run_disabled.
Qed.

Lemma disabled_admits_and_touches_nothing_witness :
  Open env_ok sample_disabled = Ret None sample_disabled /\
  Close sample_disabled = Ret tt sample_disabled /\
  Throttle env_ok sample_disabled = Ret false sample_disabled /\
  exists s',
    run env_ok
      [call_Open; call_Throttle; call_InitDBConfig (Some sample_target);
       call_Throttle; call_Close; call_Throttle] sample_disabled =
    Ret [reply_Open None; reply_Throttle false; reply_InitDBConfig;
         reply_Throttle false; reply_Close; reply_Throttle false] s' /\
    same_but_target sample_disabled s'.
Proof.
  apply (disabled_admits_and_touches_nothing env_ok
           [call_Open; call_Throttle; call_InitDBConfig (Some sample_target);
            call_Throttle; call_Close; call_Throttle] sample_disabled).
  reflexivity.
Defined.

(** ** Programmer errors *)

(** C2: [Throttle] on an enabled throttler whose [state] is nil panics with
    the message of the source instead of returning a verdict. *)
Theorem Throttle_closed_panics (E : Env) (s : Sys) :
  enabled (config (this s)) = true ->
  state (this s) = None ->
  Throttle E s =
  Panicked (panic_msg "BUG: Throttle() called on a closed TxThrottler") s.
Proof.
  intros He Hs. unfold Throttle, bind, get_this. by rewrite He, Hs.
Qed.

Lemma Throttle_closed_panics_witness :
  Throttle env_ok sample_closed =
  Panicked (panic_msg "BUG: Throttle() called on a closed TxThrottler")
    sample_closed.
Proof.
  apply (Throttle_closed_panics env_ok sample_closed); reflexivity.
Defined.

(** C10: [Open] on an enabled, closed throttler whose [target] is nil (no
    [InitDBConfig] yet, or [InitDBConfig(nil)]) dereferences the nil target
    and panics, after the log line and before any collaborator is built. *)
Theorem Open_without_target_panics (E : Env) (s : Sys) :
  enabled (config (this s)) = true ->
  state (this s) = None ->
  target (this s) = None ->
  Open E s =
  Panicked nil_dereference
    (mkSys (this s)
       (with_trace (trace (world s) ++ [ELog INFO "TxThrottler: opening" no_arg])
          (world s))).
Proof.
  intros He Hs Ht. unfold Open, bind, get_this. rewrite He, Hs. simpl.
  unfold liftW, log_Info, emit, load_target, bind. simpl. by rewrite Ht.
Qed.

Lemma Open_without_target_panics_witness :
  Open env_ok sample_no_target =
  Panicked nil_dereference
    (mkSys (this sample_no_target)
       (with_trace [ELog INFO "TxThrottler: opening" no_arg] empty_world)).
Proof.
  apply (Open_without_target_panics env_ok sample_no_target); reflexivity.
Defined.

(** ** Construction *)

Lemma newTxThrottler_disabled (E : Env) (w : World) :
  newTxThrottler E disabled_config w =
  Ret (inl (mkTxThrottler disabled_config None None)) w.
Proof. reflexivity. Qed.

Lemma tryCreateTxThrottler_invalid (E : Env) (cfg : tabletenv.TabletConfig)
    (topo : option handle) (w : World) (err : error) :
  tabletenv.EnableTxThrottler cfg = true ->
  (Unmarshal E (tabletenv.TxThrottlerConfig cfg) = inr err \/
   exists c,
     Unmarshal E (tabletenv.TxThrottlerConfig cfg) = inl c /\
     (Verify E c = Some err \/
      (Verify E c = None /\
       tabletenv.TxThrottlerHealthCheckCells cfg = [] /\
       err = empty_healthCheckCells (mkConfig true topo (Some c) [])))) ->
  tryCreateTxThrottler E cfg topo w = Ret (inr err) w.
Proof.
  intros He Hbad. unfold tryCreateTxThrottler. rewrite He. simpl.
  destruct Hbad as [-> | (c & -> & Hc)]; [done|].
  unfold newTxThrottler, bind, deref, ret. simpl.
  destruct Hc as [-> | (-> & Hcells & ->)]; [done|].
  by rewrite Hcells.
Qed.

(** C6: when the throttler is enabled and its configuration is invalid,
    [NewTxThrottler] returns normally: it logs the error of the failure and
    returns a disabled, closed throttler, which answers [false] to every
    [Throttle] of every sequence of calls.  The error logged is the parser's
    when the text does not parse; the verifier's when the text parses and
    the verifier rejects it; and the error about the empty list of cells,
    made from the configuration that was being built, when the verifier
    accepts and the list of cells is empty. *)
Theorem NewTxThrottler_invalid_config_disabled (E : Env)
    (cfg : tabletenv.TabletConfig) (topo : option handle) (w : World)
    (err : error) :
  tabletenv.EnableTxThrottler cfg = true ->
  (Unmarshal E (tabletenv.TxThrottlerConfig cfg) = inr err \/
   exists c,
     Unmarshal E (tabletenv.TxThrottlerConfig cfg) = inl c /\
     (Verify E c = Some err \/
      (Verify E c = None /\
       tabletenv.TxThrottlerHealthCheckCells cfg = [] /\
       err = empty_healthCheckCells (mkConfig true topo (Some c) [])))) ->
  exists t,
    NewTxThrottler E cfg topo w =
    Ret t (with_trace
             (trace w ++ [ELog ERROR creation_error_format (arg_error err)]) w)
    /\ enabled (config t) = false
    /\ state t = None
    /\ forall cs w0, exists s',
         run E cs (mkSys t w0) = Ret (map disabled_reply cs) s' /\
         same_but_target (mkSys t w0) s'.
Proof.
  intros He Hbad.
  pose proof (tryCreateTxThrottler_invalid E cfg topo w err He Hbad) as Hty.
  exists (mkTxThrottler disabled_config None None).
  split; [|split; [done|split; [done|]]].
  - unfold NewTxThrottler, bind. rewrite Hty. reflexivity.
  - intros cs w0. by apply run_disabled.
Qed.

Lemma NewTxThrottler_invalid_config_disabled_witness :
  (exists t,
     NewTxThrottler env_ok (tabletenv.mkTabletConfig true "" []) (Some 0%nat)
       empty_world =
     Ret t (with_trace
              (trace empty_world ++
               [ELog ERROR creation_error_format
                  (arg_error
                     (empty_healthCheckCells
                        (mkConfig true (Some 0%nat) (Some sample_configuration)
                           [])))]) empty_world)
     /\ enabled (config t) = false
     /\ state t = None
     /\ forall cs w0, exists s',
          run env_ok cs (mkSys t w0) = Ret (map disabled_reply cs) s' /\
          same_but_target (mkSys t w0) s') /\
  (exists t,
     NewTxThrottler env_verify_fails (tabletenv.mkTabletConfig true "" [])
       (Some 0%nat) empty_world =
     Ret t (with_trace
              (trace empty_world ++
               [ELog ERROR creation_error_format
                  (arg_error
                     (collaborator_error
                        "target_replication_lag_sec must be >= 1"))])
              empty_world)
     /\ enabled (config t) = false
     /\ state t = None
     /\ forall cs w0, exists s',
          run env_verify_fails cs (mkSys t w0) = Ret (map disabled_reply cs) s' /\
          same_but_target (mkSys t w0) s') /\
  (exists t,
     NewTxThrottler env_parse_fails
       (tabletenv.mkTabletConfig true "max_replication_lag_sec: x" ["zone1"])
       (Some 0%nat) empty_world =
     Ret t (with_trace
              (trace empty_world ++
               [ELog ERROR creation_error_format
                  (arg_error (collaborator_error "proto: syntax error"))])
              empty_world)
     /\ enabled (config t) = false
     /\ state t = None
     /\ forall cs w0, exists s',
          run env_parse_fails cs (mkSys t w0) = Ret (map disabled_reply cs) s' /\
          same_but_target (mkSys t w0) s').
Proof.
  split; [|split].
  - apply (NewTxThrottler_invalid_config_disabled env_ok
             (tabletenv.mkTabletConfig true "" []) (Some 0%nat) empty_world).
    + reflexivity.
    + right. exists sample_configuration. split; [reflexivity|]. right.
      split; [reflexivity|]. split; reflexivity.
  - apply (NewTxThrottler_invalid_config_disabled env_verify_fails
             (tabletenv.mkTabletConfig true "" []) (Some 0%nat) empty_world).
    + reflexivity.
    + right. exists sample_configuration. split; [reflexivity|]. left.
      reflexivity.
  - apply (NewTxThrottler_invalid_config_disabled env_parse_fails
             (tabletenv.mkTabletConfig true "max_replication_lag_sec: x"
                ["zone1"]) (Some 0%nat) empty_world).
    + reflexivity.
    + left. reflexivity.
Defined.

(** ** The fan-in *)

Lemma StatsUpdate_not_replica (ts : loc) (th : discovery.TabletHealth)
    (tg : querypb.Target) (w : World) :
  discovery.Target th = Some tg ->
  querypb.TabletType tg <> topodatapb.REPLICA ->
  StatsUpdate ts (Some th) w = Ret tt w.
Proof.
  intros Htg Hrole. unfold StatsUpdate, bind, deref, ret. simpl.
  rewrite Htg. by destruct (decide _).
Qed.

Lemma StatsUpdate_replica (ts : loc) (th : discovery.TabletHealth)
    (tg : querypb.Target) (st : txThrottlerState) (h : handle) (w : World) :
  discovery.Target th = Some tg ->
  querypb.TabletType tg = topodatapb.REPLICA ->
  states w !! ts = Some st ->
  throttler st = Some h ->
  StatsUpdate ts (Some th) w =
  Ret tt (with_trace (trace w ++ [ERecordReplicationLag h (clock w) th]) w).
Proof.
  intros Htg Hrole Hst Hh.
  unfold StatsUpdate, bind, deref, ret, load_state, time_Now. simpl.
  rewrite Htg. destruct (decide _) as [Hne|_]; [done|].
  rewrite Hst, Hh. reflexivity.
Qed.

(** C7: an event received by the consumer whose role is not REPLICA is
    discarded with no effect at all; an event whose role is REPLICA, received
    while the state still holds its throttler, is handed to
    [RecordReplicationLag] together with the time read on receipt.  The
    consumer keeps looping in both cases. *)
Theorem consumer_retains_replicas_only (tk : Task)
    (th : discovery.TabletHealth) (tg : querypb.Target) (w : World) :
  discovery.Target th = Some tg ->
  (querypb.TabletType tg <> topodatapb.REPLICA ->
   consumer tk (recv (Some th)) w = Ret Looping w) /\
  (querypb.TabletType tg = topodatapb.REPLICA ->
   forall st h,
     states w !! task_result tk = Some st ->
     throttler st = Some h ->
     consumer tk (recv (Some th)) w =
     Ret Looping
       (with_trace (trace w ++ [ERecordReplicationLag h (clock w) th]) w)).
Proof.
  intros Htg. split.
  - intros Hrole. unfold consumer, bind.
    by rewrite (StatsUpdate_not_replica _ _ _ _ Htg Hrole).
  - intros Hrole st h Hst Hh. unfold consumer, bind.
    by rewrite (StatsUpdate_replica _ _ _ _ _ _ Htg Hrole Hst Hh).
Qed.

Lemma consumer_retains_replicas_only_witness :
  consumer sample_task (recv (Some rdonly_event)) (world sample_open) =
  Ret Looping (world sample_open) /\
  consumer sample_task (recv (Some replica_event)) (world sample_open) =
  Ret Looping
    (with_trace
       (trace (world sample_open) ++ [ERecordReplicationLag 1 100 replica_event])
       (world sample_open)).
Proof.
  split.
  - apply (consumer_retains_replicas_only sample_task rdonly_event
             (querypb.mkTarget "ks" "0" topodatapb.RDONLY "zone1")
             (world sample_open)); [reflexivity|discriminate].
  - apply (consumer_retains_replicas_only sample_task replica_event
             (querypb.mkTarget "ks" "0" topodatapb.REPLICA "zone1")
             (world sample_open) eq_refl)
      with (st := mkState (Some 1%nat) (Some 2%nat) (Some 3%nat)
                    [5%nat; 6%nat]);
      reflexivity.
Defined.

(** The consumer does not compare the target of an event with the
    throttler's target: an event of role REPLICA, received while the state
    still holds its throttler, is handed to [RecordReplicationLag] whatever
    its keyspace, shard and cell are. *)
Lemma consumer_forwards_whatever_the_target (s : Sys) (tk : Task)
    (st : txThrottlerState) (h : handle) (tablet keyspace shard cell : string)
    (lag : Z) :
  states (world s) !! task_result tk = Some st ->
  throttler st = Some h ->
  let th :=
    discovery.mkTabletHealth tablet
      (Some (querypb.mkTarget keyspace shard topodatapb.REPLICA cell)) lag in
  consumer tk (recv (Some th)) (world s) =
  Ret Looping
    (with_trace
       (trace (world s) ++ [ERecordReplicationLag h (clock (world s)) th])
       (world s)).
Proof.
  intros Hst Hh th. unfold consumer, bind.
  by rewrite (StatsUpdate_replica _ th _ st h _ eq_refl eq_refl Hst Hh).
Qed.

(** The watcher built by the factory of [resetTxThrottlerFactories] is the
    same for every shard, and publishes every tablet of its keyspace. *)
Lemma default_watcher_ignores_the_shard (topo hc : option handle)
    (cell keyspace shard shard' : string) (interval concurrency : Z)
    (tablet : topodatapb.Tablet) :
  resetTxThrottlerFactories_topologyWatcherFactory topo hc cell keyspace shard
    interval concurrency =
  resetTxThrottlerFactories_topologyWatcherFactory topo hc cell keyspace shard'
    interval concurrency /\
  (topodatapb.Keyspace tablet = keyspace ->
   discovery.IsIncluded
     (discovery.watcher_filter
        (resetTxThrottlerFactories_topologyWatcherFactory topo hc cell keyspace
           shard interval concurrency)) tablet = true).
Proof.
  split; [reflexivity|]. intros <-. cbn. apply bool_decide_eq_true. left.
Qed.

(** C3: the code lets an event of another shard through.  The throttler of
    [sample_closed], whose target is keyspace "ks", shard "0", is opened.
    [newTxThrottlerState] hands the shard to [topologyWatcherFactory], but
    the two watchers the default factory builds filter by keyspace "ks"
    only, so they publish the replica of shard "-80" of that keyspace.  Its
    health event reaches the consumer, which hands it to
    [RecordReplicationLag] of the throttler of shard "0". *)
Theorem foreign_shard_event_is_forwarded :
  Open env_ok sample_closed = Ret None sample_open /\
  load_target (target (this sample_open)) (world sample_open) =
  Ret sample_target (world sample_open) /\
  omap default_watcher (trace (world sample_open)) =
  [discovery.NewCellTabletsWatcher (Some 0%nat) (Some 3%nat)
     (discovery.NewFilterByKeyspace ["ks"]) "zone1" 60000000000 true 5;
   discovery.NewCellTabletsWatcher (Some 0%nat) (Some 3%nat)
     (discovery.NewFilterByKeyspace ["ks"]) "zone2" 60000000000 true 5] /\
  Forall (fun wt =>
            discovery.IsIncluded (discovery.watcher_filter wt)
              other_shard_tablet = true)
    (omap default_watcher (trace (world sample_open))) /\
  discovery.Target other_shard_event = Some other_shard_target /\
  querypb.Keyspace other_shard_target = querypb.Keyspace sample_target /\
  querypb.Shard other_shard_target <> querypb.Shard sample_target /\
  In sample_task (tasks (world sample_open)) /\
  consumer sample_task (recv (Some other_shard_event)) (world sample_open) =
  Ret Looping
    (with_trace
       (trace (world sample_open) ++
        [ERecordReplicationLag 1 100 other_shard_event])
       (world sample_open)).
Proof.
  split_and!.
  - vm_compute. reflexivity.
  - vm_compute. reflexivity.
  - vm_compute. reflexivity.
  - vm_compute. repeat constructor.
  - reflexivity.
  - reflexivity.
  - discriminate.
  - by left.
  - apply (consumer_forwards_whatever_the_target sample_open sample_task
             (mkState (Some 1%nat) (Some 2%nat) (Some 3%nat) [5%nat; 6%nat])
             1%nat "zone1-0000000104" "ks" "-80" "zone1" 60); reflexivity.
Qed.

(** ** The target *)

Lemma write_targets_elsewhere (q : loc) (ws : list (loc * querypb.Target))
    (w : World) :
  Forall (fun x => x.1 <> q) ws ->
  targets (write_targets ws w) !! q = targets w !! q.
Proof.
  revert w. induction ws as [|[l tg] ws IH]; intros w Hws; [done|].
  apply Forall_cons in Hws as [Hl Hws]. simpl in *.
  unfold write_targets in *. simpl. rewrite IH by done.
  unfold write_target. simpl. by apply list_lookup_insert_ne.
Qed.




(** ** Open and Close *)

Lemma Close_then_closed (s s1 : Sys) :
  Close s = Ret tt s1 -> Close s1 = Ret tt s1.
Proof.
  destruct s as [[cfg st tgt] w]. unfold Close at 1, bind, get_this. simpl.
  destruct (enabled cfg) eqn:He; simpl.
  - destruct st as [l|].
    + unfold liftW, log_Info, emit. simpl.
      destruct (deallocateResources l w) as [[] w'|p w']; [|done].
      simpl. intros [= <-]. unfold Close, bind, get_this. simpl. by rewrite He.
    + intros [= <-]. unfold Close, bind, get_this. simpl. by rewrite He.
  - intros [= <-]. by apply Close_disabled.
Qed.

Lemma Open_then_open (E : Env) (s s1 : Sys) :
  Open E s = Ret None s1 -> Open E s1 = Ret None s1.
Proof.
  destruct s as [[cfg st tgt] w]. unfold Open at 1, bind, get_this. simpl.
  destruct (enabled cfg) eqn:He; simpl.
  - destruct st as [l|].
    + intros [= <-]. unfold Open, bind, get_this. simpl. by rewrite He.
    + unfold liftW, log_Info, emit. cbn [world this].
      destruct (load_target tgt _) as [tg w1|p w1]; [|done]. cbn [world this].
      destruct (newTxThrottlerState E cfg _ _ _ w1) as [[l|err] w2|p w2];
        [| |done]; unfold set_state, ret; cbn [world this]; intros [= <-].
      unfold Open, bind, get_this. cbn [this config enabled state].
      by rewrite He.
  - intros [= <-]. by apply Open_disabled.
Qed.

(** C9, as stated, fails: on a closed throttler whose first [Open] fails,
    the second [Open] builds the state all over; here the factory fails once,
    so one [Open] leaves the throttler closed and two leave it open. *)
Lemma Open_twice_differs_after_failure :
  exists err s1 s2,
    Open env_factory_fails_once sample_closed = Ret (Some err) s1 /\
    state (this s1) = None /\
    (Open env_factory_fails_once ;; Open env_factory_fails_once) sample_closed
    = Ret None s2 /\
    state (this s2) = Some 0%nat /\
    (Open env_factory_fails_once ;; Open env_factory_fails_once) sample_closed
    <> Open env_factory_fails_once sample_closed.
Proof.
  do 3 eexists.
  split; [vm_compute; reflexivity|].
  split; [reflexivity|].
  split; [vm_compute; reflexivity|].
  split; [reflexivity|].
  vm_compute. discriminate.
Qed.

(** C9, amended: [Close] is idempotent in every state, and [Open] is
    idempotent in every state from which the first [Open] does not return an
    error: a second [Open] then changes nothing and returns what the first
    did.  (After an [Open] that returned an error the throttler is closed
    and the next [Open] is a new attempt.) *)
Theorem Close_idempotent_Open_idempotent_unless_failed (E : Env) (s : Sys) :
  (Close ;; Close) s = Close s /\
  ((forall err s1, Open E s <> Ret (Some err) s1) ->
   (Open E ;; Open E) s = Open E s).
Proof.
  split.
  - unfold bind. destruct (Close s) as [[] s1|p s1] eqn:HC; [|done].
    by apply Close_then_closed in HC.
  - intros Hok. unfold bind.
    destruct (Open E s) as [[err|] s1|p s1] eqn:HO; [|by eapply Open_then_open|done].
    by destruct (Hok err s1).
Qed.

Lemma Close_idempotent_Open_idempotent_unless_failed_witness :
  (Close ;; Close) sample_open = Close sample_open /\
  (Open env_ok ;; Open env_ok) sample_closed = Open env_ok sample_closed.
Proof.
  split.
  - apply (Close_idempotent_Open_idempotent_unless_failed env_ok sample_open).
  - apply (Close_idempotent_Open_idempotent_unless_failed env_ok sample_closed).
    intros err s1 H. vm_compute in H. discriminate H.
Defined.

(** ** A failed Open *)

Ltac case_res :=
  match goal with
  | |- context [match ?x with Ret _ _ => _ | Panicked _ _ => _ end] =>
      destruct x as [? ?|? ?]
  end.

Lemma newTxThrottlerState_error (E : Env) (cfg : txThrottlerConfig)
    (keyspace shard cell : string) (w w' : World) (err : error) :
  newTxThrottlerState E cfg keyspace shard cell w = Ret (inr err) w' ->
  states w' = states w /\ tasks w' = tasks w /\
  exists evs, trace w' = trace w ++ evs /\
              live ([ELog INFO "TxThrottler: opening" no_arg] ++ evs) = [].
Proof.
  unfold newTxThrottlerState, bind, deref.
  destruct (throttlerConfig cfg) as [c|]; [|done]. unfold ret at 1.
  unfold throttlerFactory.
  destruct (throttlerFactory_err E _ _ _ _ _ w) as [err0|].
  - unfold bind, emit, ret. intros [= <- <-]. cbn. eauto.
  - unfold bind, new_handle, emit, ret. cbn [trace with_trace with_fresh].
    unfold throttler_UpdateConfiguration, bind, emit, ret.
    match goal with |- context [UpdateConfiguration_err E ?h ?c ?b ?w0] =>
      destruct (UpdateConfiguration_err E h c b w0) as [err1|] end.
    + unfold throttler_Close, emit. intros [= <- <-]. cbn.
      repeat split. eexists. split; [by rewrite <- !app_assoc|].
      cbn. destruct (decide_rel _ _ _) as [_|Hn]; [done|].
      destruct Hn. constructor.
    + repeat case_res; done.
Qed.

Lemma Open_error (E : Env) (t : TxThrottler) (w : World) (err : error)
    (s' : Sys) :
  state t = None ->
  Open E (mkSys t w) = Ret (Some err) s' ->
  this s' = t /\ states (world s') = states w /\ tasks (world s') = tasks w /\
  exists evs, trace (world s') = trace w ++ evs /\ live evs = [].
Proof.
  destruct t as [cfg st tgt]. simpl. intros ->.
  unfold Open, bind, get_this. cbn [this config state target].
  destruct (enabled cfg); cbn [negb]; [|done].
  unfold liftW, log_Info, emit. cbn [world this].
  destruct (load_target tgt _) as [tg w1|p w1] eqn:Hl; [|done]. cbn [world this].
  assert (w1 = with_trace (trace w ++ [ELog INFO "TxThrottler: opening" no_arg]) w) as ->.
  { unfold load_target, bind, deref in Hl. destruct tgt; [|done].
    unfold ret in Hl. by destruct (_ !! _); inversion Hl. }
  destruct (newTxThrottlerState E cfg _ _ _ _) as [[l|e] w2|p w2] eqn:Hn;
    [done| |done].
  unfold set_state, ret. cbn [world this]. intros [= <- <-]. cbn [world this].
  apply newTxThrottlerState_error in Hn as (Hs & Ht & evs & Htr & Hlive).
  repeat split; [done..|].
  exists ([ELog INFO "TxThrottler: opening" no_arg] ++ evs).
  split; [|done]. rewrite Htr. cbn. by rewrite <- app_assoc.
Qed.

Lemma Open_closed_enabled (E : Env) (t : TxThrottler) (w : World) (l : loc)
    (tg : querypb.Target) :
  enabled (config t) = true ->
  state t = None ->
  target t = Some l ->
  targets w !! l = Some tg ->
  Open E (mkSys t w) =
  match newTxThrottlerState E (config t) (querypb.Keyspace tg)
          (querypb.Shard tg) (querypb.Cell tg)
          (with_trace (trace w ++ [ELog INFO "TxThrottler: opening" no_arg]) w)
  with
  | Ret (inl st) w' =>
      Ret None (mkSys (mkTxThrottler (config t) (Some st) (target t)) w')
  | Ret (inr err) w' => Ret (Some err) (mkSys t w')
  | Panicked p w' => Panicked p (mkSys t w')
  end.
Proof.
  intros He Hs Ht Hl. destruct t as [cfg st tgt]. simpl in *. subst st tgt.
  unfold Open, bind, get_this. cbn [this config state target]. rewrite He.
  cbn [negb]. unfold liftW, log_Info, emit. cbn [world this].
  unfold load_target, bind, deref, ret. cbn [targets with_trace]. rewrite Hl.
  cbn [world this].
  by destruct (newTxThrottlerState E cfg _ _ _ _) as [[?|?] ?|? ?].
Qed.

(** C8: on an enabled, closed throttler with a target, when the factory of
    the rate limiter fails, or when the [UpdateConfiguration] that follows
    fails, [Open] returns that error; and whenever [Open] returns an error
    the throttler is unchanged ([state] is still nil), no open state and no
    goroutine was added, and every collaborator acquired during the call
    was released before it returned (the throttler built before a failed
    [UpdateConfiguration] is closed). *)
Theorem Open_failure_rolls_back (E : Env) (t : TxThrottler) (w : World)
    (l : loc) (tg : querypb.Target) (c : throttlerdatapb.Configuration) :
  enabled (config t) = true ->
  state t = None ->
  target t = Some l ->
  targets w !! l = Some tg ->
  throttlerConfig (config t) = Some c ->
  let w1 :=
    with_trace (trace w ++ [ELog INFO "TxThrottler: opening" no_arg]) w in
  let made :=
    EThrottlerFactory TxThrottlerName "TPS" 1 (MaxRateModuleDisabled E)
      (throttlerdatapb.MaxReplicationLagSec c) in
  let factory_err :=
    throttlerFactory_err E TxThrottlerName "TPS" 1 (MaxRateModuleDisabled E)
      (throttlerdatapb.MaxReplicationLagSec c) w1 in
  let w2 :=
    with_trace (trace w1 ++ [made (Some (fresh w))])
      (with_fresh (S (fresh w)) w1) in
  (forall err,
     factory_err = Some err ->
     Open E (mkSys t w) =
     Ret (Some err) (mkSys t (with_trace (trace w1 ++ [made None]) w1))) /\
  (forall err,
     factory_err = None ->
     UpdateConfiguration_err E (fresh w) c true w2 = Some err ->
     Open E (mkSys t w) =
     Ret (Some err)
       (mkSys t
          (with_trace
             (trace w2 ++
              [EUpdateConfiguration (fresh w) c true;
               EThrottlerClose (fresh w)]) w2))) /\
  (forall err s',
     Open E (mkSys t w) = Ret (Some err) s' ->
     this s' = t /\
     states (world s') = states w /\
     tasks (world s') = tasks w /\
     exists evs, trace (world s') = trace w ++ evs /\ live evs = []).
Proof.
  intros He Hs Ht Hl Hc w1 made factory_err w2.
  pose proof (Open_closed_enabled E t w l tg He Hs Ht Hl) as Hopen.
  fold w1 in Hopen.
  split; [|split].
  - intros err Hf. rewrite Hopen.
    unfold newTxThrottlerState, bind, deref. rewrite Hc. unfold ret at 1.
    unfold throttlerFactory. fold factory_err. rewrite Hf. reflexivity.
  - intros err Hf Hu. rewrite Hopen.
    unfold newTxThrottlerState, bind, deref. rewrite Hc. unfold ret at 1.
    unfold throttlerFactory. fold factory_err. rewrite Hf.
    unfold bind, new_handle, emit, ret, throttler_UpdateConfiguration, bind,
      emit, ret.
    match goal with
    | |- context [UpdateConfiguration_err E ?h ?c0 ?b ?w0] =>
        change (UpdateConfiguration_err E h c0 b w0)
          with (UpdateConfiguration_err E (fresh w) c true w2)
    end.
    rewrite Hu. unfold throttler_Close, emit, ret. do 2 f_equal.
    unfold with_trace. cbn [targets states cancelled tasks trace clock fresh].
    f_equal. subst w2 w1. unfold with_trace, with_fresh.
    cbn [targets states cancelled tasks trace clock fresh].
    by rewrite <- !app_assoc.
  - intros err s'. by apply Open_error.
Qed.

Lemma Open_failure_rolls_back_witness :
  exists s',
    Open env_update_fails sample_closed =
    Ret (Some (collaborator_error "bad configuration")) s' /\
    this s' = this sample_closed /\
    states (world s') = [] /\
    tasks (world s') = [] /\
    exists evs, trace (world s') = evs /\ live evs = [].
Proof.
  destruct (Open_failure_rolls_back env_update_fails (this sample_closed)
              sample_world 0%nat sample_target sample_configuration
              eq_refl eq_refl eq_refl eq_refl eq_refl)
    as (_ & Hupdate & Hany).
  eexists. split; [apply Hupdate; reflexivity|].
  apply (Hany (collaborator_error "bad configuration")).
  apply Hupdate; reflexivity.
Defined.

(** ** Cancellation *)

Lemma keeps_tasks_refl (w : World) : keeps_tasks w w.
Proof. split; [done|]. exists []. by rewrite app_nil_r. Qed.

Lemma keeps_tasks_trans (w1 w2 w3 : World) :
  keeps_tasks w1 w2 -> keeps_tasks w2 w3 -> keeps_tasks w1 w3.
Proof.
  intros [Hc1 [n1 Ht1]] [Hc2 [n2 Ht2]]. split; [congruence|].
  exists (n1 ++ n2). by rewrite Ht2, Ht1, app_assoc.
Qed.

Ltac same_tasks :=
  split; [reflexivity | exists []; simpl; by rewrite app_nil_r].

Lemma quiet_ret {S A} (f : S -> World) (a : A) : quiet f (ret a).
Proof. intros s. apply keeps_tasks_refl. Qed.

Lemma quiet_panic {S A} (f : S -> World) (p : PanicVal) :
  quiet f (@panic S A p).
Proof. intros s. apply keeps_tasks_refl. Qed.

Lemma quiet_bind {S A B} (f : S -> World) (m : M S A) (k : A -> M S B) :
  quiet f m -> (forall a, quiet f (k a)) -> quiet f (bind m k).
Proof.
  intros Hm Hk s. unfold bind. specialize (Hm s).
  destruct (m s) as [a s1|p s1]; [|done].
  specialize (Hk a s1). destruct (k a s1); eauto using keeps_tasks_trans.
Qed.

Lemma quiet_deref {S A} (f : S -> World) (p : option A) : quiet f (deref p).
Proof. destruct p; [apply quiet_ret|apply quiet_panic]. Qed.

Lemma quiet_liftW {A} (m : M World A) : quiet id m -> quiet world (liftW m).
Proof. intros Hm s. unfold liftW. specialize (Hm (world s)). by destruct (m _). Qed.

Lemma quiet_emit (e : Event) : quiet id (emit e).
Proof. intros w. same_tasks. Qed.

Lemma quiet_new_handle : quiet id new_handle.
Proof. intros w. same_tasks. Qed.

Lemma quiet_time_Now : quiet id time_Now.
Proof. intros w. apply keeps_tasks_refl. Qed.

Lemma quiet_load_state (l : loc) : quiet id (load_state l).
Proof. intros w. unfold load_state. destruct (_ !! _); apply keeps_tasks_refl. Qed.

Lemma quiet_store_state (l : loc) (st : txThrottlerState) :
  quiet id (store_state l st).
Proof. intros w. same_tasks. Qed.

Lemma quiet_alloc_state (st : txThrottlerState) : quiet id (alloc_state st).
Proof. intros w. same_tasks. Qed.

Lemma quiet_go (tk : Task) : quiet id (go tk).
Proof. intros w. split; [done|]. by exists [tk]. Qed.

Lemma quiet_load_target (p : option loc) : quiet id (load_target p).
Proof.
  apply quiet_bind; [apply quiet_deref|]. intros l w.
  destruct (_ !! _); apply keeps_tasks_refl.
Qed.

Lemma quiet_new_target (tg : querypb.Target) : quiet id (new_target tg).
Proof. intros w. same_tasks. Qed.

Lemma quiet_proto_Clone (p : option loc) : quiet id (proto_Clone p).
Proof.
  destruct p as [l|]; [|apply quiet_ret].
  apply quiet_bind; [apply quiet_load_target|]. intros tg w. same_tasks.
Qed.

Lemma quiet_get_this : quiet world get_this.
Proof. intros s. apply keeps_tasks_refl. Qed.

Lemma quiet_set_state (p : option loc) : quiet world (set_state p).
Proof. intros s. same_tasks. Qed.

Lemma quiet_set_target (p : option loc) : quiet world (set_target p).
Proof. intros s. same_tasks. Qed.

Create HintDb quiet.
#[local] Hint Resolve quiet_ret quiet_panic quiet_deref quiet_emit
  quiet_new_handle quiet_time_Now quiet_load_state quiet_store_state
  quiet_alloc_state quiet_go quiet_load_target quiet_new_target
  quiet_proto_Clone quiet_get_this quiet_set_state quiet_set_target
  quiet_liftW : quiet.

Ltac quiet_step :=
  match goal with
  | |- quiet _ (bind _ _) => apply quiet_bind; [|intros ?]
  | |- quiet _ (match ?x with _ => _ end) => destruct x
  | |- quiet _ (if ?x then _ else _) => destruct x
  | |- quiet _ _ => solve [auto with quiet]
  end.

Ltac quiet_auto := repeat quiet_step.

Lemma quiet_modify_state (l : loc) (f : txThrottlerState -> txThrottlerState) :
  quiet id (modify_state l f).
Proof. unfold modify_state. quiet_auto. Qed.
#[local] Hint Resolve quiet_modify_state : quiet.

Lemma quiet_throttlerFactory (E : Env) (name unit_ : string) (a b c : Z) :
  quiet id (throttlerFactory E name unit_ a b c).
Proof.
  intros w. unfold throttlerFactory.
  destruct (throttlerFactory_err _ _ _ _ _ _ _); same_tasks.
Qed.

Lemma quiet_UpdateConfiguration (E : Env) (t : handle)
    (c : throttlerdatapb.Configuration) (b : bool) :
  quiet id (throttler_UpdateConfiguration E t c b).
Proof. intros w. same_tasks. Qed.

Lemma quiet_throttler_Throttle (E : Env) (t : handle) (n : Z) :
  quiet id (throttler_Throttle E t n).
Proof. intros w. same_tasks. Qed.
#[local] Hint Resolve quiet_throttlerFactory quiet_UpdateConfiguration
  quiet_throttler_Throttle : quiet.

Lemma quiet_createTxThrottlerHealthCheck (cfg : txThrottlerConfig)
    (result : loc) (cell : string) :
  quiet id (createTxThrottlerHealthCheck cfg result cell).
Proof.
  unfold createTxThrottlerHealthCheck, context_WithCancel, healthCheckFactory,
    healthCheck_Subscribe.
  quiet_auto.
Qed.

Lemma quiet_watch_cells (E : Env) (cfg : txThrottlerConfig) (result : loc)
    (keyspace shard : string) (cells : list string) :
  quiet id (watch_cells E cfg result keyspace shard cells).
Proof.
  induction cells as [|cell rest IH]; simpl; [apply quiet_ret|].
  unfold topologyWatcherFactory. quiet_auto.
Qed.
#[local] Hint Resolve quiet_createTxThrottlerHealthCheck quiet_watch_cells
  : quiet.

Lemma quiet_newTxThrottlerState (E : Env) (cfg : txThrottlerConfig)
    (keyspace shard cell : string) :
  quiet id (newTxThrottlerState E cfg keyspace shard cell).
Proof. unfold newTxThrottlerState, throttler_Close. quiet_auto. Qed.

Lemma quiet_stop_watchers (ws : list handle) : quiet id (stop_watchers ws).
Proof.
  induction ws as [|wt rest IH]; simpl; [apply quiet_ret|].
  unfold watcher_Stop. quiet_auto.
Qed.
#[local] Hint Resolve quiet_newTxThrottlerState quiet_stop_watchers : quiet.

Lemma quiet_deallocateResources (ts : loc) : quiet id (deallocateResources ts).
Proof.
  unfold deallocateResources, healthCheck_Close, throttler_Close. quiet_auto.
Qed.

Lemma quiet_throttle (E : Env) (ts : loc) : quiet id (throttle E ts).
Proof. unfold throttle. quiet_auto. Qed.
#[local] Hint Resolve quiet_deallocateResources quiet_throttle : quiet.

Lemma quiet_do_call (E : Env) (c : Call) : quiet world (do_call E c).
Proof.
  destruct c as [| |[tg|]|]; simpl;
    unfold Open, Close, Throttle, InitDBConfig, log_Info; quiet_auto.
Qed.

Lemma quiet_run (E : Env) (cs : list Call) : quiet world (run E cs).
Proof.
  induction cs as [|c cs IH]; simpl; [apply quiet_ret|].
  apply quiet_bind; [apply quiet_do_call|]. intros r.
  apply quiet_bind; [exact IH|]. intros rs. apply quiet_ret.
Qed.

Lemma running_kept (w w' : World) (tk : Task) :
  keeps_tasks w w' -> tk ∈ running w -> tk ∈ running w'.
Proof.
  intros [Hc [new Ht]]. unfold running. rewrite !list_elem_of_filter, Hc, Ht.
  intros [Hctx Hin]. split; [done|]. apply elem_of_app. by left.
Qed.

(** No sequence of calls on the facade stops a consumer: a goroutine that
    cannot take its [return] before the calls cannot take it after them. *)
Lemma facade_never_stops_a_consumer (E : Env) (cs : list Call) (s s' : Sys)
    (rs : list Reply) (tk : Task) :
  run E cs s = Ret rs s' ->
  tk ∈ running (world s) -> tk ∈ running (world s').
Proof.
  intros Hrun. pose proof (quiet_run E cs s) as Hq. rewrite Hrun in Hq.
  by apply running_kept.
Qed.

(** What calling the stored cancel function would do: the consumer's
    [ctx.Done()] case becomes ready, and taking it ends the goroutine. *)
Lemma cancel_lets_consumer_return (tk : Task) (w : World) :
  exists w',
    cancel (task_ctx tk) w = Ret tt w' /\
    ready w' tk ctx_Done = true /\
    consumer tk ctx_Done w' = Ret Returned w'.
Proof.
  eexists. split; [reflexivity|]. split; [|reflexivity].
  simpl. apply bool_decide_eq_true. by left.
Qed.

(** C4: evaluation at the failing input.  [Open] then [Close] on the sample
    throttler: [Close] returns with [state] nil, the watchers stopped, the
    health check and the throttler closed; but the cancel function stored in
    [stopHealthCheck] was never called, so the consumer goroutine of the
    interval is still there, its [ctx.Done()] case is not ready, and a
    replica event it receives now dereferences the throttler that [Close]
    set to nil. *)
Theorem Close_leaves_consumer_running :
  exists s1 s2,
    Open env_ok sample_closed = Ret None s1 /\
    Close s1 = Ret tt s2 /\
    state (this s2) = None /\
    live (trace (world s2)) = [] /\
    stopHealthCheck <$> states (world s2) !! 0%nat =
    Some (Some (task_ctx sample_task)) /\
    cancelled (world s2) = [] /\
    tasks (world s2) = [sample_task] /\
    running (world s2) = [sample_task] /\
    ready (world s2) sample_task ctx_Done = false /\
    consumer sample_task (recv (Some replica_event)) (world s2) =
    Panicked nil_dereference (world s2).
Proof.
  do 2 eexists.
  split; [vm_compute; reflexivity|].
  split; [vm_compute; reflexivity|].
  repeat split; vm_compute; reflexivity.
Qed.

(** ** The open interval, step by step *)

Lemma watcher_events_cons E cfg hc ks sh first cell rest :
  watcher_events E cfg hc ks sh first (cell :: rest) =
  ETopologyWatcherFactory first (topoServer cfg) hc cell ks sh
    (DefaultTopologyWatcherRefreshInterval E) (DefaultTopoReadConcurrency E)
  :: watcher_events E cfg hc ks sh (S first) rest.
Proof.
  unfold watcher_events. rewrite imap_cons. rewrite Nat.add_0_r. f_equal.
  apply imap_ext. intros i x _. simpl. f_equal. lia.
Qed.

Lemma set_topologyWatchers_twice (a b : list handle) (st : txThrottlerState) :
  set_topologyWatchers a (set_topologyWatchers b st) = set_topologyWatchers a st.
Proof. reflexivity. Qed.

Lemma watch_cells_spec (E : Env) (cfg : txThrottlerConfig) (result : loc)
    (keyspace shard : string) (cells : list string) :
  forall (w : World) (st : txThrottlerState),
    states w !! result = Some st ->
    watch_cells E cfg result keyspace shard cells w =
    Ret tt
      (mkWorld (targets w)
         (<[result := set_topologyWatchers
                        (topologyWatchers st ++ seq (fresh w) (length cells)) st]>
            (states w))
         (cancelled w) (tasks w)
         (trace w ++
          watcher_events E cfg (healthCheck st) keyspace shard (fresh w) cells)
         (clock w) (fresh w + length cells)).
Proof.
  induction cells as [|cell rest IH]; intros w st Hst.
  - cbn [watch_cells length seq]. unfold ret, watcher_events. cbn [imap].
    rewrite !app_nil_r, Nat.add_0_r.
    rewrite list_insert_id; [by destruct w|].
    transitivity (Some st); [exact Hst|]. by destruct st.
  - assert (Hlt : (result < length (states w))%nat) by by eapply lookup_lt_Some.
    cbn [watch_cells]. unfold bind at 1. unfold load_state at 1. rewrite Hst.
    unfold bind at 1. unfold topologyWatcherFactory, bind, new_handle, emit, ret.
    cbn [trace with_trace with_fresh fresh states targets cancelled tasks clock].
    unfold modify_state, bind, load_state, store_state.
    cbn [trace with_trace with_fresh with_states fresh states targets cancelled
         tasks clock].
    rewrite Hst.
    cbn [trace with_trace with_fresh with_states fresh states targets cancelled
         tasks clock].
    erewrite IH; [|cbn [states]; by apply list_lookup_insert_eq].
    cbn [trace with_trace with_fresh with_states fresh states targets cancelled
         tasks clock topologyWatchers set_topologyWatchers healthCheck].
    rewrite list_insert_insert_eq, watcher_events_cons.
    rewrite <- !app_assoc. cbn [app length seq].
    do 2 f_equal. lia.
Qed.

Lemma insert_alloc {A} (l : list A) (x y : A) :
  <[length l := y]> (l ++ [x]) = l ++ [y].
Proof.
  rewrite <- (Nat.add_0_r (length l)) at 1. by rewrite insert_app_r.
Qed.

Ltac world_simpl :=
  cbn [world this trace with_trace with_fresh with_states with_tasks
       with_targets with_cancelled fresh states targets cancelled tasks clock
       throttler stopHealthCheck healthCheck topologyWatchers set_throttler
       set_stopHealthCheck set_healthCheck set_topologyWatchers].

Lemma createTxThrottlerHealthCheck_spec (cfg : txThrottlerConfig)
    (result : loc) (cell : string) (w : World) (st : txThrottlerState) :
  states w !! result = Some st ->
  createTxThrottlerHealthCheck cfg result cell w =
  Ret tt
    (mkWorld (targets w)
       (<[result := set_healthCheck (Some (S (fresh w)))
                      (set_stopHealthCheck (Some (fresh w)) st)]> (states w))
       (cancelled w)
       (tasks w ++ [mkTask (fresh w) (S (S (fresh w))) result])
       (trace w ++
        [EHealthCheckFactory (S (fresh w)) (topoServer cfg) cell
           (healthCheckCells cfg);
         ESubscribe (S (fresh w)) (S (S (fresh w)))])
       (clock w) (S (S (S (fresh w))))).
Proof.
  intros Hst.
  assert (Hlt : (result < length (states w))%nat) by by eapply lookup_lt_Some.
  unfold createTxThrottlerHealthCheck, context_WithCancel, healthCheckFactory,
    healthCheck_Subscribe, go, modify_state, bind, new_handle, emit, ret,
    load_state, store_state, deref.
  world_simpl. rewrite Hst. world_simpl.
  rewrite list_lookup_insert_eq by done. world_simpl.
  rewrite list_lookup_insert_eq by (by rewrite length_insert). world_simpl.
  unfold ret. world_simpl.
  rewrite !list_insert_insert_eq, <- !app_assoc. reflexivity.
Qed.

Lemma newTxThrottlerState_ok (E : Env) (cfg : txThrottlerConfig)
    (c : throttlerdatapb.Configuration) (keyspace shard cell : string)
    (w : World) :
  throttlerConfig cfg = Some c ->
  throttlerFactory_err E TxThrottlerName "TPS" 1 (MaxRateModuleDisabled E)
    (throttlerdatapb.MaxReplicationLagSec c) w = None ->
  UpdateConfiguration_err E (fresh w) c true
    (with_trace
       (trace w ++
        [EThrottlerFactory TxThrottlerName "TPS" 1 (MaxRateModuleDisabled E)
           (throttlerdatapb.MaxReplicationLagSec c) (Some (fresh w))])
       (with_fresh (S (fresh w)) w)) = None ->
  newTxThrottlerState E cfg keyspace shard cell w =
  Ret (inl (length (states w)))
    (mkWorld (targets w)
       (states w ++ [built_state (fresh w) (length (healthCheckCells cfg))])
       (cancelled w)
       (tasks w ++ [mkTask (S (fresh w)) (S (S (S (fresh w))))
                      (length (states w))])
       (trace w ++ built_events E cfg c keyspace shard cell (fresh w))
       (clock w) (fresh w + 4 + length (healthCheckCells cfg))).
Proof.
  intros Hc Hf Hu.
  unfold newTxThrottlerState, bind at 1, deref. rewrite Hc. unfold ret at 1.
  unfold bind at 1, throttlerFactory. rewrite Hf.
  unfold bind at 1 2, new_handle, emit, ret at 1 2. world_simpl.
  unfold bind at 1, throttler_UpdateConfiguration, bind at 1, emit, ret at 1.
  world_simpl.
  match goal with
  | |- context [UpdateConfiguration_err E ?h ?c0 ?b ?w0] =>
      change (UpdateConfiguration_err E h c0 b w0) with
        (UpdateConfiguration_err E (fresh w) c true
           (with_trace
              (trace w ++
               [EThrottlerFactory TxThrottlerName "TPS" 1
                  (MaxRateModuleDisabled E)
                  (throttlerdatapb.MaxReplicationLagSec c) (Some (fresh w))])
              (with_fresh (S (fresh w)) w)))
  end.
  rewrite Hu.
  unfold bind at 1, alloc_state. world_simpl.
  unfold bind at 1.
  erewrite createTxThrottlerHealthCheck_spec;
    [|cbn [states]; apply lookup_alloc].
  world_simpl. rewrite insert_alloc.
  unfold bind at 1, modify_state, bind, load_state, store_state. world_simpl.
  rewrite lookup_alloc. world_simpl. rewrite insert_alloc.
  erewrite watch_cells_spec; [|cbn [states]; apply lookup_alloc].
  world_simpl. rewrite insert_alloc. unfold ret, built_state, built_events.
  rewrite <- !app_assoc. cbn [app].
  replace (S (S (S (S (fresh w))))) with (fresh w + 4)%nat by lia.
  reflexivity.
Qed.

Lemma stop_watchers_spec (ws : list handle) (w : World) :
  stop_watchers ws w = Ret tt (with_trace (trace w ++ (EWatcherStop <$> ws)) w).
Proof.
  revert w. induction ws as [|wt rest IH]; intros w.
  - simpl. unfold ret. rewrite app_nil_r. by destruct w.
  - cbn [stop_watchers]. unfold bind, watcher_Stop, emit. rewrite IH.
    world_simpl. unfold with_trace. world_simpl.
    by rewrite <- app_assoc.
Qed.

Lemma deallocateResources_spec (ts : loc) (w : World) (st : txThrottlerState)
    (hc th : handle) :
  states w !! ts = Some st ->
  healthCheck st = Some hc ->
  throttler st = Some th ->
  deallocateResources ts w =
  Ret tt
    (mkWorld (targets w)
       (<[ts := mkState None (stopHealthCheck st) None []]> (states w))
       (cancelled w) (tasks w)
       (trace w ++ (EWatcherStop <$> topologyWatchers st) ++
        [EHealthCheckClose hc; EThrottlerClose th])
       (clock w) (fresh w)).
Proof.
  intros Hst Hhc Hth.
  assert (Hlt : (ts < length (states w))%nat) by by eapply lookup_lt_Some.
  unfold deallocateResources, bind at 1, load_state at 1. rewrite Hst.
  unfold bind at 1. rewrite stop_watchers_spec.
  unfold modify_state, bind, load_state, store_state, healthCheck_Close,
    throttler_Close, emit, deref, ret.
  world_simpl. rewrite Hst. world_simpl.
  rewrite list_lookup_insert_eq by done. world_simpl. rewrite Hhc.
  world_simpl. rewrite list_lookup_insert_eq by done. world_simpl.
  rewrite list_lookup_insert_eq by (by rewrite length_insert). world_simpl.
  rewrite Hth. world_simpl.
  rewrite list_lookup_insert_eq by (by rewrite !length_insert). world_simpl.
  rewrite !list_insert_insert_eq, <- !app_assoc. reflexivity.
Qed.

Lemma Close_open_spec (t : TxThrottler) (w : World) (ts : loc)
    (st : txThrottlerState) (hc th : handle) :
  enabled (config t) = true ->
  state t = Some ts ->
  states w !! ts = Some st ->
  healthCheck st = Some hc ->
  throttler st = Some th ->
  Close (mkSys t w) =
  Ret tt
    (mkSys (mkTxThrottler (config t) None (target t))
       (mkWorld (targets w)
          (<[ts := mkState None (stopHealthCheck st) None []]> (states w))
          (cancelled w) (tasks w)
          (trace w ++ (EWatcherStop <$> topologyWatchers st) ++
           [EHealthCheckClose hc; EThrottlerClose th;
            ELog INFO "TxThrottler: closed" no_arg])
          (clock w) (fresh w))).
Proof.
  intros He Hs Hst Hhc Hth. unfold Close, bind at 1, get_this.
  cbn [this config state]. rewrite He, Hs. cbn [negb].
  unfold bind, liftW. cbn [world this].
  rewrite (deallocateResources_spec ts w st hc th Hst Hhc Hth).
  unfold set_state, log_Info, emit. cbn [world this config target].
  world_simpl. unfold with_trace. world_simpl.
  by rewrite <- !app_assoc.
Qed.

Lemma Throttle_open_spec (E : Env) (t : TxThrottler) (w : World)
    (ts : loc) (st : txThrottlerState) (th : handle) :
  enabled (config t) = true ->
  state t = Some ts ->
  states w !! ts = Some st ->
  throttler st = Some th ->
  Throttle E (mkSys t w) =
  Ret (0 <? Throttle_wait E th 0 w)%Z
    (mkSys t (with_trace (trace w ++ [EThrottle th 0]) w)).
Proof.
  intros He Hs Hst Hth. unfold Throttle, bind, get_this.
  cbn [this config state]. rewrite He, Hs. cbn [negb].
  unfold liftW, throttle, bind, load_state. cbn [world this]. rewrite Hst, Hth.
  reflexivity.
Qed.

Lemma throttle_after_deallocate_spec (E : Env) (ts : loc) (w : World)
    (st : txThrottlerState) (hc th : handle) :
  states w !! ts = Some st ->
  healthCheck st = Some hc ->
  throttler st = Some th ->
  exists w',
    deallocateResources ts w = Ret tt w' /\
    throttle E ts w' =
    Panicked
      (panic_msg "BUG: throttle called after deallocateResources was called.")
      w'.
Proof.
  intros Hst Hhc Hth.
  assert (Hlt : (ts < length (states w))%nat) by by eapply lookup_lt_Some.
  eexists. split; [by apply deallocateResources_spec|].
  unfold throttle, bind, load_state. cbn [states].
  by rewrite list_lookup_insert_eq.
Qed.

Lemma Open_closed_ok (E : Env) (t : TxThrottler) (w : World) (l : loc)
    (tg : querypb.Target) (c : throttlerdatapb.Configuration) :
  enabled (config t) = true ->
  state t = None ->
  target t = Some l ->
  targets w !! l = Some tg ->
  throttlerConfig (config t) = Some c ->
  let w1 :=
    with_trace (trace w ++ [ELog INFO "TxThrottler: opening" no_arg]) w in
  throttlerFactory_err E TxThrottlerName "TPS" 1 (MaxRateModuleDisabled E)
    (throttlerdatapb.MaxReplicationLagSec c) w1 = None ->
  UpdateConfiguration_err E (fresh w) c true
    (with_trace
       (trace w1 ++
        [EThrottlerFactory TxThrottlerName "TPS" 1 (MaxRateModuleDisabled E)
           (throttlerdatapb.MaxReplicationLagSec c) (Some (fresh w))])
       (with_fresh (S (fresh w)) w1)) = None ->
  Open E (mkSys t w) =
  Ret None
    (mkSys (mkTxThrottler (config t) (Some (length (states w))) (target t))
       (mkWorld (targets w)
          (states w ++
           [built_state (fresh w) (length (healthCheckCells (config t)))])
          (cancelled w)
          (tasks w ++
           [mkTask (S (fresh w)) (S (S (S (fresh w)))) (length (states w))])
          (trace w ++
           ELog INFO "TxThrottler: opening" no_arg ::
           built_events E (config t) c (querypb.Keyspace tg) (querypb.Shard tg)
             (querypb.Cell tg) (fresh w))
          (clock w) (fresh w + 4 + length (healthCheckCells (config t))))).
Proof.
  intros He Hs Ht Hl Hc w1 Hf Hu.
  rewrite (Open_closed_enabled E t w l tg He Hs Ht Hl). fold w1.
  rewrite (newTxThrottlerState_ok E (config t) c _ _ _ w1 Hc Hf Hu).
  subst w1. world_simpl. by rewrite <- app_assoc.
Qed.

Section list_difference.
Context {A : Type} `{EqDecision A}.
Implicit Types l k : list A.

Lemma list_difference_app_l l1 l2 k :
  list_difference (l1 ++ l2) k = list_difference l1 k ++ list_difference l2 k.
Proof.
  induction l1 as [|x l1 IH]; [done|]. simpl.
  destruct (decide_rel _ _ _); by rewrite IH.
Qed.

Lemma list_difference_none l k :
  Forall (fun x => x ∉ k) l -> list_difference l k = l.
Proof.
  induction 1 as [|x l Hx _ IH]; [done|]. simpl.
  destruct (decide_rel _ _ _); [done|by rewrite IH].
Qed.

Lemma list_difference_all l k :
  Forall (fun x => x ∈ k) l -> list_difference l k = [].
Proof.
  induction 1 as [|x l Hx _ IH]; [done|]. simpl.
  by destruct (decide_rel _ _ _).
Qed.

Lemma list_difference_app_r l k1 k2 :
  list_difference l (k1 ++ k2) = list_difference (list_difference l k1) k2.
Proof.
  induction l as [|x l IH]; [done|]. simpl.
  destruct (decide_rel elem_of x (k1 ++ k2)) as [Hin|Hnin];
    destruct (decide_rel elem_of x k1) as [H1|H1]; simpl.
  - done.
  - destruct (decide_rel elem_of x k2) as [H2|H2]; [done|].
    apply elem_of_app in Hin as [?|?]; done.
  - destruct Hnin. apply elem_of_app. by left.
  - destruct (decide_rel elem_of x k2) as [H2|H2]; [|by rewrite IH].
    destruct Hnin. apply elem_of_app. by right.
Qed.

End list_difference.

Lemma omap_acquired_watcher_events E cfg hc ks sh first cells :
  omap acquired (watcher_events E cfg hc ks sh first cells) =
  seq first (length cells).
Proof.
  revert first. induction cells as [|cell rest IH]; intros first; [done|].
  rewrite watcher_events_cons. simpl. by rewrite IH.
Qed.

Lemma omap_released_watcher_events E cfg hc ks sh first cells :
  omap released (watcher_events E cfg hc ks sh first cells) = [].
Proof.
  revert first. induction cells as [|cell rest IH]; intros first; [done|].
  rewrite watcher_events_cons. simpl. by rewrite IH.
Qed.

Lemma omap_released_stops (ws : list handle) :
  omap released (EWatcherStop <$> ws) = ws.
Proof. induction ws as [|x ws IH]; [done|]. simpl. f_equal. exact IH. Qed.

Lemma omap_acquired_stops (ws : list handle) :
  omap acquired (EWatcherStop <$> ws) = [].
Proof. induction ws as [|x ws IH]; [done|]. simpl. exact IH. Qed.

Lemma live_app (tr evs : list Event) :
  live (tr ++ evs) =
  list_difference (live tr) (omap released evs) ++
  list_difference (omap acquired evs)
    (omap released tr ++ omap released evs).
Proof.
  unfold live. by rewrite !omap_app, list_difference_app_l, list_difference_app_r.
Qed.

Lemma newTxThrottlerState_cases (E : Env) (cfg : txThrottlerConfig)
    (keyspace shard cell : string) (w : World) :
  match throttlerConfig cfg with
  | None =>
      newTxThrottlerState E cfg keyspace shard cell w =
      Panicked nil_dereference w
  | Some c =>
      match throttlerFactory_err E TxThrottlerName "TPS" 1
              (MaxRateModuleDisabled E)
              (throttlerdatapb.MaxReplicationLagSec c) w with
      | Some err =>
          newTxThrottlerState E cfg keyspace shard cell w =
          Ret (inr err)
            (with_trace
               (trace w ++
                [EThrottlerFactory TxThrottlerName "TPS" 1
                   (MaxRateModuleDisabled E)
                   (throttlerdatapb.MaxReplicationLagSec c) None]) w)
      | None =>
          match UpdateConfiguration_err E (fresh w) c true
                  (after_factory E c w) with
          | Some err =>
              newTxThrottlerState E cfg keyspace shard cell w =
              Ret (inr err)
                (with_trace
                   (trace (after_factory E c w) ++
                    [EUpdateConfiguration (fresh w) c true;
                     EThrottlerClose (fresh w)]) (after_factory E c w))
          | None =>
              newTxThrottlerState E cfg keyspace shard cell w =
              Ret (inl (length (states w)))
                (mkWorld (targets w)
                   (states w ++
                    [built_state (fresh w) (length (healthCheckCells cfg))])
                   (cancelled w)
                   (tasks w ++
                    [mkTask (S (fresh w)) (S (S (S (fresh w))))
                       (length (states w))])
                   (trace w ++
                    built_events E cfg c keyspace shard cell (fresh w))
                   (clock w) (fresh w + 4 + length (healthCheckCells cfg)))
          end
      end
  end.
Proof.
  destruct (throttlerConfig cfg) as [c|] eqn:Hc.
  - destruct (throttlerFactory_err _ _ _ _ _ _ _) as [err|] eqn:Hf.
    + unfold newTxThrottlerState, bind, deref. rewrite Hc. unfold ret at 1.
      unfold throttlerFactory. by rewrite Hf.
    + destruct (UpdateConfiguration_err _ _ _ _ _) as [err|] eqn:Hu.
      * unfold newTxThrottlerState, bind, deref. rewrite Hc. unfold ret at 1.
        unfold throttlerFactory. rewrite Hf.
        unfold bind, new_handle, emit, ret, throttler_UpdateConfiguration,
          bind, emit, ret.
        match goal with
        | |- context [UpdateConfiguration_err E ?h ?c0 ?b ?w0] =>
            change (UpdateConfiguration_err E h c0 b w0)
              with (UpdateConfiguration_err E (fresh w) c true
                      (after_factory E c w))
        end.
        rewrite Hu. unfold throttler_Close, emit, ret, after_factory.
        world_simpl. unfold with_trace. world_simpl.
        by rewrite <- !app_assoc.
      * by apply newTxThrottlerState_ok.
  - unfold newTxThrottlerState, bind, deref. by rewrite Hc.
Qed.

Lemma list_difference_nil_r {A} `{EqDecision A} (l : list A) :
  list_difference l [] = l.
Proof.
  apply list_difference_none, Forall_forall. intros x _. apply not_elem_of_nil.
Qed.

Lemma live_quiet (tr evs : list Event) :
  omap acquired evs = [] -> omap released evs = [] ->
  live (tr ++ evs) = live tr.
Proof.
  intros Ha Hr. rewrite live_app, Ha, Hr. simpl.
  by rewrite list_difference_nil_r, app_nil_r.
Qed.

Lemma bounded_step (w w' : World) (evs : list Event) :
  bounded w ->
  trace w' = trace w ++ evs ->
  (fresh w <= fresh w')%nat ->
  Forall (fun h => (h < fresh w')%nat) (omap acquired evs) ->
  Forall (fun h => (h < fresh w')%nat) (omap released evs) ->
  bounded w'.
Proof.
  unfold bounded. intros Hb -> Hle Ha Hr.
  apply Forall_app in Hb as [Hba Hbr].
  assert (Hmono : forall l : list handle,
            Forall (fun h => (h < fresh w)%nat) l ->
            Forall (fun h => (h < fresh w')%nat) l).
  { intros l Hl. eapply Forall_impl; [exact Hl|]. simpl. intros. lia. }
  rewrite !omap_app. apply Forall_app. split; apply Forall_app; auto.
Qed.

Lemma bounded_quiet (w w' : World) (evs : list Event) :
  bounded w ->
  trace w' = trace w ++ evs ->
  fresh w' = fresh w ->
  omap acquired evs = [] -> omap released evs = [] ->
  bounded w'.
Proof.
  intros Hb Htr Hf Ha Hr. eapply bounded_step; [done..|lia| |].
  - rewrite Ha. constructor.
  - rewrite Hr. constructor.
Qed.

Lemma Open_cases (E : Env) (t : TxThrottler) (w : World) :
  enabled (config t) = true ->
  state t = None ->
  let w1 :=
    with_trace (trace w ++ [ELog INFO "TxThrottler: opening" no_arg]) w in
  match target t with
  | None => Open E (mkSys t w) = Panicked nil_dereference (mkSys t w1)
  | Some l =>
      match targets w !! l with
      | None => Open E (mkSys t w) = Panicked bad_address (mkSys t w1)
      | Some tg =>
          Open E (mkSys t w) =
          match newTxThrottlerState E (config t) (querypb.Keyspace tg)
                  (querypb.Shard tg) (querypb.Cell tg) w1 with
          | Ret (inl st) w' =>
              Ret None
                (mkSys (mkTxThrottler (config t) (Some st) (target t)) w')
          | Ret (inr err) w' => Ret (Some err) (mkSys t w')
          | Panicked p w' => Panicked p (mkSys t w')
          end
      end
  end.
Proof.
  intros He Hs w1. destruct (target t) as [l|] eqn:Ht.
  - destruct (targets w !! l) as [tg|] eqn:Hl.
    + rewrite (Open_closed_enabled E t w l tg He Hs Ht Hl). by rewrite Ht.
    + unfold Open, bind, get_this. cbn [this]. rewrite He, Hs. cbn [negb].
      unfold liftW, log_Info, emit, load_target, bind, deref, ret.
      cbn [world this]. rewrite Ht. world_simpl. by rewrite Hl.
  - unfold Open, bind, get_this. cbn [this]. rewrite He, Hs. cbn [negb].
    unfold liftW, log_Info, emit, load_target, bind, deref, ret.
    cbn [world this]. by rewrite Ht.
Qed.

Lemma sound_quiet (t : TxThrottler) (w w' : World) (evs : list Event) :
  sound (mkSys t w) ->
  trace w' = trace w ++ evs ->
  fresh w' = fresh w ->
  states w' = states w ->
  omap acquired evs = [] -> omap released evs = [] ->
  sound (mkSys t w').
Proof.
  intros [Hacc Hb] Htr Hf Hst Ha Hr. split; [|by eapply bounded_quiet].
  unfold accounted in *. cbn [this world] in *.
  rewrite Htr, Hst, live_quiet by done. exact Hacc.
Qed.

Lemma sound_same_but_target (s s' : Sys) :
  same_but_target s s' -> sound s -> sound s'.
Proof.
  intros (Hc & Hs & Hss & _ & _ & Htr & Hf) [Hacc Hb]. split.
  - unfold accounted in *. by rewrite Hs, Hss, Htr.
  - unfold bounded in *. by rewrite Htr, Hf.
Qed.

Lemma live_subset_acquired (tr : list Event) (h : handle) :
  h ∈ live tr -> h ∈ omap acquired tr.
Proof. unfold live. rewrite list_elem_of_difference. by intros [? _]. Qed.

Lemma same_target_refl (s : Sys) : same_target s s.
Proof. by repeat split. Qed.

Lemma usable_same_target (s s' : Sys) :
  same_target s s' -> usable s -> usable s'.
Proof.
  intros (Hc & Ht & Hts) Hu. unfold usable in *. by rewrite Hc, Ht, Hts.
Qed.

Lemma Open_sound (E : Env) (s : Sys) : sound s -> sound_outcome s (Open E s).
Proof.
  destruct s as [t w]. intros Hsound.
  destruct (enabled (config t)) eqn:He;
    [|rewrite Open_disabled by done; split; [done|apply same_target_refl]].
  destruct (state t) as [l0|] eqn:Hs.
  { replace (Open E (mkSys t w)) with (@Ret Sys _ (@None error) (mkSys t w));
      [split; [done|apply same_target_refl]|].
    unfold Open, bind, get_this. cbn [this]. by rewrite He, Hs. }
  pose proof (Open_cases E t w He Hs) as HO. cbn zeta in HO.
  set (w1 := with_trace (trace w ++ [ELog INFO "TxThrottler: opening" no_arg]) w)
    in *.
  assert (Hsound1 : sound (mkSys t w1)).
  { by eapply (sound_quiet t w w1 [ELog INFO "TxThrottler: opening" no_arg]). }
  assert (Hsame1 : same_target (mkSys t w) (mkSys t w1)) by by repeat split.
  destruct (target t) as [l|] eqn:Ht.
  2: { rewrite HO. split; [done|]. split; [done|]. right. split; [|by left].
       intros Hu. destruct (Hu He) as (_ & l & tg & Hl & _).
       cbn [this] in Hl. congruence. }
  destruct (targets w !! l) as [tg|] eqn:Hl.
  2: { rewrite HO. split; [done|]. split; [done|]. right. split; [|by right].
       intros Hu. destruct (Hu He) as (_ & l' & tg & Hl' & Htg).
       cbn [this world] in Hl', Htg. congruence. }
  rewrite HO. clear HO.
  pose proof (newTxThrottlerState_cases E (config t) (querypb.Keyspace tg)
                (querypb.Shard tg) (querypb.Cell tg) w1) as HN.
  destruct (throttlerConfig (config t)) as [c|] eqn:Hc.
  2: { rewrite HN. split; [done|]. split; [done|]. right. split; [|by left].
       intros Hu. destruct (Hu He) as ([c Hc'] & _).
       cbn [this] in Hc'. congruence. }
  destruct (throttlerFactory_err _ _ _ _ _ _ _) as [err|].
  { rewrite HN. cbn [sound_outcome]. split; [|by repeat split].
    by eapply (sound_quiet t w1 _ [EThrottlerFactory _ _ _ _ _ None]). }
  destruct Hsound1 as [Hacc1 Hb1]. unfold accounted in Hacc1.
  cbn [this world] in Hacc1. rewrite Hs in Hacc1.
  destruct (UpdateConfiguration_err _ _ _ _ _) as [err|]; rewrite HN;
    cbn [sound_outcome]; clear HN.
  - split; [split|by repeat split].
    + unfold accounted. cbn [this world]. rewrite Hs. unfold after_factory.
      world_simpl. rewrite <- app_assoc, live_app, Hacc1. cbn.
      destruct (decide_rel _ _ _) as [|Hn]; [done|]. destruct Hn.
      apply elem_of_app. right. constructor.
    + eapply (bounded_step w1 _
                [EThrottlerFactory _ _ _ _ _ (Some (fresh w));
                 EUpdateConfiguration (fresh w) c true;
                 EThrottlerClose (fresh w)]); [done| | | |].
      * unfold after_factory. world_simpl. by rewrite <- app_assoc.
      * unfold after_factory. world_simpl. subst w1. world_simpl. lia.
      * cbn. repeat constructor.
      * cbn. repeat constructor.
  - split; [split|by repeat split].
    + unfold accounted. cbn [this world state states].
      exists (built_state (fresh w1) (length (healthCheckCells (config t)))),
        (fresh w1), (S (S (fresh w1))).
      split; [apply lookup_alloc|]. split; [done|]. split; [done|].
      cbn [trace]. rewrite live_app, Hacc1. unfold built_events.
      rewrite !omap_app, omap_acquired_watcher_events,
        omap_released_watcher_events. cbn -[list_difference seq].
      rewrite app_nil_r. apply list_difference_none.
      unfold bounded in Hb1. apply Forall_app in Hb1 as [_ Hrel].
      assert (Hfresh : forall h : nat, (fresh w <= h)%nat ->
                h ∉ omap released (trace w1)).
      { intros h Hh Hin. rewrite Forall_forall in Hrel.
        specialize (Hrel h Hin). simpl in Hrel.
        exact (Nat.lt_irrefl _ (Nat.lt_le_trans _ _ _ Hrel Hh)). }
      repeat apply Forall_cons_2; try (apply Hfresh; lia).
      apply Forall_seq. intros k Hk. apply Hfresh. lia.
    + eapply (bounded_step w1 _
                (built_events E (config t) c (querypb.Keyspace tg)
                   (querypb.Shard tg) (querypb.Cell tg) (fresh w1)));
        [done|done|subst w1; world_simpl; lia| |].
      * unfold built_events. rewrite omap_app, omap_acquired_watcher_events.
        subst w1. world_simpl. cbn -[seq Nat.add].
        repeat apply Forall_cons_2; try lia.
        apply Forall_seq. intros k Hk. lia.
      * unfold built_events. rewrite omap_app, omap_released_watcher_events.
        cbn. constructor.
Qed.

Lemma Close_sound (s : Sys) : sound s -> sound_outcome s (Close s).
Proof.
  destruct s as [t w]. intros Hsound.
  destruct (enabled (config t)) eqn:He;
    [|rewrite Close_disabled by done; split; [done|apply same_target_refl]].
  destruct (state t) as [ts|] eqn:Hs.
  2: { replace (Close (mkSys t w)) with (@Ret Sys _ tt (mkSys t w));
         [split; [done|apply same_target_refl]|].
       unfold Close, bind, get_this. cbn [this]. by rewrite He, Hs. }
  destruct Hsound as [Hacc Hb]. unfold accounted in Hacc.
  cbn [this world] in Hacc. rewrite Hs in Hacc.
  destruct Hacc as (st & th & hc & Hst & Hth & Hhc & Hlive).
  rewrite (Close_open_spec t w ts st hc th He Hs Hst Hhc Hth).
  cbn [sound_outcome].
  assert (Howned : owned st = th :: hc :: topologyWatchers st).
  { unfold owned. by rewrite Hth, Hhc. }
  assert (Hrel : omap released
            ((EWatcherStop <$> topologyWatchers st) ++
             [EHealthCheckClose hc; EThrottlerClose th;
              ELog INFO "TxThrottler: closed" no_arg]) =
          topologyWatchers st ++ [hc; th]).
  { by rewrite omap_app, omap_released_stops. }
  assert (Hacq : omap acquired
            ((EWatcherStop <$> topologyWatchers st) ++
             [EHealthCheckClose hc; EThrottlerClose th;
              ELog INFO "TxThrottler: closed" no_arg]) = []).
  { by rewrite omap_app, omap_acquired_stops. }
  split; [split|by repeat split].
  - unfold accounted. cbn [this world state trace].
    rewrite live_app, Hrel, Hacq, Hlive, Howned.
    rewrite list_difference_all; [done|].
    repeat apply Forall_cons_2.
    + apply elem_of_app. right. right. left.
    + apply elem_of_app. right. left.
    + apply Forall_forall. intros x Hx. apply elem_of_app. by left.
  - cbn [world] in Hb |- *.
    eapply bounded_step; [exact Hb|reflexivity|world_simpl; lia| |].
    + rewrite Hacq. constructor.
    + rewrite Hrel. unfold bounded in Hb. apply Forall_app in Hb as [Hba _].
      rewrite Forall_forall in Hba. apply Forall_forall. intros x Hx.
      world_simpl. apply Hba, live_subset_acquired.
      rewrite Hlive, Howned.
      apply elem_of_app in Hx as [Hx|Hx].
      * by do 2 right.
      * apply elem_of_cons in Hx as [->|Hx]; [right; left|].
        apply list_elem_of_singleton in Hx as ->. left.
Qed.

Lemma Throttle_sound (E : Env) (s : Sys) :
  sound s -> sound_outcome s (Throttle E s).
Proof.
  destruct s as [t w]. intros Hsound.
  destruct (enabled (config t)) eqn:He;
    [|rewrite Throttle_disabled by done; split; [done|apply same_target_refl]].
  destruct (state t) as [ts|] eqn:Hs.
  - pose proof Hsound as [Hacc _]. unfold accounted in Hacc.
    cbn [this world] in Hacc. rewrite Hs in Hacc.
    destruct Hacc as (st & th & hc & Hst & Hth & Hhc & Hlive).
    rewrite (Throttle_open_spec E t w ts st th He Hs Hst Hth).
    cbn [sound_outcome]. split; [|by repeat split].
    by eapply (sound_quiet t w _ [EThrottle th 0]).
  - replace (Throttle E (mkSys t w)) with
      (@Panicked Sys bool throttle_on_closed (mkSys t w)).
    + split; [done|]. split; [apply same_target_refl|by left].
    + unfold Throttle, bind, get_this. cbn [this]. by rewrite He, Hs.
Qed.

Lemma InitDBConfig_new_target_usable (s : Sys) (tg : querypb.Target) :
  exists s',
    (p <- liftW (new_target tg) ;; InitDBConfig (Some p)) s = Ret tt s' /\
    same_but_target s s' /\
    exists q, target (this s') = Some q /\ targets (world s') !! q = Some tg.
Proof.
  destruct s as [t w].
  unfold bind, liftW, new_target, InitDBConfig, bind, liftW, proto_Clone,
    load_target, bind, deref, ret. cbn [world this]. world_simpl.
  rewrite lookup_alloc. cbn [world this]. world_simpl.
  eexists. split; [reflexivity|]. split; [by repeat split|].
  eexists. split; [reflexivity|]. cbn [world targets]. apply lookup_alloc.
Qed.

Lemma call_outcome_of_sound {A} (s : Sys) (ok : Prop) (r : Res Sys A) :
  sound_outcome s r -> call_outcome s ok r.
Proof.
  destruct r as [a s'|p s']; cbn.
  - intros [Hs Hsame]. split; [done|]. intros Hu _.
    by eapply usable_same_target.
  - intros (Hs & Hsame & [->|[Hnu [->| ->]]]); split_and!; auto; try done.
Qed.

Lemma do_call_outcome (E : Env) (c : Call) (s : Sys) :
  sound s -> call_outcome s (c <> call_InitDBConfig None) (do_call E c s).
Proof.
  intros Hsound. destruct c as [| |[tg|]|]; cbn [do_call]; unfold bind.
  - pose proof (Open_sound E s Hsound) as H.
    apply (call_outcome_of_sound s (call_Open <> call_InitDBConfig None)) in H.
    by destruct (Open E s).
  - pose proof (Close_sound s Hsound) as H.
    apply (call_outcome_of_sound s (call_Close <> call_InitDBConfig None)) in H.
    by destruct (Close s).
  - destruct (InitDBConfig_new_target_usable s tg)
      as (s' & Hs' & Hsame & q & Hq & Hlook).
    unfold bind in Hs'. destruct (liftW (new_target tg) s); [|done].
    rewrite Hs'. cbn. split; [by eapply sound_same_but_target|].
    intros Hu _ He. destruct Hsame as (Hc & _). rewrite Hc in He |- *.
    split; [by apply Hu|]. eauto.
  - destruct (InitDBConfig_nil s) as (s' & Hs' & Hsame & _).
    rewrite Hs'. cbn. split; [by eapply sound_same_but_target|]. done.
  - pose proof (Throttle_sound E s Hsound) as H.
    apply (call_outcome_of_sound s (call_Throttle <> call_InitDBConfig None))
      in H.
    by destruct (Throttle E s).
Qed.

Lemma run_outcome (E : Env) (cs : list Call) (s : Sys) :
  sound s ->
  call_outcome s (Forall (fun c => c <> call_InitDBConfig None) cs)
    (run E cs s).
Proof.
  revert s. induction cs as [|c cs IH]; intros s Hsound; [by split|].
  cbn [run]. unfold bind.
  pose proof (do_call_outcome E c s Hsound) as Hc.
  destruct (do_call E c s) as [r s1|p s1]; cbn in Hc.
  - destruct Hc as [Hs1 Hu1]. specialize (IH s1 Hs1).
    destruct (run E cs s1) as [rs s2|p s2]; cbn in IH |- *.
    + destruct IH as [Hs2 Hu2]. split; [done|].
      intros Hu Hall. apply Forall_cons in Hall as [? ?]. auto.
    + destruct IH as (Hs2 & Hp & Hu2). split_and!; [done..|].
      intros Hu Hall. apply Forall_cons in Hall as [? ?]. auto.
  - destruct Hc as (Hs1 & Hp & Hu1). split_and!; [done..|].
    intros Hu Hall. apply Forall_cons in Hall as [? ?]. auto.
Qed.

Lemma Open_panic_cause (E : Env) (s s' : Sys) (p : PanicVal) :
  Open E s = Panicked p s' -> panic_cause s call_Open p.
Proof.
  destruct s as [t w]. intros HO.
  destruct (enabled (config t)) eqn:He;
    [|by rewrite Open_disabled in HO by done].
  destruct (state t) as [l0|] eqn:Hs.
  { unfold Open, bind, get_this in HO. cbn [this] in HO.
    by rewrite He, Hs in HO. }
  pose proof (Open_cases E t w He Hs) as HC. cbn zeta in HC.
  unfold panic_cause. cbn [this world].
  split; [done|]. split; [done|]. right. split; [done|].
  destruct (target t) as [l|] eqn:Ht.
  2: { rewrite HC in HO. injection HO as <- <-. by left. }
  destruct (targets w !! l) as [tg|] eqn:Hl.
  2: { rewrite HC in HO. injection HO as <- <-. right. left. by exists l. }
  rewrite HC in HO. clear HC.
  match type of HO with
  | context [newTxThrottlerState E ?c ?k ?sh ?ce ?w1] =>
      pose proof (newTxThrottlerState_cases E c k sh ce w1) as HN
  end.
  destruct (throttlerConfig (config t)) as [c|] eqn:Hc.
  - destruct (throttlerFactory_err _ _ _ _ _ _ _) as [err|];
      [by rewrite HN in HO|].
    destruct (UpdateConfiguration_err _ _ _ _ _) as [err|];
      by rewrite HN in HO.
  - rewrite HN in HO. injection HO as <- <-. right. right. by exists l, tg.
Qed.

Lemma Close_returns (s : Sys) : sound s -> exists s', Close s = Ret tt s'.
Proof.
  destruct s as [t w]. intros [Hacc _].
  destruct (enabled (config t)) eqn:He;
    [|rewrite Close_disabled by done; eauto].
  destruct (state t) as [ts|] eqn:Hs.
  - unfold accounted in Hacc. cbn [this world] in Hacc. rewrite Hs in Hacc.
    destruct Hacc as (st & th & hc & Hst & Hth & Hhc & _).
    rewrite (Close_open_spec t w ts st hc th He Hs Hst Hhc Hth). eauto.
  - unfold Close, bind, get_this. cbn [this]. rewrite He, Hs. cbn. eauto.
Qed.

Lemma Throttle_panic_cause (E : Env) (s s' : Sys) (p : PanicVal) :
  sound s -> Throttle E s = Panicked p s' -> panic_cause s call_Throttle p.
Proof.
  destruct s as [t w]. intros [Hacc _] HT.
  destruct (enabled (config t)) eqn:He;
    [|by rewrite Throttle_disabled in HT by done].
  destruct (state t) as [ts|] eqn:Hs.
  - unfold accounted in Hacc. cbn [this world] in Hacc. rewrite Hs in Hacc.
    destruct Hacc as (st & th & hc & Hst & Hth & Hhc & _).
    by rewrite (Throttle_open_spec E t w ts st th He Hs Hst Hth) in HT.
  - unfold Throttle, bind, get_this in HT. cbn [this] in HT.
    rewrite He, Hs in HT. cbn in HT. injection HT as <- <-.
    unfold panic_cause. cbn [this world]. split_and!; [done..|]. by left.
Qed.

Lemma do_call_panic_cause (E : Env) (c : Call) (s s' : Sys) (p : PanicVal) :
  sound s -> do_call E c s = Panicked p s' -> panic_cause s c p.
Proof.
  intros Hsound Hcall. destruct c as [| |[tg|]|]; cbn [do_call] in Hcall;
    unfold bind in Hcall.
  - destruct (Open E s) as [a s1|p1 s1] eqn:HO; [done|].
    injection Hcall as -> ->. by eapply Open_panic_cause.
  - destruct (Close_returns s Hsound) as [s1 HC]. by rewrite HC in Hcall.
  - destruct (InitDBConfig_new_target s tg) as (s1 & Hs1 & _).
    unfold bind in Hs1. destruct (liftW (new_target tg) s); [|done].
    by rewrite Hs1 in Hcall.
  - destruct (InitDBConfig_nil s) as (s1 & Hs1 & _). by rewrite Hs1 in Hcall.
  - destruct (Throttle E s) as [a s1|p1 s1] eqn:HT; [done|].
    injection Hcall as -> ->. by eapply Throttle_panic_cause.
Qed.

Lemma run_panics_at (E : Env) (cs : list Call) :
  forall (s s' : Sys) (p : PanicVal),
    sound s ->
    run E cs s = Panicked p s' ->
    exists pre c post rs s1,
      cs = pre ++ c :: post /\
      run E pre s = Ret rs s1 /\
      do_call E c s1 = Panicked p s' /\
      panic_cause s1 c p.
Proof.
  induction cs as [|c cs IH]; intros s s' p Hsound Hrun; [done|].
  cbn [run] in Hrun. unfold bind in Hrun.
  destruct (do_call E c s) as [r s1|p1 s1] eqn:Hc.
  - pose proof (do_call_outcome E c s Hsound) as Ho. rewrite Hc in Ho.
    cbn in Ho. destruct Ho as [Hs1 _].
    destruct (run E cs s1) as [rs s2|p2 s2] eqn:Hr; [done|].
    injection Hrun as -> ->.
    destruct (IH s1 s' p Hs1 Hr) as (pre & c0 & post & rs & s0 & -> & Hpre & H0).
    exists (c :: pre), c0, post, (r :: rs), s0. split; [done|].
    split; [|done]. cbn [run]. unfold bind. by rewrite Hc, Hpre.
  - injection Hrun as -> ->. exists [], c, cs, [], s.
    split_and!; [done..|]. by eapply do_call_panic_cause.
Qed.

Lemma panic_cause_not_deallocated (s : Sys) (c : Call) (p : PanicVal) :
  panic_cause s c p -> p <> use_after_deallocate.
Proof.
  intros (_ & _ & [[_ ->]|[_ [[_ ->]|[(l & _ & _ & ->)|(l & tg & _ & _ & _ & ->)]]]]);
    discriminate.
Qed.

(** ** The open interval, as a caller sees it *)

(** X1: [Open] on an enabled, closed throttler with a target, when the
    factory and [UpdateConfiguration] succeed, returns nil and builds, in
    this order: the throttler (named [TxThrottlerName], unit "TPS", one
    thread, the configured maximal lag), its configuration update with
    [copyZeroValues] true, one health check for the target's cell over all
    the cells, one subscription, and one topology watcher per cell of
    [healthCheckCells], in the order of the list, each for the target's
    keyspace and shard and on the same health check.  The new state holds
    them; exactly one goroutine is started. *)
Theorem Open_builds_the_state (E : Env) (t : TxThrottler) (w : World) (l : loc)
    (tg : querypb.Target) (c : throttlerdatapb.Configuration) :
  enabled (config t) = true ->
  state t = None ->
  target t = Some l ->
  targets w !! l = Some tg ->
  throttlerConfig (config t) = Some c ->
  let w1 :=
    with_trace (trace w ++ [ELog INFO "TxThrottler: opening" no_arg]) w in
  throttlerFactory_err E TxThrottlerName "TPS" 1 (MaxRateModuleDisabled E)
    (throttlerdatapb.MaxReplicationLagSec c) w1 = None ->
  UpdateConfiguration_err E (fresh w) c true (after_factory E c w1) = None ->
  Open E (mkSys t w) =
  Ret None
    (mkSys (mkTxThrottler (config t) (Some (length (states w))) (target t))
       (mkWorld (targets w)
          (states w ++
           [built_state (fresh w) (length (healthCheckCells (config t)))])
          (cancelled w)
          (tasks w ++
           [mkTask (S (fresh w)) (S (S (S (fresh w)))) (length (states w))])
          (trace w ++
           ELog INFO "TxThrottler: opening" no_arg ::
           built_events E (config t) c (querypb.Keyspace tg) (querypb.Shard tg)
             (querypb.Cell tg) (fresh w))
          (clock w) (fresh w + 4 + length (healthCheckCells (config t))))).
Proof. intros He Hs Ht Hl Hc w1 Hf Hu. by apply (Open_closed_ok E t w l tg c). Qed.

Lemma Open_builds_the_state_witness :
  Open env_ok sample_closed = Ret None sample_open.
Proof.
  unfold sample_closed.
  rewrite (Open_builds_the_state env_ok (mkTxThrottler enabled_config None (Some 0%nat))
             sample_world 0%nat sample_target
             sample_configuration eq_refl eq_refl eq_refl eq_refl eq_refl
             eq_refl eq_refl).
  reflexivity.
Defined.

(** X2: [Close] on an open throttler stops the watchers in the order they
    were built, then closes the health check, then the throttler, logs, and
    sets [state] to nil; the state object keeps only its cancel function.
    It starts and cancels nothing. *)
Theorem Close_tears_down_in_order (t : TxThrottler) (w : World) (ts : loc)
    (st : txThrottlerState) (hc th : handle) :
  enabled (config t) = true ->
  state t = Some ts ->
  states w !! ts = Some st ->
  healthCheck st = Some hc ->
  throttler st = Some th ->
  Close (mkSys t w) =
  Ret tt
    (mkSys (mkTxThrottler (config t) None (target t))
       (mkWorld (targets w)
          (<[ts := mkState None (stopHealthCheck st) None []]> (states w))
          (cancelled w) (tasks w)
          (trace w ++ (EWatcherStop <$> topologyWatchers st) ++
           [EHealthCheckClose hc; EThrottlerClose th;
            ELog INFO "TxThrottler: closed" no_arg])
          (clock w) (fresh w))).
Proof. apply Close_open_spec. Qed.

Lemma Close_tears_down_in_order_witness :
  exists s',
    Close sample_open = Ret tt s' /\
    state (this s') = None /\
    trace (world s') =
    trace (world sample_open) ++
    [EWatcherStop 5; EWatcherStop 6; EHealthCheckClose 3; EThrottlerClose 1;
     ELog INFO "TxThrottler: closed" no_arg].
Proof.
  eexists. split.
  - apply (Close_tears_down_in_order (this sample_open) (world sample_open)
             0%nat (mkState (Some 1%nat) (Some 2%nat) (Some 3%nat)
                      [5%nat; 6%nat]) 3%nat 1%nat); reflexivity.
  - split; reflexivity.
Defined.

(** X3: [Throttle] on an open throttler makes exactly one call
    [Throttle(0)] on the wrapped throttler and denies exactly when the wait
    it returns is positive; nothing else changes. *)
Theorem Throttle_open_delegates (E : Env) (t : TxThrottler) (w : World)
    (ts : loc) (st : txThrottlerState) (th : handle) :
  enabled (config t) = true ->
  state t = Some ts ->
  states w !! ts = Some st ->
  throttler st = Some th ->
  Throttle E (mkSys t w) =
  Ret (0 <? Throttle_wait E th 0 w)%Z
    (mkSys t (with_trace (trace w ++ [EThrottle th 0]) w)).
Proof. apply Throttle_open_spec. Qed.

Lemma Throttle_open_delegates_witness :
  Throttle env_ok sample_open =
  Ret false
    (mkSys (this sample_open)
       (with_trace (trace (world sample_open) ++ [EThrottle 1 0])
          (world sample_open))).
Proof.
  apply (Throttle_open_delegates env_ok (this sample_open) (world sample_open)
           0%nat (mkState (Some 1%nat) (Some 2%nat) (Some 3%nat)
                    [5%nat; 6%nat]) 1%nat); reflexivity.
Defined.

(** X4: once [deallocateResources] has run on a state, [throttle] on that
    state panics with its own message instead of calling a closed
    throttler. *)
Theorem throttle_after_deallocate_panics (E : Env) (ts : loc) (w : World)
    (st : txThrottlerState) (hc th : handle) :
  states w !! ts = Some st ->
  healthCheck st = Some hc ->
  throttler st = Some th ->
  exists w',
    deallocateResources ts w = Ret tt w' /\
    throttle E ts w' = Panicked use_after_deallocate w'.
Proof. apply throttle_after_deallocate_spec. Qed.

Lemma throttle_after_deallocate_panics_witness :
  exists w',
    deallocateResources 0%nat (world sample_open) = Ret tt w' /\
    throttle env_ok 0%nat w' = Panicked use_after_deallocate w'.
Proof.
  apply (throttle_after_deallocate_panics env_ok 0%nat (world sample_open)
           (mkState (Some 1%nat) (Some 2%nat) (Some 3%nat) [5%nat; 6%nat])
           3%nat 1%nat); reflexivity.
Defined.

Lemma initially_sound (s : Sys) :
  state (this s) = None ->
  omap acquired (trace (world s)) = [] ->
  omap released (trace (world s)) = [] ->
  sound s.
Proof.
  intros Hs Ha Hr. split.
  - unfold accounted. rewrite Hs. unfold live. by rewrite Ha, Hr.
  - unfold bounded. rewrite Ha, Hr. constructor.
Qed.

(** X5: resource accounting.  From a closed throttler in a world where no
    collaborator was built yet, after any sequence of calls (whether it ends
    normally or in a panic): if the throttler is closed, every throttler,
    health check and watcher that was built has been closed or stopped; if
    it is open, the ones still live are exactly those its state holds. *)
Theorem facade_accounts_for_collaborators (E : Env) (cs : list Call)
    (s s' : Sys) :
  state (this s) = None ->
  omap acquired (trace (world s)) = [] ->
  omap released (trace (world s)) = [] ->
  (exists rs, run E cs s = Ret rs s') \/ (exists p, run E cs s = Panicked p s') ->
  match state (this s') with
  | None => live (trace (world s')) = []
  | Some l =>
      exists st th hc,
        states (world s') !! l = Some st /\
        throttler st = Some th /\
        healthCheck st = Some hc /\
        live (trace (world s')) = th :: hc :: topologyWatchers st
  end.
Proof.
  intros Hs Ha Hr Hrun.
  pose proof (run_outcome E cs s (initially_sound s Hs Ha Hr)) as Hout.
  assert (Hsound : sound s').
  { destruct Hrun as [[rs Hrun]|[p Hrun]]; rewrite Hrun in Hout; cbn in Hout;
      tauto. }
  destruct Hsound as [Hacc _]. unfold accounted in Hacc.
  destruct (state (this s')) as [l|]; [|done].
  destruct Hacc as (st & th & hc & Hst & Hth & Hhc & Hlive).
  exists st, th, hc. split_and!; try done.
  rewrite Hlive. unfold owned. by rewrite Hth, Hhc.
Qed.

Lemma facade_accounts_for_collaborators_witness :
  exists s',
    run env_ok [call_Open; call_Throttle; call_Close; call_Open; call_Close]
      sample_closed =
    Ret [reply_Open None; reply_Throttle false; reply_Close; reply_Open None;
         reply_Close] s' /\
    state (this s') = None /\
    live (trace (world s')) = [].
Proof.
  destruct (run env_ok
              [call_Open; call_Throttle; call_Close; call_Open; call_Close]
              sample_closed) as [rs s'|p s'] eqn:Hrun.
  - pose proof (facade_accounts_for_collaborators env_ok _ sample_closed s'
                  eq_refl eq_refl eq_refl (or_introl (ex_intro _ rs Hrun)))
      as H.
    vm_compute in Hrun. injection Hrun as <- <-.
    eexists. split; [reflexivity|]. split; [reflexivity|exact H].
  - vm_compute in Hrun. discriminate Hrun.
Defined.

(** X6: from such a start, a sequence of calls that panics does so at one
    call, made on an enabled and closed throttler that the calls before it
    reached by returning: either [Throttle], with its message about a closed
    throttler, or [Open], by a dereference it makes of a nil target (or of a
    target address outside the store) or, in [newTxThrottlerState], of a nil
    configuration.  The panic of [throttle] on a deallocated state is out of
    reach of the facade. *)
Theorem facade_never_throttles_a_deallocated_state (E : Env) (cs : list Call)
    (s s' : Sys) (p : PanicVal) :
  state (this s) = None ->
  omap acquired (trace (world s)) = [] ->
  omap released (trace (world s)) = [] ->
  run E cs s = Panicked p s' ->
  p <> use_after_deallocate /\
  exists pre c post rs s1,
    cs = pre ++ c :: post /\
    run E pre s = Ret rs s1 /\
    do_call E c s1 = Panicked p s' /\
    enabled (config (this s1)) = true /\
    state (this s1) = None /\
    ((c = call_Throttle /\ p = throttle_on_closed) \/
     (c = call_Open /\
      ((target (this s1) = None /\ p = nil_dereference) \/
       (exists l,
          target (this s1) = Some l /\ targets (world s1) !! l = None /\
          p = bad_address) \/
       (exists l tg,
          target (this s1) = Some l /\ targets (world s1) !! l = Some tg /\
          throttlerConfig (config (this s1)) = None /\ p = nil_dereference)))).
Proof.
  intros Hs Ha Hr Hrun.
  destruct (run_panics_at E cs s s' p (initially_sound s Hs Ha Hr) Hrun)
    as (pre & c & post & rs & s1 & Hcs & Hpre & Hcall & Hcause).
  split; [by eapply panic_cause_not_deallocated|].
  exists pre, c, post, rs, s1. split_and!; [done..| | |];
    destruct Hcause as (He & Hst & Hwhy); done.
Qed.

Lemma facade_never_throttles_a_deallocated_state_witness :
  exists p s',
    run env_ok [call_Open; call_Close; call_Throttle] sample_closed =
    Panicked p s' /\
    p <> use_after_deallocate /\
    exists pre c post rs s1,
      [call_Open; call_Close; call_Throttle] = pre ++ c :: post /\
      run env_ok pre sample_closed = Ret rs s1 /\
      do_call env_ok c s1 = Panicked p s' /\
      enabled (config (this s1)) = true /\
      state (this s1) = None /\
      ((c = call_Throttle /\ p = throttle_on_closed) \/
       (c = call_Open /\
        ((target (this s1) = None /\ p = nil_dereference) \/
         (exists l,
            target (this s1) = Some l /\ targets (world s1) !! l = None /\
            p = bad_address) \/
         (exists l tg,
            target (this s1) = Some l /\ targets (world s1) !! l = Some tg /\
            throttlerConfig (config (this s1)) = None /\
            p = nil_dereference)))).
Proof.
  destruct (run env_ok [call_Open; call_Close; call_Throttle] sample_closed)
    as [rs s'|p s'] eqn:Hrun.
  - vm_compute in Hrun. discriminate Hrun.
  - exists p, s'. split; [reflexivity|].
    exact (facade_never_throttles_a_deallocated_state env_ok _ sample_closed
             s' p eq_refl eq_refl eq_refl Hrun).
Defined.





(** X9: no sequence of calls on the facade ever cancels a context or drops
    a goroutine: a consumer that cannot take its [return] before the calls
    cannot take it after them. *)
Theorem facade_never_cancels (E : Env) (cs : list Call) (s s' : Sys)
    (tk : Task) :
  (exists rs, run E cs s = Ret rs s') \/ (exists p, run E cs s = Panicked p s') ->
  cancelled (world s') = cancelled (world s) /\
  (tk ∈ running (world s) -> tk ∈ running (world s')).
Proof.
  intros Hrun. pose proof (quiet_run E cs s) as Hq.
  assert (Hk : keeps_tasks (world s) (world s')).
  { destruct Hrun as [[rs Hrun]|[p Hrun]]; by rewrite Hrun in Hq. }
  split; [by destruct Hk|]. by apply running_kept.
Qed.

Lemma facade_never_cancels_witness :
  exists s',
    run env_ok [call_Throttle; call_Close; call_Open] sample_open =
    Ret [reply_Throttle false; reply_Close; reply_Open None] s' /\
    cancelled (world s') = cancelled (world sample_open) /\
    sample_task ∈ running (world s').
Proof.
  destruct (run env_ok [call_Throttle; call_Close; call_Open] sample_open)
    as [rs s'|p s'] eqn:Hrun.
  - destruct (facade_never_cancels env_ok _ sample_open s' sample_task
                (or_introl (ex_intro _ rs Hrun))) as [Hc Hr].
    vm_compute in Hrun. injection Hrun as <- <-.
    eexists. split; [reflexivity|]. split; [exact Hc|].
    apply Hr. vm_compute. left.
  - vm_compute in Hrun. discriminate Hrun.
Defined.

Lemma write_targets_frame (ws : list (loc * querypb.Target)) (w : World) :
  states (write_targets ws w) = states w /\
  cancelled (write_targets ws w) = cancelled w /\
  tasks (write_targets ws w) = tasks w /\
  trace (write_targets ws w) = trace w /\
  clock (write_targets ws w) = clock w /\
  fresh (write_targets ws w) = fresh w.
Proof.
  revert w. induction ws as [|[l tg] ws IH]; intros w; [done|].
  unfold write_targets in *. simpl.
  destruct (IH (write_target l tg w)) as (H1 & H2 & H3 & H4 & H5 & H6).
  by rewrite H1, H2, H3, H4, H5, H6.
Qed.

Lemma world_eta (w : World) :
  w = mkWorld (targets w) (states w) (cancelled w) (tasks w) (trace w)
        (clock w) (fresh w).
Proof. by destruct w. Qed.

Lemma never_fails_env_ok : never_fails env_ok.
Proof. by split. Qed.

(** X10: the interval watches the target as it was at [InitDBConfig].
    After [InitDBConfig(p)], whatever the caller writes through [p] or any
    other address it held before, a successful [Open] builds its health
    check and its watchers for the cell, keyspace and shard the message had
    when [InitDBConfig] was called. *)
Theorem Open_watches_the_cloned_target (E : Env) (t : TxThrottler) (w : World)
    (p : loc) (tg : querypb.Target) (c : throttlerdatapb.Configuration)
    (ws : list (loc * querypb.Target)) :
  enabled (config t) = true ->
  state t = None ->
  throttlerConfig (config t) = Some c ->
  targets w !! p = Some tg ->
  never_fails E ->
  Forall (fun x => (x.1 < length (targets w))%nat) ws ->
  exists s1 s2,
    InitDBConfig (Some p) (mkSys t w) = Ret tt s1 /\
    Open E (mkSys (this s1) (write_targets ws (world s1))) = Ret None s2 /\
    trace (world s2) =
    trace w ++
    ELog INFO "TxThrottler: opening" no_arg ::
    built_events E (config t) c (querypb.Keyspace tg) (querypb.Shard tg)
      (querypb.Cell tg) (fresh w).
Proof.
  intros He Hs Hc Hp [Hf Hu] Hws.
  set (s1 := mkSys (mkTxThrottler (config t) (state t)
                      (Some (length (targets w))))
               (with_targets (targets w ++ [tg]) w)).
  assert (H1 : InitDBConfig (Some p) (mkSys t w) = Ret tt s1).
  { unfold InitDBConfig, bind, liftW, proto_Clone, bind, load_target, bind,
      deref, ret. cbn [world this targets]. by rewrite Hp. }
  destruct (write_targets_frame ws (world s1)) as (Hst & Hca & Hta & Htr & Hcl & Hfr).
  assert (Hq : targets (write_targets ws (world s1)) !! length (targets w) =
               Some tg).
  { rewrite write_targets_elsewhere.
    - cbn [s1 world targets with_targets]. apply lookup_alloc.
    - eapply Forall_impl; [exact Hws|]. intros [l tg'] Hl. simpl in *. lia. }
  exists s1. eexists. split; [exact H1|]. split.
  - apply (Open_closed_ok E (this s1) (write_targets ws (world s1))
             (length (targets w)) tg c); done.
  - cbn [world trace this config]. rewrite Htr, Hfr. reflexivity.
Qed.

Lemma Open_watches_the_cloned_target_witness :
  exists s1 s2,
    InitDBConfig (Some 0%nat)
      (mkSys (mkTxThrottler enabled_config None None) sample_world) =
    Ret tt s1 /\
    Open env_ok
      (mkSys (this s1) (write_targets [(0%nat, foreign_target)] (world s1))) =
    Ret None s2 /\
    trace (world s2) =
    trace sample_world ++
    ELog INFO "TxThrottler: opening" no_arg ::
    built_events env_ok enabled_config sample_configuration "ks" "0" "zone1" 1.
Proof.
  apply (Open_watches_the_cloned_target env_ok
           (mkTxThrottler enabled_config None None) sample_world 0%nat
           sample_target sample_configuration [(0%nat, foreign_target)]);
    try reflexivity.
  - apply never_fails_env_ok.
  - repeat constructor.
Defined.

(** X11: re-opening starts from nothing.  [Open], [Close], [Open] on a
    closed throttler whose collaborators never fail: the second interval
    has a state object at a new address holding collaborators with new
    identities, built by the same calls as the first; the first state
    object stays deallocated; both goroutines are in the world and no
    context was cancelled. *)
Theorem reopen_builds_new_objects (E : Env) (t : TxThrottler) (w : World)
    (l : loc) (tg : querypb.Target) (c : throttlerdatapb.Configuration) :
  enabled (config t) = true ->
  state t = None ->
  target t = Some l ->
  targets w !! l = Some tg ->
  throttlerConfig (config t) = Some c ->
  never_fails E ->
  let n := length (healthCheckCells (config t)) in
  let h := fresh w in
  let h' := (fresh w + 4 + n)%nat in
  let built :=
    built_events E (config t) c (querypb.Keyspace tg) (querypb.Shard tg)
      (querypb.Cell tg) in
  exists s3,
    (Open E ;; Close ;; Open E) (mkSys t w) = Ret None s3 /\
    state (this s3) = Some (S (length (states w))) /\
    states (world s3) =
    states w ++ [mkState None (Some (S h)) None []; built_state h' n] /\
    tasks (world s3) =
    tasks w ++
    [mkTask (S h) (S (S (S h))) (length (states w));
     mkTask (S h') (S (S (S h'))) (S (length (states w)))] /\
    cancelled (world s3) = cancelled w /\
    trace (world s3) =
    trace w ++
    (ELog INFO "TxThrottler: opening" no_arg :: built h) ++
    (EWatcherStop <$> seq (h + 4) n) ++
    [EHealthCheckClose (S (S h)); EThrottlerClose h;
     ELog INFO "TxThrottler: closed" no_arg] ++
    (ELog INFO "TxThrottler: opening" no_arg :: built h').
Proof.
  intros He Hs Ht Hl Hc [Hf Hu] n h h' built.
  unfold bind at 1.
  rewrite (Open_closed_ok E t w l tg c He Hs Ht Hl Hc (Hf _ _ _ _ _ _)
             (Hu _ _ _ _)).
  unfold bind at 1.
  erewrite Close_open_spec;
    [|done|reflexivity|cbn [world states]; apply lookup_alloc
     |reflexivity|reflexivity].
  cbn [world this config target states targets cancelled tasks trace clock
       fresh built_state stopHealthCheck topologyWatchers].
  rewrite insert_alloc.
  erewrite Open_closed_ok;
    [|exact He|reflexivity|exact Ht|exact Hl|exact Hc|apply Hf|apply Hu].
  cbn [world this config target states targets cancelled tasks trace clock
       fresh].
  eexists. split; [reflexivity|].
  cbn [world this state states tasks cancelled trace].
  rewrite !length_app. cbn [length].
  replace (length (states w) + 1)%nat with (S (length (states w))) by lia.
  fold n h h'.
  split; [done|]. split; [by rewrite <- app_assoc|].
  split; [by rewrite <- app_assoc|]. split; [done|].
  fold built. rewrite <- !app_assoc. reflexivity.
Qed.

Lemma reopen_builds_new_objects_witness :
  exists s3,
    (Open env_ok ;; Close ;; Open env_ok) sample_closed = Ret None s3 /\
    state (this s3) = Some 1%nat /\
    states (world s3) =
    [mkState None (Some 2%nat) None []; built_state 7 2] /\
    tasks (world s3) = [mkTask 2 4 0; mkTask 8 10 1] /\
    cancelled (world s3) = [] /\
    trace (world s3) =
    (ELog INFO "TxThrottler: opening" no_arg ::
     built_events env_ok enabled_config sample_configuration "ks" "0" "zone1" 1) ++
    (EWatcherStop <$> [5%nat; 6%nat]) ++
    [EHealthCheckClose 3; EThrottlerClose 1;
     ELog INFO "TxThrottler: closed" no_arg] ++
    (ELog INFO "TxThrottler: opening" no_arg ::
     built_events env_ok enabled_config sample_configuration "ks" "0" "zone1" 7).
Proof.
  apply (reopen_builds_new_objects env_ok (this sample_closed) sample_world
           0%nat sample_target sample_configuration);
    try reflexivity.
  apply never_fails_env_ok.
Defined.

(** X12: what a consumer left behind by [Close] does with an event: one
    whose role is REPLICA makes it dereference the throttler that [Close]
    set to nil; any other role is still discarded without effect. *)
Theorem consumer_after_Close (t : TxThrottler) (w : World) (tk : Task)
    (st : txThrottlerState) (hc th : handle) (ev : discovery.TabletHealth)
    (tg : querypb.Target) :
  enabled (config t) = true ->
  state t = Some (task_result tk) ->
  states w !! task_result tk = Some st ->
  healthCheck st = Some hc ->
  throttler st = Some th ->
  discovery.Target ev = Some tg ->
  exists s',
    Close (mkSys t w) = Ret tt s' /\
    consumer tk (recv (Some ev)) (world s') =
    if decide (querypb.TabletType tg = topodatapb.REPLICA)
    then Panicked nil_dereference (world s')
    else Ret Looping (world s').
Proof.
  intros He Hs Hst Hhc Hth Htg.
  assert (Hlt : (task_result tk < length (states w))%nat)
    by by eapply lookup_lt_Some.
  eexists. split; [by eapply Close_open_spec|].
  unfold consumer, bind, StatsUpdate, bind, deref, ret. rewrite Htg.
  destruct (decide (querypb.TabletType tg <> topodatapb.REPLICA)) as [Hne|He'];
    destruct (decide (querypb.TabletType tg = topodatapb.REPLICA)) as [Heq|Hne'];
    try done.
  unfold load_state, time_Now. cbn [world states].
  by rewrite list_lookup_insert_eq.
Qed.

Lemma consumer_after_Close_witness :
  exists s',
    Close sample_open = Ret tt s' /\
    consumer sample_task (recv (Some replica_event)) (world s') =
    Panicked nil_dereference (world s').
Proof.
  apply (consumer_after_Close (this sample_open) (world sample_open)
           sample_task
           (mkState (Some 1%nat) (Some 2%nat) (Some 3%nat) [5%nat; 6%nat])
           3%nat 1%nat replica_event
           (querypb.mkTarget "ks" "0" topodatapb.REPLICA "zone1"));
    reflexivity.
Defined.

(** * Properties of the plan builder *)

Module planbuilder_facts.

Import planbuilder.

(** ** Database DDL *)

(** X13: [buildDBDDLPlan] only plans what changes something: a plan that
    creates a database is built only for a name that does not exist, and a
    plan that drops one only for a name that exists; the name is the one
    of the statement, or the default keyspace's when the statement has
    none; ALTER DATABASE never gets a plan. *)
Theorem buildDBDDLPlan_plans_only_what_changes (queryTimeout : list string -> Z)
    (V : VSchema) (stmt : sqlparser.DBDDLStatement) (name : string)
    (create : bool) (timeout : Z) :
  buildDBDDLPlan queryTimeout V stmt = inl (DBDDL name create timeout) ->
  KeyspaceExists V name = negb create /\
  (if decide (sqlparser.GetDatabaseName stmt = "")
   then exists ks, DefaultKeyspace V = inl ks /\
                   name = vindexes.Name (keyspace_at V ks)
   else name = sqlparser.GetDatabaseName stmt) /\
  match stmt with
  | sqlparser.DropDatabase _ _ c => create = false /\ timeout = queryTimeout c
  | sqlparser.CreateDatabase _ _ c => create = true /\ timeout = queryTimeout c
  | sqlparser.AlterDatabase _ => False
  end.
Proof.
  unfold buildDBDDLPlan.
  destruct (decide (sqlparser.GetDatabaseName stmt = "")) as [Hn|Hn].
  - destruct (DefaultKeyspace V) as [ks|err]; [|done].
    destruct stmt as [n ife c|n|n ifne c]; cbn [sqlparser.GetDatabaseName] in *;
      destruct (KeyspaceExists V _) eqn:Hex; try destruct ife;
      try destruct ifne; cbn; intros [= <- <- <-]; cbn; split_and?; eauto.
  - destruct stmt as [n ife c|n|n ifne c]; cbn [sqlparser.GetDatabaseName] in *;
      destruct (KeyspaceExists V _) eqn:Hex; try destruct ife;
      try destruct ifne; cbn; intros [= <- <- <-]; cbn; split_and?; eauto.
Qed.

Lemma buildDBDDLPlan_plans_only_what_changes_witness :
  KeyspaceExists sample_vschema "inventory" = negb true /\
  (if decide (sqlparser.GetDatabaseName
                (sqlparser.CreateDatabase "inventory" false []) = "")
   then exists ks, DefaultKeyspace sample_vschema = inl ks /\
                   "inventory" = vindexes.Name (keyspace_at sample_vschema ks)
   else "inventory" =
        sqlparser.GetDatabaseName
          (sqlparser.CreateDatabase "inventory" false [])) /\
  (true = true /\ 30%Z = (fun _ : list string => 30%Z) []).
Proof.
  apply (buildDBDDLPlan_plans_only_what_changes (fun _ => 30%Z) sample_vschema
           (sqlparser.CreateDatabase "inventory" false []) "inventory" true
           30%Z).
  reflexivity.
Defined.

(** X14: when [buildDBDDLPlan] fails.  It returns an error exactly when
    the statement has no name and the default keyspace cannot be found, or
    it is ALTER DATABASE, or it drops without IF EXISTS a database that
    does not exist, or it creates without IF NOT EXISTS one that exists.
    In particular DROP ... IF EXISTS and CREATE ... IF NOT EXISTS on a
    named database never fail. *)
Theorem buildDBDDLPlan_fails_exactly_when (queryTimeout : list string -> Z)
    (V : VSchema) (stmt : sqlparser.DBDDLStatement) :
  (exists err, buildDBDDLPlan queryTimeout V stmt = inr err) <->
  match resolved_name V stmt with
  | inr _ => True
  | inl name =>
      match stmt with
      | sqlparser.DropDatabase _ IfExists _ =>
          IfExists = false /\ KeyspaceExists V name = false
      | sqlparser.AlterDatabase _ => True
      | sqlparser.CreateDatabase _ IfNotExists _ =>
          IfNotExists = false /\ KeyspaceExists V name = true
      end
  end.
Proof.
  unfold buildDBDDLPlan, resolved_name.
  destruct (decide (sqlparser.GetDatabaseName stmt = "")) as [Hn|Hn].
  - destruct (DefaultKeyspace V) as [ks|err]; [|by split; eauto].
    destruct stmt as [n ife c|n|n ifne c];
      destruct (KeyspaceExists V _) eqn:Hex; try destruct ife;
      try destruct ifne; cbn; split; try done; try (by eexists);
      try (by intros [? ?]); try (by intros [err ?]).
  - destruct stmt as [n ife c|n|n ifne c];
      destruct (KeyspaceExists V _) eqn:Hex; try destruct ife;
      try destruct ifne; cbn; split; try done; try (by eexists);
      try (by intros [? ?]); try (by intros [err ?]).
Qed.

(** ** FLUSH *)

Section go_map.
Context {K V : Type} `{EqDecision K}.
Implicit Types (m : list (K * V)) (k : K) (v : V).

Lemma map_get_None m k : k ∉ m.*1 -> map_get k m = None.
Proof.
  induction m as [|[k' v'] m IH]; [done|]. simpl. intros Hk.
  apply not_elem_of_cons in Hk as [Hne Hk].
  destruct (decide (k' = k)); [congruence|]. by apply IH.
Qed.

Lemma map_get_set m k k' v :
  map_get k' (map_set k v m) = if decide (k' = k) then Some v else map_get k' m.
Proof.
  induction m as [|[k0 v0] m IH]; simpl.
  - repeat case_decide; congruence.
  - repeat (case_decide; simpl in *); try congruence.
Qed.

Lemma map_set_keys m k v :
  (map_set k v m).*1 = if decide (k ∈ m.*1) then m.*1 else m.*1 ++ [k].
Proof.
  induction m as [|[k0 v0] m IH].
  - rewrite decide_False; [done|]. apply not_elem_of_nil.
  - cbn [map_set fst]. destruct (decide (k0 = k)) as [->|Hne].
    + rewrite !fmap_cons. cbn [fst]. rewrite decide_True; [done|]. left.
    + rewrite !fmap_cons, IH. cbn [fst].
      destruct (decide (k ∈ m.*1)) as [Hin|Hnin].
      * rewrite decide_True; [done|]. by right.
      * rewrite decide_False; [done|].
        intros Hin. apply elem_of_cons in Hin as [->|Hin]; done.
Qed.

End go_map.

Lemma tables_for_app sd P Q :
  tables_for sd (P ++ Q) = tables_for sd P ++ tables_for sd Q.
Proof. unfold tables_for. by rewrite filter_app, fmap_app. Qed.

Lemma tables_for_absent sd (P : list (sendDest * sqlparser.TableName)) :
  sd ∉ P.*1 -> tables_for sd P = [].
Proof.
  unfold tables_for. induction P as [|[k n] P IH]; [done|]. simpl.
  intros Hk. apply not_elem_of_cons in Hk as [Hne Hk].
  rewrite filter_cons_False by (simpl; congruence). by apply IH.
Qed.

Lemma tables_for_one sd sd' name :
  tables_for sd' [(sd, name)] = if decide (sd' = sd) then [name] else [].
Proof.
  unfold tables_for. case_decide as Heq.
  - rewrite filter_cons_True by (simpl; congruence). done.
  - rewrite filter_cons_False by (simpl; congruence). done.
Qed.

Lemma in_step_add m keys P sd name :
  in_step m keys P ->
  in_step (map_set sd (default [] (map_get sd m) ++ [name]) m)
    (match map_get sd m with Some _ => keys | None => keys ++ [sd] end)
    (P ++ [(sd, name)]).
Proof.
  intros (Hk & Hnd & Hmem & Hget).
  assert (Hcase : ((sd ∈ keys) /\ map_get sd m = Some (tables_for sd P)) \/
                  ((sd ∉ keys) /\ map_get sd m = None)).
  { destruct (decide (sd ∈ keys)) as [Hin|Hnin]; [left; eauto|right].
    split; [done|]. apply map_get_None. by rewrite Hk. }
  assert (Hv : default [] (map_get sd m) ++ [name] =
               tables_for sd (P ++ [(sd, name)])).
  { rewrite tables_for_app, tables_for_one, decide_True by done.
    destruct Hcase as [[_ ->]|[Hnin ->]]; [done|]. cbn [default from_option].
    rewrite tables_for_absent; [done|]. by rewrite <- Hmem. }
  split_and!.
  - rewrite map_set_keys, Hk.
    destruct Hcase as [[Hin ->]|[Hnin ->]]; by destruct (decide _).
  - destruct Hcase as [[Hin ->]|[Hnin ->]]; [done|].
    apply NoDup_app. split_and!; [done| |apply NoDup_singleton].
    intros x Hx Hx'. apply list_elem_of_singleton in Hx' as ->. done.
  - intros sd'. rewrite fmap_app, elem_of_app. simpl.
    rewrite list_elem_of_singleton, <- Hmem.
    destruct Hcase as [[Hin ->]|[Hnin ->]].
    + split; [by left|]. by intros [?| ->].
    + rewrite elem_of_app, list_elem_of_singleton. done.
  - intros sd' Hsd'. rewrite map_get_set.
    destruct (decide (sd' = sd)) as [->|Hne]; [by rewrite Hv|].
    assert (Hin : sd' ∈ keys).
    { destruct Hcase as [[_ Hg]|[_ Hg]]; rewrite Hg in Hsd'; [done|].
      apply elem_of_app in Hsd' as [?|Hs]; [done|].
      by apply list_elem_of_singleton in Hs. }
    rewrite Hget by done. f_equal.
    by rewrite tables_for_app, tables_for_one, decide_False, app_nil_r.
Qed.

Lemma insert_at_length {A} (l r : list A) (x y : A) :
  <[length l := y]> (l ++ x :: r) = l ++ y :: r.
Proof.
  rewrite <- (Nat.add_0_r (length l)) at 1. by rewrite insert_app_r.
Qed.

Lemma resolve_Some V d tab sd name :
  resolve V d tab = Some (sd, name) ->
  exists table,
    FindTableOrVindex V tab = inl (Some table) /\
    sd = mkSendDest (vindexes.TableKeyspace table) d /\
    name = sqlparser.mkTableName (vindexes.TableName table) "".
Proof.
  unfold resolve. destruct (FindTableOrVindex V tab) as [[table|]|]; [|done..].
  intros [= <- <-]. eauto.
Qed.

Lemma flush_tables_loop_ok (V : VSchema) (d : key.Destination)
    (rest : list sqlparser.TableName) :
  forall done_ m keys P,
    (rest <> [] -> key.hashable d = true) ->
    Forall (fun tab => is_Some (resolve V d tab)) rest ->
    in_step m keys P ->
    exists m' keys',
      flush_tables_loop V d (length done_) rest (done_ ++ rest) m keys =
      (returns (inr (m', keys')), done_ ++ (omap (resolve V d) rest).*2) /\
      in_step m' keys' (P ++ omap (resolve V d) rest).
Proof.
  induction rest as [|tab rest IH]; intros done_ m keys P Hhash Hall Hstep.
  - exists m, keys. simpl. by rewrite !app_nil_r.
  - apply Forall_cons in Hall as [[[sd name] Hres] Hall].
    destruct (resolve_Some V d tab sd name Hres) as (table & Hfind & -> & ->).
    cbn [flush_tables_loop]. rewrite Hfind.
    assert (Hh : key.hashable d = true) by by apply Hhash.
    rewrite Hh, insert_at_length.
    pose proof (in_step_add m keys P
                  (mkSendDest (vindexes.TableKeyspace table) d)
                  (sqlparser.mkTableName (vindexes.TableName table) "") Hstep)
      as Hstep'.
    specialize (IH (done_ ++ [sqlparser.mkTableName (vindexes.TableName table) ""])
                  _ _ _ (fun _ => Hh) Hall Hstep').
    destruct IH as (m' & keys' & Hloop & Hfinal).
    rewrite length_app in Hloop. cbn [length] in Hloop.
    rewrite Nat.add_1_r, <- app_assoc in Hloop. cbn [app] in Hloop.
    exists m', keys'. rewrite Hloop. cbn [omap list_omap]. rewrite Hres.
    cbn [fmap list_fmap]. rewrite <- !app_assoc in *. cbn [app] in *.
    split; [done|]. exact Hfinal.
Qed.

Lemma flush_tables_loop_fails (V : VSchema) (d : key.Destination)
    (pre : list sqlparser.TableName) :
  forall done_ tab post m keys,
    (pre <> [] -> key.hashable d = true) ->
    Forall (fun tab => is_Some (resolve V d tab)) pre ->
    resolve V d tab = None ->
    flush_tables_loop V d (length done_) (pre ++ tab :: post)
      (done_ ++ pre ++ tab :: post) m keys =
    (returns (inl (resolve_error V tab)),
     done_ ++ (omap (resolve V d) pre).*2 ++ tab :: post).
Proof.
  induction pre as [|x pre IH]; intros done_ tab post m keys Hhash Hall Hfail.
  - cbn [app flush_tables_loop omap list_omap fmap list_fmap].
    unfold resolve in Hfail. unfold resolve_error.
    by destruct (FindTableOrVindex V tab) as [[table|]|].
  - apply Forall_cons in Hall as [[[sd name] Hres] Hall].
    destruct (resolve_Some V d x sd name Hres) as (table & Hfind & -> & ->).
    cbn [app flush_tables_loop]. rewrite Hfind.
    assert (Hh : key.hashable d = true) by by apply Hhash.
    rewrite Hh, insert_at_length.
    specialize (IH (done_ ++ [sqlparser.mkTableName (vindexes.TableName table) ""])
                  tab post
                  (map_set (mkSendDest (vindexes.TableKeyspace table) d)
                     (default [] (map_get
                                    (mkSendDest (vindexes.TableKeyspace table) d)
                                    m) ++
                      [sqlparser.mkTableName (vindexes.TableName table) ""]) m)
                  (match map_get (mkSendDest (vindexes.TableKeyspace table) d) m
                   with Some _ => keys
                   | None => keys ++ [mkSendDest (vindexes.TableKeyspace table) d]
                   end) (fun _ => Hh) Hall Hfail).
    rewrite length_app in IH. cbn [length] in IH.
    rewrite Nat.add_1_r, <- !app_assoc in IH. cbn [app] in IH.
    rewrite IH. cbn [omap list_omap]. rewrite Hres. cbn [fmap list_fmap].
    by rewrite <- ?app_assoc.
Qed.

Lemma in_step_nil : in_step [] [] [].
Proof.
  split_and!; [done|constructor| |].
  - intros sd. split; intros H; by apply elem_of_nil in H.
  - intros sd H. by apply elem_of_nil in H.
Qed.

Lemma flush_tables_loop_panics (V : VSchema) (d : key.Destination)
    (done_ post : list sqlparser.TableName) (tab name : sqlparser.TableName)
    (sd : sendDest) (m : list (sendDest * list sqlparser.TableName))
    (keys : list sendDest) :
  key.hashable d = false ->
  resolve V d tab = Some (sd, name) ->
  flush_tables_loop V d (length done_) (tab :: post) (done_ ++ tab :: post) m
    keys =
  (panics (hash_of_unhashable_type d), done_ ++ name :: post).
Proof.
  intros Hh Hres.
  destruct (resolve_Some V d tab sd name Hres) as (table & Hfind & -> & ->).
  cbn [flush_tables_loop]. by rewrite Hfind, Hh, insert_at_length.
Qed.

Lemma buildFlushTables_ok (sqlparser_String : sqlparser.Flush -> string)
    (sort_Slice : list sendDest -> list sendDest) (V : VSchema)
    (stmt : sqlparser.Flush) :
  sorts V sort_Slice ->
  let d := default key.DestinationAllShards (Destination V) in
  let P := omap (resolve V d) (sqlparser.TableNames stmt) in
  let stmt' := with_TableNames P.*2 stmt in
  (sqlparser.TableNames stmt <> [] -> key.hashable d = true) ->
  Forall (fun tab => is_Some (resolve V d tab)) (sqlparser.TableNames stmt) ->
  exists order,
    NoDup order /\
    (forall sd, sd ∈ order <-> sd ∈ P.*1) /\
    Sorted (by_name V) order /\
    buildFlushTables sqlparser_String sort_Slice V stmt =
    (returns
       (inl match order with
            | [sd] => flush_source sqlparser_String stmt' P sd
            | _ => Concatenate (flush_source sqlparser_String stmt' P <$> order)
            end), stmt').
Proof.
  intros Hsort d P stmt' Hhash Hall.
  destruct (flush_tables_loop_ok V d (sqlparser.TableNames stmt) [] [] [] []
              Hhash Hall in_step_nil) as (m & keys & Hloop & Hstep).
  cbn [app length] in Hloop, Hstep. fold P in Hloop, Hstep.
  destruct Hstep as (Hk & Hnd & Hmem & Hget).
  unfold buildFlushTables. fold d. rewrite Hloop. fold stmt'.
  assert (Hsrc : forall sd, sd ∈ keys ->
            flush_send sqlparser_String stmt' m sd =
            flush_source sqlparser_String stmt' P sd).
  { intros sd Hsd. unfold flush_send, flush_source. by rewrite Hget. }
  destruct m as [|[sd tables] [|e m]].
  - (* no table *)
    exists (sort_Slice keys). destruct (Hsort keys) as [Hperm Hsorted].
    cbn in Hk. subst keys. apply Permutation_nil_r in Hperm. rewrite Hperm.
    split_and!; [constructor|done|constructor|done].
  - (* one keyspace *)
    cbn in Hk. subst keys. exists [sd].
    split_and!; [done|done|repeat constructor|].
    rewrite <- Hsrc by left. unfold flush_send. cbn [map_get fst snd].
    by rewrite decide_True.
  - (* several keyspaces *)
    exists (sort_Slice keys). destruct (Hsort keys) as [Hperm Hsorted].
    split_and!.
    + by rewrite Hperm.
    + intros x. by rewrite Hperm.
    + done.
    + assert (Hlen : length (sort_Slice keys) = S (S (length m))).
      { rewrite Hperm, <- Hk. cbn. by rewrite length_fmap. }
      assert (Hmap : flush_send sqlparser_String stmt'
                       ((sd, tables) :: e :: m) <$> sort_Slice keys =
                     flush_source sqlparser_String stmt' P <$> sort_Slice keys).
      { apply list_fmap_ext. intros i x Hx. apply Hsrc. rewrite <- Hperm.
        by apply list_elem_of_lookup_2 in Hx. }
      rewrite Hmap.
      by destruct (sort_Slice keys) as [|a [|b l]].
Qed.

Lemma buildFlushTables_error (sqlparser_String : sqlparser.Flush -> string)
    (sort_Slice : list sendDest -> list sendDest) (V : VSchema)
    (stmt : sqlparser.Flush) (pre post : list sqlparser.TableName)
    (tab : sqlparser.TableName) :
  let d := default key.DestinationAllShards (Destination V) in
  sqlparser.TableNames stmt = pre ++ tab :: post ->
  (pre <> [] -> key.hashable d = true) ->
  Forall (fun tab => is_Some (resolve V d tab)) pre ->
  resolve V d tab = None ->
  buildFlushTables sqlparser_String sort_Slice V stmt =
  (returns (inr (resolve_error V tab)),
   with_TableNames ((omap (resolve V d) pre).*2 ++ tab :: post) stmt).
Proof.
  intros d Hnames Hhash Hpre Hfail. unfold buildFlushTables. fold d.
  rewrite Hnames.
  pose proof (flush_tables_loop_fails V d pre [] tab post [] [] Hhash Hpre
                Hfail) as Hloop.
  cbn [length app] in Hloop. by rewrite Hloop.
Qed.

Lemma buildFlushTables_unhashable (sqlparser_String : sqlparser.Flush -> string)
    (sort_Slice : list sendDest -> list sendDest) (V : VSchema)
    (stmt : sqlparser.Flush) (tab name : sqlparser.TableName)
    (post : list sqlparser.TableName) (sd : sendDest) :
  let d := default key.DestinationAllShards (Destination V) in
  sqlparser.TableNames stmt = tab :: post ->
  key.hashable d = false ->
  resolve V d tab = Some (sd, name) ->
  buildFlushTables sqlparser_String sort_Slice V stmt =
  (panics (hash_of_unhashable_type d), with_TableNames (name :: post) stmt).
Proof.
  intros d Hnames Hh Hres. unfold buildFlushTables. fold d. rewrite Hnames.
  pose proof (flush_tables_loop_panics V d [] post tab name sd [] [] Hh Hres)
    as Hloop.
  cbn [length app] in Hloop. by rewrite Hloop.
Qed.

Lemma first_failure {A} (Q : A -> Prop) `{forall x, Decision (Q x)}
    (l : list A) :
  Forall Q l \/
  exists pre x post, l = pre ++ x :: post /\ Forall Q pre /\ ~ Q x.
Proof.
  induction l as [|x l IH]; [by left|].
  destruct (decide (Q x)) as [Hx|Hx].
  - destruct IH as [Hall|(pre & y & post & -> & Hpre & Hy)].
    + left. by constructor.
    + right. exists (x :: pre), y, post. split_and!; [done| |done].
      by constructor.
  - right. exists [], x, l. split_and!; [done|constructor|done].
Qed.

Lemma resolved_dest V d (names : list sqlparser.TableName) sd :
  sd ∈ (omap (resolve V d) names).*1 -> dest sd = d.
Proof.
  intros Hin. apply list_elem_of_fmap in Hin as ([sd' name] & -> & Hin).
  apply list_elem_of_omap in Hin as (tab & _ & Hres).
  by destruct (resolve_Some V d tab sd' name Hres) as (table & _ & -> & _).
Qed.

Lemma tables_for_only sd (P : list (sendDest * sqlparser.TableName)) :
  (forall sd', sd' ∈ P.*1 -> sd' = sd) -> tables_for sd P = P.*2.
Proof.
  unfold tables_for. induction P as [|[k n] P IH]; [done|]. intros Hall.
  assert (k = sd) as -> by (apply Hall; left).
  rewrite filter_cons_True by done. cbn [fmap list_fmap snd]. f_equal.
  apply IH. intros sd' Hsd'. apply Hall. by right.
Qed.

Lemma sample_sort_sorts : sorts sample_vschema sample_sort.
Proof.
  assert (Htotal : Total (by_name sample_vschema)).
  { intros a b. unfold by_name. apply String.leb_total. }
  intros l. split.
  - apply merge_sort_Permutation.
  - by apply Sorted_merge_sort.
Qed.

(** X15: FLUSH TABLES groups the tables by keyspace.  When the vschema
    resolves every table and its destination can be hashed (a statement
    without tables needs no hashing), [buildFlushTables] rewrites the names
    of the statement to the resolved ones without qualifier and builds one
    [Send] per keyspace that holds a table: each carries the tables of its
    keyspace in the order of the statement and targets the vschema's
    destination, or all shards when there is none.  With a single keyspace
    the result is that [Send] with all the tables; otherwise it is a
    [Concatenate] of the [Send]s in the order of the names of their
    keyspaces. *)
Theorem buildFlushTables_groups_by_keyspace
    (sqlparser_String : sqlparser.Flush -> string)
    (sort_Slice : list sendDest -> list sendDest) (V : VSchema)
    (stmt : sqlparser.Flush) :
  sorts V sort_Slice ->
  let d := default key.DestinationAllShards (Destination V) in
  let P := omap (resolve V d) (sqlparser.TableNames stmt) in
  let stmt' := with_TableNames P.*2 stmt in
  (sqlparser.TableNames stmt <> [] -> key.hashable d = true) ->
  Forall (fun tab => is_Some (resolve V d tab)) (sqlparser.TableNames stmt) ->
  exists order,
    NoDup order /\
    (forall sd, sd ∈ order <-> sd ∈ P.*1) /\
    (forall sd, sd ∈ order -> dest sd = d) /\
    Sorted (by_name V) order /\
    (forall sd, order = [sd] -> tables_for sd P = P.*2) /\
    buildFlushTables sqlparser_String sort_Slice V stmt =
    (returns
       (inl match order with
            | [sd] => flush_source sqlparser_String stmt' P sd
            | _ => Concatenate (flush_source sqlparser_String stmt' P <$> order)
            end), stmt').
Proof.
  intros Hsort d P stmt' Hhash Hall.
  destruct (buildFlushTables_ok sqlparser_String sort_Slice V stmt Hsort Hhash
              Hall) as (order & Hnd & Hmem & Hsorted & Hres).
  exists order. split_and!; try done.
  - intros sd Hsd. apply Hmem in Hsd. by eapply resolved_dest.
  - intros sd ->. apply tables_for_only. intros sd' Hsd'.
    apply Hmem in Hsd'. by apply list_elem_of_singleton in Hsd'.
Qed.

Lemma buildFlushTables_groups_by_keyspace_witness :
  exists order,
    NoDup order /\
    (forall sd,
       sd ∈ order <->
       sd ∈ (omap (resolve sample_vschema key.DestinationAllShards)
               (sqlparser.TableNames sample_flush)).*1) /\
    (forall sd, sd ∈ order -> dest sd = key.DestinationAllShards) /\
    Sorted (by_name sample_vschema) order /\
    (forall sd,
       order = [sd] ->
       tables_for sd
         (omap (resolve sample_vschema key.DestinationAllShards)
            (sqlparser.TableNames sample_flush)) =
       (omap (resolve sample_vschema key.DestinationAllShards)
          (sqlparser.TableNames sample_flush)).*2) /\
    buildFlushTables sample_String sample_sort sample_vschema sample_flush =
    (returns
       (inl match order with
            | [sd] =>
                flush_source sample_String
                  (with_TableNames
                     (omap (resolve sample_vschema key.DestinationAllShards)
                        (sqlparser.TableNames sample_flush)).*2 sample_flush)
                  (omap (resolve sample_vschema key.DestinationAllShards)
                     (sqlparser.TableNames sample_flush)) sd
            | _ =>
                Concatenate
                  (flush_source sample_String
                     (with_TableNames
                        (omap (resolve sample_vschema key.DestinationAllShards)
                           (sqlparser.TableNames sample_flush)).*2 sample_flush)
                     (omap (resolve sample_vschema key.DestinationAllShards)
                        (sqlparser.TableNames sample_flush)) <$> order)
            end),
     with_TableNames
       (omap (resolve sample_vschema key.DestinationAllShards)
          (sqlparser.TableNames sample_flush)).*2 sample_flush).
Proof.
  apply (buildFlushTables_groups_by_keyspace sample_String sample_sort
           sample_vschema sample_flush sample_sort_sorts).
  - intros _. reflexivity.
  - repeat constructor; by eexists.
Defined.

(** The sample statement run: two keyspaces, sorted by name. *)
Example buildFlushTables_sample :
  buildFlushTables sample_String sample_sort sample_vschema sample_flush =
  (returns
     (inl (Concatenate
             [SendPrimitive
                (mkSend 0 key.DestinationAllShards "flush tables product" false
                   false);
              SendPrimitive
                (mkSend 1 key.DestinationAllShards
                   "flush tables orders, customer" false false)])),
   with_TableNames
     [sqlparser.mkTableName "orders" ""; sqlparser.mkTableName "product" "";
      sqlparser.mkTableName "customer" ""] sample_flush).
Proof. vm_compute. reflexivity. Qed.

(** X16: FLUSH TABLES stops at the first table the vschema does not
    resolve and returns its error (the vschema's, or a not-found error with
    the name as written), provided the destination can be hashed when a
    table comes before it.  The statement is left half rewritten: the names
    before that table are the resolved ones without qualifier, that table
    and the ones after it are untouched. *)
Theorem buildFlushTables_stops_at_first_unknown_table
    (sqlparser_String : sqlparser.Flush -> string)
    (sort_Slice : list sendDest -> list sendDest) (V : VSchema)
    (stmt : sqlparser.Flush) (pre post : list sqlparser.TableName)
    (tab : sqlparser.TableName) :
  let d := default key.DestinationAllShards (Destination V) in
  sqlparser.TableNames stmt = pre ++ tab :: post ->
  (pre <> [] -> key.hashable d = true) ->
  Forall (fun tab => is_Some (resolve V d tab)) pre ->
  resolve V d tab = None ->
  buildFlushTables sqlparser_String sort_Slice V stmt =
  (returns (inr (resolve_error V tab)),
   with_TableNames ((omap (resolve V d) pre).*2 ++ tab :: post) stmt).
Proof. apply buildFlushTables_error. Qed.

Lemma buildFlushTables_stops_at_first_unknown_table_witness :
  buildFlushTables sample_String sample_sort sample_vschema
    sample_flush_unknown =
  (returns (inr (NotFoundError "nosuch")),
   with_TableNames
     [sqlparser.mkTableName "orders" "";
      sqlparser.mkTableName "nosuch" "commerce";
      sqlparser.mkTableName "product" "commerce"] sample_flush_unknown).
Proof.
  apply (buildFlushTables_stops_at_first_unknown_table sample_String
           sample_sort sample_vschema sample_flush_unknown
           [sqlparser.mkTableName "orders" "customer"]
           [sqlparser.mkTableName "product" "commerce"]
           (sqlparser.mkTableName "nosuch" "commerce")).
  - reflexivity.
  - intros _. reflexivity.
  - repeat constructor. by eexists.
  - reflexivity.
Defined.

(** X17: a [Concatenate] returned by [buildFlushPlan] always has at least
    two sources, one [Send] per keyspace, for pairwise different keyspaces,
    in the order of their names: a FLUSH without tables or with tables of
    a single keyspace is never wrapped. *)
Theorem buildFlushPlan_Concatenate_has_several_keyspaces
    (sqlparser_String : sqlparser.Flush -> string)
    (sort_Slice : list sendDest -> list sendDest) (V : VSchema)
    (stmt stmt' : sqlparser.Flush) (sources : list Primitive) :
  sorts V sort_Slice ->
  buildFlushPlan sqlparser_String sort_Slice V stmt =
  (returns (inl (Concatenate sources)), stmt') ->
  (2 <= length sources)%nat /\
  exists order,
    sources =
    flush_source sqlparser_String stmt'
      (omap (resolve V (default key.DestinationAllShards (Destination V)))
         (sqlparser.TableNames stmt)) <$> order /\
    NoDup (ks <$> order) /\
    Sorted (by_name V) order.
Proof.
  intros Hsort. unfold buildFlushPlan.
  destruct (decide _) as [Hlen|Hlen].
  { unfold buildFlushOptions.
    by destruct (TargetDestination_ V "") as [[??]|]. }
  set (d := default key.DestinationAllShards (Destination V)).
  destruct (key.hashable d) eqn:Hh.
  2: { (* the first table ends the call: an error or the panic *)
       destruct (sqlparser.TableNames stmt) as [|tab post] eqn:Hn; [done|].
       destruct (resolve V d tab) as [[sd name]|] eqn:Hr.
       - by rewrite (buildFlushTables_unhashable sqlparser_String sort_Slice V
                       stmt tab name post sd Hn Hh Hr).
       - by rewrite (buildFlushTables_error sqlparser_String sort_Slice V stmt
                       [] post tab Hn (fun H => False_ind _ (H eq_refl))
                       (Forall_nil_2 _) Hr). }
  destruct (first_failure (fun tab => is_Some (resolve V d tab))
              (sqlparser.TableNames stmt))
    as [Hall|(pre & tab & post & Hnames & Hpre & Hfail)].
  2: { rewrite (buildFlushTables_error sqlparser_String sort_Slice V stmt pre
                  post tab Hnames (fun _ => Hh) Hpre); [done|].
       destruct (resolve V d tab) eqn:Hr; [|done]. destruct Hfail. by eexists. }
  destruct (buildFlushTables_ok sqlparser_String sort_Slice V stmt Hsort
              (fun _ => Hh) Hall)
    as (order & Hnd & Hmem & Hsorted & ->).
  fold d.
  destruct order as [|a [|b order]].
  - (* there is a table, so there is a key *)
    destruct (sqlparser.TableNames stmt) as [|tab names] eqn:Hn; [done|].
    apply Forall_cons in Hall as [[[sd name] Hres] _].
    assert (Hin : sd ∈ (omap (resolve V d) (tab :: names)).*1).
    { cbn [omap list_omap]. rewrite Hres. left. }
    apply Hmem in Hin. by apply elem_of_nil in Hin.
  - done.
  - intros [= <- <-]. split; [cbn; lia|].
    exists (a :: b :: order). split_and!; [done| |done].
    apply NoDup_fmap_2_strong; [|done].
    intros x y Hx Hy Hks. apply Hmem in Hx, Hy.
    apply (resolved_dest V d) in Hx, Hy. destruct x, y. simpl in *. congruence.
Qed.

Lemma buildFlushPlan_Concatenate_has_several_keyspaces_witness :
  exists sources stmt',
    buildFlushPlan sample_String sample_sort sample_vschema sample_flush =
    (returns (inl (Concatenate sources)), stmt') /\
    (2 <= length sources)%nat.
Proof.
  destruct (buildFlushPlan sample_String sample_sort sample_vschema
              sample_flush) as [[[[| | |sources]|err]|e] stmt'] eqn:Hplan;
    try (vm_compute in Hplan; discriminate Hplan).
  exists sources, stmt'. split; [reflexivity|].
  apply (buildFlushPlan_Concatenate_has_several_keyspaces sample_String
           sample_sort sample_vschema sample_flush stmt' sources
           sample_sort_sorts Hplan).
Defined.

(** X19: FLUSH TABLES with a destination that is a slice.  When the
    vschema's destination cannot be hashed (a list of shards, a keyspace id,
    a list of keyspace ids or of key ranges) and the vschema resolves the
    first table of the statement, [buildFlushTables] does not return: using
    the destination in the key of its map panics in the first round, after
    the name of that table was rewritten in the statement; the names after
    it are untouched. *)
Theorem buildFlushTables_panics_on_unhashable_destination
    (sqlparser_String : sqlparser.Flush -> string)
    (sort_Slice : list sendDest -> list sendDest) (V : VSchema)
    (stmt : sqlparser.Flush) (tab name : sqlparser.TableName)
    (post : list sqlparser.TableName) (sd : sendDest) :
  let d := default key.DestinationAllShards (Destination V) in
  sqlparser.TableNames stmt = tab :: post ->
  key.hashable d = false ->
  resolve V d tab = Some (sd, name) ->
  buildFlushTables sqlparser_String sort_Slice V stmt =
  (panics (hash_of_unhashable_type d), with_TableNames (name :: post) stmt) /\
  buildFlushPlan sqlparser_String sort_Slice V stmt =
  buildFlushTables sqlparser_String sort_Slice V stmt.
Proof.
  intros d Hnames Hh Hres. split.
  - by eapply buildFlushTables_unhashable.
  - unfold buildFlushPlan. rewrite Hnames. by rewrite decide_False.
Qed.

Lemma buildFlushTables_panics_on_unhashable_destination_witness :
  buildFlushTables sample_String sample_sort sample_vschema_keyspace_id
    sample_flush =
  (panics (hash_of_unhashable_type (key.DestinationKeyspaceID [Byte.x80])),
   with_TableNames
     [sqlparser.mkTableName "orders" ""; sqlparser.mkTableName "product" "";
      sqlparser.mkTableName "customer" ""] sample_flush) /\
  buildFlushPlan sample_String sample_sort sample_vschema_keyspace_id
    sample_flush =
  buildFlushTables sample_String sample_sort sample_vschema_keyspace_id
    sample_flush.
Proof.
  apply (buildFlushTables_panics_on_unhashable_destination sample_String
           sample_sort sample_vschema_keyspace_id sample_flush
           (sqlparser.mkTableName "orders" "customer")
           (sqlparser.mkTableName "orders" "")
           [sqlparser.mkTableName "product" ""; sqlparser.mkTableName "customer" ""]
           (mkSendDest 1 (key.DestinationKeyspaceID [Byte.x80])));
    reflexivity.
Defined.

(** ** The choice of the planner *)

(** X18: a valid planner directive in the comments decides alone: the
    planner chosen is the same for every vschema and whether or not the
    statement has an outer join.  Without a valid directive, a statement
    with a left or right join gets the Gen4 planner whatever the vschema's
    planner is; so the V3 planner alone is chosen for such a statement only
    when a directive asks for it. *)
Theorem planner_directive_then_outer_join_then_vschema
    (PlannerNameToVersion : string -> plancontext.PlannerVersion * bool)
    (V : VSchema) (stmt : Observed) (query : string) :
  (forall val v V' stmt',
     planner_directive stmt = Some val ->
     PlannerNameToVersion val = (v, true) ->
     planner_directive stmt' = Some val ->
     getConfiguredPlanner PlannerNameToVersion V stmt query =
     getConfiguredPlanner PlannerNameToVersion V' stmt' query) /\
  ((forall val,
      planner_directive stmt = Some val ->
      (PlannerNameToVersion val).2 = false) ->
   has_outer_join stmt = true ->
   getConfiguredPlanner PlannerNameToVersion V stmt query =
   gen4Planner query plancontext.Gen4) /\
  (has_outer_join stmt = true ->
   getConfiguredPlanner PlannerNameToVersion V stmt query = v3planner query ->
   exists val,
     planner_directive stmt = Some val /\
     PlannerNameToVersion val = (plancontext.V3, true)).
Proof.
  unfold getConfiguredPlanner, getPlannerFromQuery, getPlannerFromQueryHint.
  split_and!.
  - intros val v V' stmt' Hd Hv Hd'. rewrite Hd, Hd', Hv. reflexivity.
  - intros Hhint Hjoin. rewrite Hjoin.
    destruct (planner_directive stmt) as [val|]; [|done].
    specialize (Hhint val eq_refl).
    destruct (PlannerNameToVersion val) as [v found]. cbn in Hhint.
    by subst found.
  - intros Hjoin. rewrite Hjoin.
    destruct (planner_directive stmt) as [val|]; [|done].
    destruct (PlannerNameToVersion val) as [v [|]] eqn:Hv; [|done].
    destruct v; try done. eauto.
Qed.

Lemma planner_directive_then_outer_join_then_vschema_witness :
  getConfiguredPlanner sample_names sample_vschema
    (mkObserved (Some "gen4") false) "select 1" =
  getConfiguredPlanner sample_names sample_vschema
    (mkObserved (Some "gen4") true) "select 1" /\
  getConfiguredPlanner sample_names sample_vschema
    (mkObserved (Some "fast") true) "select 1" =
  gen4Planner "select 1" plancontext.Gen4.
Proof.
  destruct (planner_directive_then_outer_join_then_vschema sample_names
              sample_vschema (mkObserved (Some "gen4") false) "select 1")
    as (Hhint & _ & _).
  destruct (planner_directive_then_outer_join_then_vschema sample_names
              sample_vschema (mkObserved (Some "fast") true) "select 1")
    as (_ & Hjoin & _).
  split.
  - apply (Hhint "gen4" plancontext.Gen4); reflexivity.
  - apply Hjoin; [|reflexivity]. intros val [= <-]. reflexivity.
Defined.

End planbuilder_facts.
